(** * Duty-roster engine of the laboratory roster server (main.py)

    A shallow embedding of [RosterEngine] (leave resolver, night-sequence
    phase, preference fill phase, statistics, the rows of the Excel
    export), of the [validate_roster] rule checker and of the key check,
    the request bounds and the leave listing of the API, with the
    properties stated about them.

    Conventions of the embedding:
    - a Python exception ([ValueError] of [date(...)], [KeyError] of a
      dictionary subscript, [IndexError] of a list subscript) is [None] in
      the option monad; a Python [None] value is the inner [None] of an
      [option string] cell;
    - a Python [dict] is an insertion-ordered association list with
      update-in-place ([Dict.set]);
    - day indexes ([range(days)]) are [nat]; calendar arithmetic is on [Z],
      whose [/] and [mod] are Python's [//] and [%];
    - line numbers are those of main.py. *)

From Stdlib Require Import ZArith String Ascii List Bool Lia.
From stdpp Require Import base tactics option list list_monad strings.

Local Open Scope string_scope.
Local Open Scope nat_scope.

(** ** Python dictionaries with string keys *)

Module Dict.
Section Defs.
Context {V : Type}.

(** [d.get(k)] *)
Fixpoint get (k : string) (d : list (string * V)) : option V :=
  match d with
  | [] => None
  | (k', v) :: r => if String.eqb k' k then Some v else get k r
  end.

(** [d[k] = v]: the value of an existing key is replaced where it
    stands, a new key goes to the end. *)
Fixpoint set (k : string) (v : V) (d : list (string * V)) : list (string * V) :=
  match d with
  | [] => [(k, v)]
  | (k', v') :: r =>
      if String.eqb k' k then (k', v) :: r else (k', v') :: set k v r
  end.

(** [k in d] *)
Definition mem (k : string) (d : list (string * V)) : bool :=
  match get k d with Some _ => true | None => false end.

Definition keys (d : list (string * V)) : list string := map fst d.
Definition values (d : list (string * V)) : list V := map snd d.
End Defs.
End Dict.

Definition dict (V : Type) : Type := list (string * V).

(** [x in l] for a list of strings. *)
Definition str_in (x : string) (l : list string) : bool :=
  existsb (String.eqb x) l.

(** ** Calendar dates (datetime.date) *)

Record date := Date { year : Z; month : Z; day : Z }.

Definition is_leap (y : Z) : bool :=
  ((y mod 4 =? 0) && (negb (y mod 100 =? 0) || (y mod 400 =? 0)))%Z.

Definition days_in_month_table (m : Z) : Z :=
  match m with
  | 1 => 31 | 2 => 28 | 3 => 31 | 4 => 30 | 5 => 31 | 6 => 30
  | 7 => 31 | 8 => 31 | 9 => 30 | 10 => 31 | 11 => 30 | 12 => 31
  | _ => 0
  end%Z.

Definition days_in_month (y m : Z) : Z :=
  if ((m =? 2) && is_leap y)%Z then 29%Z else days_in_month_table m.

Definition days_before_month_table (m : Z) : Z :=
  match m with
  | 1 => 0 | 2 => 31 | 3 => 59 | 4 => 90 | 5 => 120 | 6 => 151
  | 7 => 181 | 8 => 212 | 9 => 243 | 10 => 273 | 11 => 304 | 12 => 334
  | _ => 0
  end%Z.

Definition days_before_month (y m : Z) : Z :=
  (days_before_month_table m + (if (2 <? m) && is_leap y then 1 else 0))%Z.

Definition days_before_year (y : Z) : Z :=
  (let y1 := y - 1 in y1 * 365 + y1 / 4 - y1 / 100 + y1 / 400)%Z.

(** [date(y, m, d)]: [ValueError] outside year 1..9999, month 1..12 or the
    days of the month. *)
Definition mk_date (y m d : Z) : option date :=
  if ((1 <=? y) && (y <=? 9999) && (1 <=? m) && (m <=? 12)
      && (1 <=? d) && (d <=? days_in_month y m))%Z
  then Some (Date y m d) else None.

Definition toordinal (d : date) : Z :=
  (days_before_year (year d) + days_before_month (year d) (month d) + day d)%Z.

(** [d.weekday()]: Monday is 0, Saturday 5, Sunday 6. *)
Definition weekday (d : date) : Z := ((toordinal d + 6) mod 7)%Z.

(** [(a - b).days] *)
Definition days_between (a b : date) : Z := (toordinal a - toordinal b)%Z.

(** Dates compare as the triples (year, month, day). *)
Definition date_cmp (a b : date) : comparison :=
  match (year a ?= year b)%Z with
  | Eq => match (month a ?= month b)%Z with
          | Eq => (day a ?= day b)%Z
          | c => c
          end
  | c => c
  end.

Definition date_leb (a b : date) : bool :=
  match date_cmp a b with Gt => false | _ => true end.

(** [a <= b] and [a < b] on dates, as propositions. *)
Definition date_le (a b : date) : Prop := date_cmp a b <> Gt.
Definition date_lt (a b : date) : Prop := date_cmp a b = Lt.

Definition digit (n : Z) : ascii := ascii_of_nat (48 + Z.to_nat (n mod 10)).

(** [d.isoformat()], that is [%04d-%02d-%02d]. *)
Definition isoformat (d : date) : string :=
  String (digit (year d / 1000)) (String (digit (year d / 100))
  (String (digit (year d / 10)) (String (digit (year d))
  (String "-" (String (digit (month d / 10)) (String (digit (month d))
  (String "-" (String (digit (day d / 10)) (String (digit (day d)) "")))))))))%Z.

(** [d.strftime("%A")] *)
Definition day_name_of (d : date) : string :=
  match weekday d with
  | 0 => "Monday" | 1 => "Tuesday" | 2 => "Wednesday" | 3 => "Thursday"
  | 4 => "Friday" | 5 => "Saturday" | _ => "Sunday"
  end%Z.

(** [d.strftime("%B")] *)
Definition month_name_of (d : date) : string :=
  match month d with
  | 1 => "January" | 2 => "February" | 3 => "March" | 4 => "April"
  | 5 => "May" | 6 => "June" | 7 => "July" | 8 => "August"
  | 9 => "September" | 10 => "October" | 11 => "November" | _ => "December"
  end%Z.

Definition digit_value (c : ascii) : option Z :=
  let n := nat_of_ascii c in
  if (48 <=? n) && (n <=? 57) then Some (Z.of_nat (n - 48)) else None.

(** The calendar form [YYYY-MM-DD] of [date.fromisoformat], the one the
    leave table is written in. *)
Definition fromisoformat_ymd (s : string) : option date :=
  match s with
  | String y1 (String y2 (String y3 (String y4 (String "-"
      (String m1 (String m2 (String "-" (String d1 (String d2 ""))))))))) =>
      a ← digit_value y1; b ← digit_value y2; c ← digit_value y3;
      e ← digit_value y4; f ← digit_value m1; g ← digit_value m2;
      h ← digit_value d1; i ← digit_value d2;
      mk_date (a * 1000 + b * 100 + c * 10 + e) (f * 10 + g) (h * 10 + i)%Z
  | _ => None
  end.

(** ** Configuration: the staff table and the leave table *)

(** A [shift_preference] dictionary, with the keys the engine reads
    ([no_pm], [no_emd], [no_bima], [pm_days] and [oh_few] are never read).
    An absent flag is falsy, an absent string is [None]. *)
Record ShiftPreference := {
  ptype : option string;
  weekend_day : option string;
  shuffle : bool;
  night_emd : bool
}.

(** An entry of [STAFF_DB], with the keys the engine reads ([name], [id],
    [role], [title] and [sections] are never read). *)
Record Staff := {
  code : string;
  night_eligible : bool;
  shift_preference : option ShiftPreference
}.

(** An entry of the leave table: the dates are kept as the ISO text of the
    source and parsed at each use. *)
Record LeaveEntry := {
  leave_code : string;
  leave_start : string;
  leave_end : string
}.

Definition default_preference : ShiftPreference :=
  {| ptype := Some "default"; weekend_day := None;
     shuffle := false; night_emd := false |}.

(** [t == s] for an optional string [t] and a literal [s]. *)
Definition is_str (t : option string) (s : string) : bool :=
  match t with Some x => String.eqb x s | None => false end.

(** [t is not None] *)
Definition is_set (t : option string) : bool :=
  match t with Some _ => true | None => false end.

(** [t in l] for an optional string [t] and a list of literals. *)
Definition opt_in (t : option string) (l : list string) : bool :=
  existsb (is_str t) l.

(** ** Results *)

(** One row of the roster. *)
Record DayEntry := {
  entry_date : string;
  day_name : string;
  day_number : nat;
  is_weekend : bool;
  is_sunday : bool;
  is_saturday : bool;
  assignments : dict string
}.

(** The dictionary [generate] returns ([metadata] holds constants and the
    clock's date and is left out). *)
Record RosterResult := {
  res_month : Z;
  res_year : Z;
  month_name : string;
  total_days : Z;
  total_staff : nat;
  shift_distribution : dict nat;
  night_shift_distribution : dict nat;
  roster : list DayEntry
}.

(** ** The night phase's state *)

(** What a candidate's turn committed: a new four-day sequence (lines
    336-341) or the continuation branch (lines 322-329). *)
Inductive commit := StartSequence | ContinueSequence.

Record event := { ev_day : nat; ev_staff : string; ev_commit : commit }.

Definition commit_eqb (a b : commit) : bool :=
  match a, b with
  | StartSequence, StartSequence | ContinueSequence, ContinueSequence => true
  | _, _ => false
  end.

(** The locals of [generate] that the night phase updates. [history] is a
    ghost record of the commits in the order they happen; nothing reads
    it ([night_day_ghost]). *)
Record NightState := {
  schedule : dict (list (option string));
  night_counts : dict nat;
  assigned_tonight : nat;
  history : list event
}.

(** [lst[i] = v]: [IndexError] out of range. *)
Definition list_set {A} (l : list A) (i : nat) (v : A) : option (list A) :=
  if i <? length l then Some (<[i:=v]> l) else None.

(** [schedule[c][i]] *)
Definition cell_at (sched : dict (list (option string))) (c : string) (i : nat)
  : option (option string) :=
  row ← Dict.get c sched; row !! i.

(** [schedule[c][i] = v]: the row of [c] is updated in place. Every row is
    a list of its own ([[None] * days] is evaluated once per key), so no
    other row changes. *)
Definition cell_set (sched : dict (list (option string))) (c : string) (i : nat)
  (v : string) : option (dict (list (option string))) :=
  row ← Dict.get c sched;
  row' ← list_set row i (Some v);
  Some (Dict.set c row' sched).

(** Insertion of [x] before the first element with a larger key. *)
Fixpoint insert_by_key {A} (x : nat * A) (l : list (nat * A)) : list (nat * A) :=
  match l with
  | [] => [x]
  | y :: r => if fst x <=? fst y then x :: y :: r else y :: insert_by_key x r
  end.

(** A stable sort by ascending key; a stable sort has one result, that of
    [sorted(l, key=...)]. *)
Definition stable_sort {A} (l : list (nat * A)) : list (nat * A) :=
  foldr insert_by_key [] l.

(** [sorted(l, key=lambda x: counts[x])]: the keys are computed first, in
    the order of [l]. *)
Definition sorted_by_count (counts : dict nat) (l : list string)
  : option (list string) :=
  keyed ← mapM (λ c, n ← Dict.get c counts; Some (n, c)) l;
  Some (map snd (stable_sort keyed)).

(** [all(row[day + i] is None for i in range(n))]: the generator stops at
    the first cell that is taken. *)
Fixpoint all_free (sched : dict (list (option string))) (c : string)
  (day : nat) (offsets : list nat) : option bool :=
  match offsets with
  | [] => Some true
  | i :: r =>
      cur ← cell_at sched c (day + i);
      match cur with
      | None => all_free sched c day r
      | Some _ => Some false
      end
  end.

(** How the look-back of lines 312-330 ends: in the branch that continues
    a sequence and leaves the turn, or with the flag [can_start]. *)
Inductive LookBack :=
| Continued (st : NightState)
| Proceed (can_start : bool).

(** A [for] loop over [l] whose body may raise. *)
Fixpoint for_each {A S} (body : S → A → option S) (l : list A) (s : S)
  : option S :=
  match l with
  | [] => Some s
  | x :: r => s' ← body s x; for_each body r s'
  end.

(** A dictionary comprehension [{k: v for ...}] over the pairs of [l]. *)
Definition dict_of {V} (l : list (string * V)) : dict V :=
  fold_left (λ d kv, Dict.set (fst kv) (snd kv) d) l [].

(** ** RosterEngine *)

(** [RosterEngine.__init__]: [self.staff = {s["code"]: s for s in STAFF_DB}] *)
Definition staff_of (staff_db : list Staff) : dict Staff :=
  dict_of (map (λ s, (code s, s)) staff_db).

Section RosterEngine.
(** The attributes of the engine, [self.staff] and [self.leave_records],
    and the standard library's [date.fromisoformat]. *)
Variable staff : dict Staff.
Variable leave_records : list LeaveEntry.
Variable fromisoformat : string → option date.

Fixpoint leave_scan (entries : list LeaveEntry) (staff_code : string)
  (current_date : date) : option bool :=
  match entries with
  | [] => Some false
  | entry :: rest =>
      if String.eqb (leave_code entry) staff_code then
        start ← fromisoformat (leave_start entry);
        stop ← fromisoformat (leave_end entry);
        if date_leb start current_date && date_leb current_date stop
        then Some true
        else if (year stop <? year start)%Z
                && (date_leb start current_date || date_leb current_date stop)
        then Some true
        else leave_scan rest staff_code current_date
      else leave_scan rest staff_code current_date
  end.

Definition is_on_leave (staff_code : string) (current_date : date)
  : option bool :=
  leave_scan leave_records staff_code current_date.

Definition get_days_in_month (yr mo : Z) : option Z :=
  next_month ← (if (mo =? 12)%Z then mk_date (yr + 1) 1 1
                else mk_date yr (mo + 1) 1);
  first ← mk_date yr mo 1;
  Some (days_between next_month first).

Definition get_staff_preference (c : string) : ShiftPreference :=
  match Dict.get c staff with
  | Some s => default default_preference (shift_preference s)
  | None => default_preference
  end.

(** Lines 266-270. *)
Definition night_eligible_codes : list string :=
  map fst
    (List.filter
       (λ cs, night_eligible (snd cs)
              && negb (opt_in (ptype (get_staff_preference (fst cs)))
                         ["strict_oh"; "pm_predominant"]))
       staff).

(** Lines 278-282. *)
Definition night_predominant_codes (night_eligible : list string)
  : list string :=
  List.filter
    (λ c, opt_in (ptype (get_staff_preference c))
            ["night_predominant"; "emd_predominant"]
          && str_in c night_eligible)
    (Dict.keys staff).

Section Generate.
(** The arguments of a call of [generate] and the locals it sets before
    its loops: [days], [night_eligible] and [night_predominant]. *)
Variables (yr mo : Z) (days : nat).
Variables (night_eligible night_predominant : list string).

(** Lines 273-274. *)
Definition initial_state : NightState :=
  {| schedule := dict_of (map (λ c, (c, replicate days None)) (Dict.keys staff));
     night_counts := dict_of (map (λ c, (c, 0)) night_eligible);
     assigned_tonight := 0;
     history := [] |}.

(** Lines 293-299. *)
Definition candidates_of (st : NightState) : option (list string) :=
  first ← sorted_by_count (night_counts st)
            (List.filter (λ c, str_in c night_eligible) night_predominant);
  others ← sorted_by_count (night_counts st)
             (List.filter (λ c, negb (str_in c night_predominant))
                night_eligible);
  Some (first ++ others)%list.

Definition commit_event (st : NightState) (sched : dict (list (option string)))
  (day : nat) (candidate : string) (nights : nat) (what : commit)
  : option NightState :=
  n ← Dict.get candidate (night_counts st);
  Some {| schedule := sched;
          night_counts := Dict.set candidate (n + nights) (night_counts st);
          assigned_tonight := assigned_tonight st + 1;
          history := (history st ++
                     [{| ev_day := day; ev_staff := candidate;
                         ev_commit := what |}])%list |}.

(** Lines 322-329, the branch commented "Continue sequence". *)
Definition continue_sequence (day : nat) (candidate : string)
  (st : NightState) : option NightState :=
  s1 ← cell_set (schedule st) candidate day "N";
  s2 ← (if day + 1 <? days then cell_set s1 candidate (day + 1) "SD"
        else Some s1);
  s3 ← (if day + 2 <? days then cell_set s2 candidate (day + 2) "DO"
        else Some s2);
  commit_event st s3 day candidate 1 ContinueSequence.

(** Lines 336-341. *)
Definition start_sequence (day : nat) (candidate : string) (st : NightState)
  : option NightState :=
  s1 ← cell_set (schedule st) candidate day "N";
  s2 ← cell_set s1 candidate (day + 1) "N";
  s3 ← cell_set s2 candidate (day + 2) "SD";
  s4 ← cell_set s3 candidate (day + 3) "DO";
  commit_event st s4 day candidate 2 StartSequence.

(** Lines 312-330. *)
Definition look_back (day : nat) (candidate : string) (st : NightState)
  : option LookBack :=
  if 0 <? day then
    prev ← cell_at (schedule st) candidate (day - 1);
    let can_start := negb (opt_in prev ["N"; "SD"]) in
    if is_str prev "N" then
      second_night ← (if 1 <? day
                      then p2 ← cell_at (schedule st) candidate (day - 2);
                           Some (is_str p2 "N")
                      else Some false);
      if (second_night : bool) then Some (Proceed false)
      else st' ← continue_sequence day candidate st;
           Some (Continued st')
    else Some (Proceed can_start)
  else Some (Proceed true).

(** Line 334. *)
Definition leave_check (day : nat) (candidate : string)
  : option (list bool) :=
  mapM (λ i, d ← mk_date yr mo (Z.of_nat (day + i + 1));
             is_on_leave candidate d)
       (seq 0 4).

(** One turn of the candidate loop, lines 305-341 (without the cap test
    of lines 302-303). *)
Definition night_turn (day : nat) (current_date : date)
  (st : NightState) (candidate : string) : option NightState :=
  on_leave ← is_on_leave candidate current_date;
  if (on_leave : bool) then Some st else
  cur ← cell_at (schedule st) candidate day;
  if is_set cur then Some st else
  back ← look_back day candidate st;
  match back with
  | Continued st' => Some st'
  | Proceed can_start =>
      if can_start && (day + 3 <? days) then
        free ← all_free (schedule st) candidate day (seq 0 4);
        if (free : bool) then
          on_leave4 ← leave_check day candidate;
          if negb (existsb id on_leave4)
          then start_sequence day candidate st
          else Some st
        else Some st
      else Some st
  end.

(** The candidate loop, lines 301-341: the cap test comes first in every
    turn and leaves the loop. *)
Fixpoint night_candidates (day : nat) (current_date : date)
  (candidates : list string) (st : NightState) : option NightState :=
  match candidates with
  | [] => Some st
  | candidate :: rest =>
      if 2 <=? assigned_tonight st then Some st
      else st' ← night_turn day current_date st candidate;
           night_candidates day current_date rest st'
  end.

Definition reset_tonight (st : NightState) : NightState :=
  {| schedule := schedule st; night_counts := night_counts st;
     assigned_tonight := 0; history := history st |}.

(** One day of phase 1, lines 285-341. *)
Definition night_day (st : NightState) (day : nat)
  : option NightState :=
  current_date ← mk_date yr mo (Z.of_nat day + 1);
  if (weekday current_date =? 6)%Z then Some st else
  let st0 := reset_tonight st in
  candidates ← candidates_of st0;
  night_candidates day current_date candidates st0.

(** Phase 1, lines 273-341. *)
Definition night_phase : option NightState :=
  for_each night_day (seq 0 days) initial_state.

(** The preference dispatch of phase 2, lines 370-458. *)
Definition preferred_shift (counts : dict nat) (c : string)
  (entry : DayEntry) (day : nat) : string :=
  let pref := get_staff_preference c in
  let pref_type := default "default" (ptype pref) in
  if String.eqb pref_type "strict_oh" then
    if is_sunday entry then
      if is_str (weekend_day pref) "Sunday" then "OH" else "DO"
    else if is_saturday entry then
      if is_str (weekend_day pref) "Saturday" then "OH" else "DO"
    else "OH"
  else if String.eqb pref_type "oh_weekdays_pm_weekends" then
    if is_weekend entry then
      if shuffle pref then
        if (day / 7) mod 2 =? 0
        then (if is_saturday entry then "PM" else "DO")
        else (if is_sunday entry then "PM" else "DO")
      else "PM"
    else "OH"
  else if String.eqb pref_type "oh_weekdays_pm_sunday" then
    if is_sunday entry then "PM"
    else if is_saturday entry then "DO"
    else "OH"
  else if String.eqb pref_type "emd_predominant" then
    if is_sunday entry && is_str (weekend_day pref) "Sunday" then "OH"
    else if is_saturday entry then "DO"
    else if night_emd pref && Dict.mem c counts
         then (if day mod 4 =? 0 then "OH+EMD" else "OH")
         else (if day mod 2 =? 0 then "OH+EMD" else "OH")
  else if String.eqb pref_type "pm_predominant" then
    if is_weekend entry then "DO"
    else if negb (day mod 3 =? 0) then "PM" else "OH"
  else if String.eqb pref_type "night_predominant" then
    if is_weekend entry then "DO"
    else if day mod 3 =? 0 then "OH" else "DO"
  else if String.eqb pref_type "bima_predominant" then
    if is_sunday entry && is_str (weekend_day pref) "Sunday" then "OH"
    else if is_saturday entry then "DO"
    else "OH+BIMA"
  else
    if is_sunday entry then "DO"
    else if is_saturday entry then "DO"
    else "OH".

(** The duty of one cell, lines 359-458. *)
Definition fill_cell (st : NightState) (day : nat) (current_date : date)
  (entry : DayEntry) (c : string) : option string :=
  on_leave ← is_on_leave c current_date;
  if (on_leave : bool) then Some "A" else
  cur ← cell_at (schedule st) c day;
  match cur with
  | Some shift => Some shift
  | None => Some (preferred_shift (night_counts st) c entry day)
  end.

Definition with_assignments (entry : DayEntry) (a : dict string) : DayEntry :=
  {| entry_date := entry_date entry; day_name := day_name entry;
     day_number := day_number entry; is_weekend := is_weekend entry;
     is_sunday := is_sunday entry; is_saturday := is_saturday entry;
     assignments := a |}.

(** One row of phase 2, lines 347-460. *)
Definition fill_day (st : NightState) (day : nat)
  : option DayEntry :=
  current_date ← mk_date yr mo (Z.of_nat day + 1);
  let entry :=
    {| entry_date := isoformat current_date;
       day_name := day_name_of current_date;
       day_number := day + 1;
       is_weekend := (5 <=? weekday current_date)%Z;
       is_sunday := (weekday current_date =? 6)%Z;
       is_saturday := (weekday current_date =? 5)%Z;
       assignments := [] |} in
  a ← for_each
        (λ acc cs, shift ← fill_cell st day current_date entry (fst cs);
                   Some (Dict.set (fst cs) shift acc))
        staff [];
  Some (with_assignments entry a).

(** Phase 2, lines 344-460. *)
Definition fill_phase (st : NightState)
  : option (list DayEntry) :=
  mapM (fill_day st) (seq 0 days).

End Generate.

(** Lines 463-466. *)
Definition count_shift (counts : dict nat) (shift : string) : dict nat :=
  Dict.set shift (default 0 (Dict.get shift counts) + 1) counts.

Definition shift_counts_of (r : list DayEntry) : dict nat :=
  fold_left
    (λ counts entry, fold_left count_shift (Dict.values (assignments entry)) counts)
    r [].

(** Phase 1 of [generate(month, year)] on its own: the state the night
    phase ends in. *)
Definition night_run (mo yr : Z) : option NightState :=
  days ← get_days_in_month yr mo;
  let night_eligible := night_eligible_codes in
  let night_predominant := night_predominant_codes night_eligible in
  night_phase yr mo (Z.to_nat days) night_eligible night_predominant.

(** Phase 1 of [generate(month, year)] cut after its first [k] days: the
    state at the end of the turn of the day loop for day [k - 1], with the
    counter [assigned_tonight] as that day leaves it. *)
Definition night_run_upto (mo yr : Z) (k : nat) : option NightState :=
  days ← get_days_in_month yr mo;
  let night_eligible := night_eligible_codes in
  let night_predominant := night_predominant_codes night_eligible in
  for_each (night_day yr mo (Z.to_nat days) night_eligible night_predominant)
           (seq 0 k) (initial_state (Z.to_nat days) night_eligible).

(** [generate(month, year)]. [range(days)] and [[None] * days] are both
    empty for [days <= 0], as [Z.to_nat] is. *)
Definition generate (mo yr : Z) : option RosterResult :=
  days ← get_days_in_month yr mo;
  let night_eligible := night_eligible_codes in
  let night_predominant := night_predominant_codes night_eligible in
  st ← night_phase yr mo (Z.to_nat days) night_eligible night_predominant;
  r ← fill_phase yr mo (Z.to_nat days) st;
  first ← mk_date yr mo 1;
  Some {| res_month := mo; res_year := yr;
          month_name := month_name_of first;
          total_days := days;
          total_staff := length staff;
          shift_distribution := shift_counts_of r;
          night_shift_distribution := night_counts st;
          roster := r |}.
End RosterEngine.

(** ** The rule checker *)

Record Violation := {
  v_type : string;
  v_staff : string;
  v_date : string;
  v_expected : string;
  v_actual : string
}.

Record Validation := {
  valid : bool;
  violations : list Violation;
  checks_performed : list string
}.

(** A value as an f-string prints it: [None] for an absent key. *)
Definition show_shift (t : option string) : string := default "None" t.

(** A row of [roster_data["roster"]] as the checker reads it: the request
    body is a free dictionary, so the keys [date] and [assignments] may be
    absent. The duties of [assignments] are strings, as [generate] writes
    them. *)
Record DayRow := {
  row_date : option string;
  row_assignments : option (dict string)
}.

(** [day.get("assignments", {})] *)
Definition assignments_of (row : DayRow) : dict string :=
  default [] (row_assignments row).

(** [roster[i]["assignments"].get(c)]: the subscript raises [KeyError]
    on a row without the key. *)
Definition shift_at (r : list DayRow) (i : nat) (c : string)
  : option (option string) :=
  row ← r !! i; a ← row_assignments row; Some (Dict.get c a).

(** The body of the inner loop of [validate_roster], lines 623-636;
    [day["date"]] is read when a violation is recorded and raises
    [KeyError] on a row without the key. *)
Definition check_cell (r : list DayRow) (day_idx : nat) (day : DayRow)
  (found : list Violation) (cs : string * string) : option (list Violation) :=
  if String.eqb (snd cs) "N" then
    if day_idx + 3 <? length r then
      next1 ← shift_at r (day_idx + 1) (fst cs);
      next2 ← shift_at r (day_idx + 2) (fst cs);
      next3 ← shift_at r (day_idx + 3) (fst cs);
      if negb (is_str next1 "N" && is_str next2 "SD" && is_str next3 "DO") then
        if negb (is_str next1 "A") then
          d ← row_date day;
          Some (found ++
                [{| v_type := "night_pattern"; v_staff := fst cs;
                    v_date := d; v_expected := "N,SD,DO";
                    v_actual := show_shift next1 +:+ "," +:+ show_shift next2
                                +:+ "," +:+ show_shift next3 |}])%list
        else Some found
      else Some found
    else Some found
  else Some found.

(** [validate_roster] on the rows of [roster_data["roster"]] (no rows
    when the key is absent) and the rule names of the request. *)
Definition validate_roster (r : list DayRow) (rules : list string)
  : option Validation :=
  found ← (if str_in "night_pattern" rules then
             for_each
               (λ found ie, for_each (check_cell r (fst ie) (snd ie))
                                     (assignments_of (snd ie)) found)
               (combine (seq 0 (length r)) r) []
           else Some []);
  Some {| valid := length found =? 0; violations := found;
          checks_performed := rules |}.

(** A row of a generated roster as the checker reads it: both keys are
    there. *)
Definition json_row (entry : DayEntry) : DayRow :=
  {| row_date := Some (entry_date entry);
     row_assignments := Some (assignments entry) |}.

Definition json_rows (r : list DayEntry) : list DayRow := map json_row r.

(** ** The Excel export *)

(** [row.update(d)] *)
Definition dict_update {V} (row d : dict V) : dict V :=
  fold_left (λ acc kv, Dict.set (fst kv) (snd kv) acc) d row.

(** The rows [export_to_excel] builds for the data frame, lines 492-498:
    the date, the day name, then the assignments of the row. What pandas
    and openpyxl make of them is not modelled. *)
Definition export_rows (r : list DayEntry) : list (dict string) :=
  map (λ day, dict_update [("DATE", entry_date day); ("DAY", day_name day)]
                (assignments day)) r.

(** The columns it selects, lines 490 and 501. *)
Definition export_cols (staff : dict Staff) : list string :=
  "DATE" :: "DAY" :: Dict.keys staff.

(** ** The API *)

(** [RosterRequest], lines 30-34. *)
Record RosterRequest := {
  req_month : Z;
  req_year : Z;
  include_excel : bool;
  req_format : string
}.

(** The bounds of the fields [month] ([ge=1, le=12]) and [year]
    ([ge=2024, le=2030]): a request outside them does not reach the
    handler. *)
Definition request_ok (q : RosterRequest) : bool :=
  ((1 <=? req_month q) && (req_month q <=? 12)
   && (2024 <=? req_year q) && (req_year q <=? 2030))%Z.

(** [sum(result["shift_distribution"].values())], line 604. *)
Definition total_assignments (r : RosterResult) : nat :=
  list_sum (Dict.values (shift_distribution r)).

(** [HTTPException(status_code=..., detail=...)] *)
Record HTTPException := { status_code : nat; detail : string }.

(** The truth value of an optional string: [None] and the empty string
    are falsy. *)
Definition truthy (s : option string) : bool :=
  match s with Some (String _ _) => true | _ => false end.

(** [a == b] on optional strings. *)
Definition opt_eqb (a b : option string) : bool :=
  match a, b with
  | Some x, Some y => String.eqb x y
  | None, None => true
  | _, _ => false
  end.

(** [verify_api_key], lines 540-543, on the value of the environment
    variable [API_KEY] and the header [x-api-key] of the request. *)
Definition verify_api_key (API_KEY x_api_key : option string)
  : HTTPException + bool :=
  if truthy API_KEY && negb (opt_eqb x_api_key API_KEY)
  then inl {| status_code := 401; detail := "Invalid API key" |}
  else inr true.

(** The left operand of [in]: the [int] a query parameter typed
    [Optional[int]] is parsed into, or a string. *)
Inductive pyval := PyInt (n : Z) | PyStr (s : string).

(** [x in s] for a string [s]: the substring test when [x] is a string,
    and [TypeError] when it is not ([str.__contains__] takes strings
    only). *)
Definition in_str (x : pyval) (s : string) : option bool :=
  match x with
  | PyStr t => Some (match index 0 t s with Some _ => true | None => false end)
  | PyInt _ => None
  end.

(** The response of [/leave]. *)
Record LeaveSchedule := { ls_total : nat; ls_leaves : list LeaveEntry }.

(** The list comprehension of line 574; [or] evaluates its second operand
    only when the first is falsy. *)
Fixpoint leaves_of_year (year : pyval) (leaves : list LeaveEntry)
  : option (list LeaveEntry) :=
  match leaves with
  | [] => Some []
  | l :: rest =>
      in_start ← in_str year (leave_start l);
      keep ← (if (in_start : bool) then Some true
              else in_str year (leave_end l));
      kept ← leaves_of_year year rest;
      Some (if (keep : bool) then l :: kept else kept)
  end.

(** [get_leave_schedule], lines 570-575, on a leave table: the query
    parameter [year] is an optional [int], falsy when absent or 0. *)
Definition get_leave_schedule (table : list LeaveEntry) (year : option Z)
  : option LeaveSchedule :=
  leaves ← match year with
           | Some y => if (y =? 0)%Z then Some table
                       else leaves_of_year (PyInt y) table
           | None => Some table
           end;
  Some {| ls_total := length leaves; ls_leaves := leaves |}.

(** ** The tables of the source *)

Definition mk_pref (t : string) (wd : option string) (sh ne : bool)
  : option ShiftPreference :=
  Some {| ptype := Some t; weekend_day := wd; shuffle := sh; night_emd := ne |}.

Definition mk_staff (c : string) (night : bool) (p : option ShiftPreference)
  : Staff :=
  {| code := c; night_eligible := night; shift_preference := p |}.

Definition STAFF_DB : list Staff := [
  mk_staff "NJAM" false (mk_pref "strict_oh" (Some "Sunday") false false);
  mk_staff "EKI" false (mk_pref "strict_oh" (Some "Saturday") false false);
  mk_staff "KIS" false (mk_pref "strict_oh" (Some "Saturday") false false);
  mk_staff "LOV" false (mk_pref "strict_oh" (Some "Saturday") false false);
  mk_staff "CATH" false (mk_pref "strict_oh" (Some "Saturday") false false);
  mk_staff "JOHA" false (mk_pref "strict_oh" (Some "Sunday") false false);
  mk_staff "KHAD" false (mk_pref "strict_oh" (Some "Saturday") false false);
  mk_staff "CELI" false (mk_pref "strict_oh" (Some "Saturday") false false);
  mk_staff "TEKEL" false (mk_pref "strict_oh" (Some "Saturday") false false);
  mk_staff "KATU" false (mk_pref "strict_oh" (Some "Sunday") false false);
  mk_staff "MAY" false (mk_pref "strict_oh" None false false);
  mk_staff "BERTHA" false (mk_pref "strict_oh" (Some "Saturday") false false);
  mk_staff "ASMA" false (mk_pref "strict_oh" None false false);
  mk_staff "OMAR" true (mk_pref "oh_weekdays_pm_weekends" None true false);
  mk_staff "AGRIPIN" false (mk_pref "oh_weekdays_pm_weekends" (Some "Saturday") true false);
  mk_staff "NYAKUNGA" true (mk_pref "oh_weekdays_pm_sunday" None false false);
  mk_staff "MIK" true (mk_pref "emd_predominant" None false true);
  mk_staff "SANG" true (mk_pref "emd_predominant" None false true);
  mk_staff "FRANK" false (mk_pref "emd_predominant" None false false);
  mk_staff "JISKAKA" true (mk_pref "emd_predominant" (Some "Sunday") false false);
  mk_staff "YSUPH" true (mk_pref "emd_predominant" None false false);
  mk_staff "DOREEN" true (mk_pref "pm_predominant" None false false);
  mk_staff "HAPPY" true (mk_pref "pm_predominant" None false false);
  mk_staff "VALENT" false (mk_pref "pm_predominant" None false false);
  mk_staff "GOD" true (mk_pref "night_predominant" None false false);
  mk_staff "JOSEPH" false (mk_pref "night_predominant" None false false);
  mk_staff "DATUS" true (mk_pref "night_predominant" None false false);
  mk_staff "NEEM" true (mk_pref "bima_predominant" (Some "Sunday") false false);
  mk_staff "JENISTER" false (mk_pref "bima_predominant" None false false);
  mk_staff "MAR" false None;
  mk_staff "SALOM" false None;
  mk_staff "SHUW" false None;
  mk_staff "PAUL" false None
].

Definition mk_leave (c a b : string) : LeaveEntry :=
  {| leave_code := c; leave_start := a; leave_end := b |}.

Definition LEAVE_2026 : list LeaveEntry := [
  mk_leave "LOV" "2026-05-22" "2026-06-19";
  mk_leave "OMAR" "2026-10-19" "2026-11-16";
  mk_leave "EKI" "2026-11-30" "2026-12-28";
  mk_leave "KIS" "2026-11-16" "2026-12-14";
  mk_leave "JOHA" "2026-12-20" "2027-01-18";
  mk_leave "NEEM" "2026-06-12" "2026-07-10";
  mk_leave "CATH" "2026-12-14" "2027-01-10";
  mk_leave "SALOM" "2026-12-15" "2027-01-11";
  mk_leave "CELI" "2026-12-14" "2027-01-10";
  mk_leave "GOD" "2026-11-23" "2026-12-21";
  mk_leave "TEKEL" "2026-12-10" "2027-01-08";
  mk_leave "VALENT" "2026-04-06" "2026-05-04";
  mk_leave "FRANK" "2026-09-20" "2026-10-20";
  mk_leave "MAY" "2026-12-21" "2027-01-17";
  mk_leave "KATU" "2026-11-09" "2026-12-06";
  mk_leave "JOSEPH" "2026-06-30" "2026-07-28";
  mk_leave "HAPPY" "2026-10-20" "2026-11-17";
  mk_leave "MAR" "2026-12-21" "2027-01-17";
  mk_leave "DATUS" "2026-12-14" "2027-01-12";
  mk_leave "SHUW" "2026-09-10" "2026-10-08";
  mk_leave "JENISTER" "2026-03-30" "2026-04-27";
  mk_leave "DOREEN" "2026-06-28" "2026-07-28";
  mk_leave "JISKAKA" "2026-12-08" "2027-07-18";
  mk_leave "YSUPH" "2026-06-29" "2026-07-27";
  mk_leave "AGRIPIN" "2026-06-29" "2026-07-27";
  mk_leave "KHAD" "2026-08-03" "2026-08-31";
  mk_leave "MIK" "2026-04-13" "2026-05-04";
  mk_leave "PAUL" "2026-06-29" "2026-07-27"
].

(** The module's [engine = RosterEngine()]. *)
Definition engine_generate : Z → Z → option RosterResult :=
  generate (staff_of STAFF_DB) LEAVE_2026 fromisoformat_ymd.

Definition engine_night_run : Z → Z → option NightState :=
  night_run (staff_of STAFF_DB) LEAVE_2026 fromisoformat_ymd.

Definition engine_night_run_upto : Z → Z → nat → option NightState :=
  night_run_upto (staff_of STAFF_DB) LEAVE_2026 fromisoformat_ymd.

(** ** Vocabulary of the statements *)

(** A leave period written with its start in a later year than its end:
    the start is then after the end, and the resolver reads the period as
    running over the turn of the year. *)
Definition wraps_year (start stop : date) : Prop :=
  date_lt stop start ∧ (year stop < year start)%Z.

(** The period from [start] to [stop] covers the date [d]. *)
Definition covers (start stop d : date) : Prop :=
  (date_le start d ∧ date_le d stop)
  ∨ (wraps_year start stop ∧ (date_le start d ∨ date_le d stop)).

(** The leave periods of [staff_code]: the entries of the table under that
    code, with their dates parsed. *)
Definition leave_period (leave_records : list LeaveEntry)
  (fromisoformat : string → option date) (staff_code : string)
  (start stop : date) : Prop :=
  ∃ entry, In entry leave_records ∧ leave_code entry = staff_code
           ∧ fromisoformat (leave_start entry) = Some start
           ∧ fromisoformat (leave_end entry) = Some stop.

(** The duty the four-day pattern gives the [i]-th day of a sequence. *)
Definition pattern_shift (i : nat) : string :=
  match i with 0 | 1 => "N" | 2 => "SD" | _ => "DO" end.

(** The commit of a new sequence for [s] on day [d]. *)
Definition start_event (d : nat) (s : string) : event :=
  {| ev_day := d; ev_staff := s; ev_commit := StartSequence |}.

(** The sequences a history starts for [s]. *)
Definition starts_of (s : string) (h : list event) : nat :=
  length (List.filter
            (λ e, commit_eqb (ev_commit e) StartSequence
                  && String.eqb (ev_staff e) s) h).

(** The sequences a history starts on day [d]. *)
Definition starts_on (d : nat) (h : list event) : nat :=
  length (List.filter
            (λ e, commit_eqb (ev_commit e) StartSequence && (ev_day e =? d)) h).

(** The commits of day [d], of either kind: each of them is one increment
    of [assigned_tonight] on that day. *)
Definition commits_on (d : nat) (h : list event) : nat :=
  length (List.filter (λ e, ev_day e =? d) h).

(** The duty of [s] in row [d] of a roster. *)
Definition assignment (r : list DayEntry) (d : nat) (s : string)
  : option string :=
  entry ← r !! d; Dict.get s (assignments entry).

(** ** The invariant of the night phase *)

Section NightInvariant.
Variable leave_records : list LeaveEntry.
Variable fromisoformat : string → option date.
Variables (yr mo : Z) (days : nat).
Variable night_eligible : list string.

(** What a recorded start is worth in a schedule: the four cells hold
    the pattern, the sequence fits the month, its first day is no Sunday
    and none of its days is a leave day. *)
Definition started (sched : dict (list (option string))) (e : event) : Prop :=
  ev_commit e = StartSequence
  ∧ ev_day e + 3 < days
  ∧ In (ev_staff e) night_eligible
  ∧ (∀ i, i < 4 →
       cell_at sched (ev_staff e) (ev_day e + i) = Some (Some (pattern_shift i)))
  ∧ (∃ d, mk_date yr mo (Z.of_nat (ev_day e) + 1) = Some d ∧ weekday d ≠ 6%Z)
  ∧ (∀ i, i < 4 →
       ∃ d, mk_date yr mo (Z.of_nat (ev_day e + i + 1)) = Some d
            ∧ is_on_leave leave_records fromisoformat (ev_staff e) d
              = Some false).

Record night_inv (st : NightState) : Prop := {
  (** a night is never followed by a free cell *)
  inv_follow : ∀ c i,
    cell_at (schedule st) c i = Some (Some "N") →
    cell_at (schedule st) c (i + 1) ≠ Some None;
  inv_events : ∀ e, In e (history st) → started (schedule st) e;
  inv_counts : ∀ c n,
    Dict.get c (night_counts st) = Some n → n = 2 * starts_of c (history st);
  inv_keys : ∀ c, In c (Dict.keys (night_counts st)) ↔ In c night_eligible
}.
End NightInvariant.

(** The sum of the counts of a distribution. *)
Definition sum_values (counts : dict nat) : nat := list_sum (Dict.values counts).

(** ** Grids for the rule checker *)

(** A row with both keys, as [generate] returns them. *)
Definition plain_row (d : string) (a : dict string) : DayRow :=
  {| row_date := Some d; row_assignments := Some a |}.

(** Five days of one person: a full night sequence and the day after it. *)
Definition sequence_grid : list DayRow :=
  [plain_row "2026-01-05" [("GOD", "N")];
   plain_row "2026-01-06" [("GOD", "N")];
   plain_row "2026-01-07" [("GOD", "SD")];
   plain_row "2026-01-08" [("GOD", "DO")];
   plain_row "2026-01-09" [("GOD", "OH")]].

(** The same grid with the third day after the first night changed to
    [OH]. *)
Definition broken_grid : list DayRow :=
  [plain_row "2026-01-05" [("GOD", "N")];
   plain_row "2026-01-06" [("GOD", "N")];
   plain_row "2026-01-07" [("GOD", "SD")];
   plain_row "2026-01-08" [("GOD", "OH")];
   plain_row "2026-01-09" [("GOD", "OH")]].



(** The violation [validate_roster] records for [staff] on [day] with the
    three following duties [actual]. *)
Definition night_violation (staff day actual : string) : Violation :=
  {| v_type := "night_pattern"; v_staff := staff; v_date := day;
     v_expected := "N,SD,DO"; v_actual := actual |}.

(** ** Conditions under which a run raises nothing *)

(** Every date of the leave table parses. *)
Definition leave_table_parses (leave_records : list LeaveEntry)
  (fromisoformat : string → option date) : Prop :=
  ∀ entry, In entry leave_records →
    is_Some (fromisoformat (leave_start entry))
    ∧ is_Some (fromisoformat (leave_end entry)).

(** The schedule has a row of [days] cells for every staff identifier. *)
Definition rows_ready (staff : dict Staff) (days : nat)
  (sched : dict (list (option string))) : Prop :=
  ∀ c i, In c (Dict.keys staff) → i < days → is_Some (cell_at sched c i).

(** ** The locals of the source in a state *)

(** A state without its ghost [history]: the locals [schedule],
    [night_counts] and [assigned_tonight] of the source. *)
Definition erase_history (st : NightState) : NightState :=
  {| schedule := schedule st; night_counts := night_counts st;
     assigned_tonight := assigned_tonight st; history := [] |}.

Definition erase_back (back : LookBack) : LookBack :=
  match back with
  | Continued st => Continued (erase_history st)
  | Proceed can_start => Proceed can_start
  end.

(** ** Vocabulary of the further properties *)

(** Every written cell of the schedule lies in the four days of a
    recorded commit of its owner. *)
Definition covered (st : NightState) : Prop :=
  ∀ c i v, cell_at (schedule st) c i = Some (Some v) →
    ∃ e, In e (history st) ∧ ev_staff e = c ∧ ev_day e ≤ i < ev_day e + 4.

(** The nights the schedule holds for [c] among the first [days] days. *)
Definition nights_of (sched : dict (list (option string))) (c : string)
  (days : nat) : nat :=
  length (List.filter
            (λ i, bool_decide (cell_at sched c i = Some (Some "N")))
            (seq 0 days)).

(** The nights of [s] in the rows of a roster. *)
Definition nights_in_roster (r : list DayEntry) (s : string) : nat :=
  length (List.filter (λ entry, is_str (Dict.get s (assignments entry)) "N") r).

(** The staff a row puts on night duty. *)
Definition on_night (entry : DayEntry) : list string :=
  map fst (List.filter (λ cs, String.eqb (snd cs) "N") (assignments entry)).

(** The duty codes of the engine. *)
Definition duty_codes : list string :=
  ["A"; "N"; "SD"; "DO"; "OH"; "PM"; "OH+EMD"; "OH+BIMA"].

(** The cells of the rows that hold the duty [x]. *)
Definition duty_count (r : list DayEntry) (x : string) : nat :=
  length (List.filter (String.eqb x)
            (flat_map (λ entry, Dict.values (assignments entry)) r)).

(** [c] has no leave on the four days from day [d] of the month. *)
Definition off_leave (leave_records : list LeaveEntry)
  (fromisoformat : string → option date) (yr mo : Z) (c : string) (d : nat)
  : Prop :=
  ∀ i, i < 4 →
    ∃ dt, mk_date yr mo (Z.of_nat (d + i + 1)) = Some dt
          ∧ is_on_leave leave_records fromisoformat c dt = Some false.

(** Day [d] is staffed: two sequences start on it, or every candidate
    without leave ahead has a written cell on it. *)
Definition staffed (leave_records : list LeaveEntry)
  (fromisoformat : string → option date) (yr mo : Z)
  (night_eligible : list string) (d : nat) (st : NightState) : Prop :=
  starts_on d (history st) = 2
  ∨ ∀ c, In c night_eligible →
         off_leave leave_records fromisoformat yr mo c d →
         cell_at (schedule st) c d ≠ Some None.

(** Day [d] is ranked: if someone outside the predominant list starts a
    sequence on it, no one of that list who could have started has a
    free cell on it. *)
Definition ranked (leave_records : list LeaveEntry)
  (fromisoformat : string → option date) (yr mo : Z)
  (night_eligible night_predominant : list string) (d : nat)
  (st : NightState) : Prop :=
  ∀ c p, In (start_event d c) (history st) → ¬ In c night_predominant →
         In p night_predominant → In p night_eligible →
         off_leave leave_records fromisoformat yr mo p d →
         cell_at (schedule st) p d ≠ Some None.

(** The staff the candidate list puts first: the night and the emergency
    profiles. *)
Definition prefers_nights (staff : dict Staff) (c : string) : bool :=
  opt_in (ptype (get_staff_preference staff c))
    ["night_predominant"; "emd_predominant"].

(** A list in ascending order of its keys. *)
Definition ascending {A} (key : A → nat) (l : list A) : Prop :=
  ∀ i j a b, i < j → l !! i = Some a → l !! j = Some b → key a ≤ key b.

(** The months [get_days_in_month] answers on: those of the years 1 to
    9999 whose next month is also a date, which leaves December 9999
    out. *)
Definition month_ok (yr mo : Z) : bool :=
  ((1 <=? mo) && (mo <=? 12) && (1 <=? yr) && (yr <=? 9999)
   && negb ((yr =? 9999) && (mo =? 12)))%Z.

(** The duty of [s] in row [i] of a grid, [None] when the row does not
    give one. *)
Definition duty_at (r : list DayRow) (i : nat) (s : string) : option string :=
  row ← r !! i; a ← row_assignments row; Dict.get s a.

(** DayRow [i] of the grid is there and has no [assignments]. *)
Definition lacks_assignments (r : list DayRow) (i : nat) : bool :=
  match r !! i with
  | Some row => negb (bool_decide (is_Some (row_assignments row)))
  | None => false
  end.

(** The test of lines 624-629 on the cell of [s] in row [i]: three rows
    follow, they do not hold [N, SD, DO] for [s], and the first of them
    does not hold [A]. *)
Definition breaks_pattern (r : list DayRow) (i : nat) (s : string) : bool :=
  (i + 3 <? length r)
  && negb (is_str (duty_at r (i + 1) s) "N"
           && is_str (duty_at r (i + 2) s) "SD"
           && is_str (duty_at r (i + 3) s) "DO")
  && negb (is_str (duty_at r (i + 1) s) "A").

(** The check of the cell [N] of [s] in the row [day] of index [i]
    raises: three rows follow, and one of them has no [assignments], or
    the cell is to be reported and its own row has no [date]. *)
Definition cell_raises (r : list DayRow) (i : nat) (day : DayRow) (s : string)
  : bool :=
  (i + 3 <? length r)
  && (lacks_assignments r (i + 1) || lacks_assignments r (i + 2)
      || lacks_assignments r (i + 3)
      || breaks_pattern r i s
         && negb (bool_decide (is_Some (row_date day)))).

(** The text of the three duties after row [i], as a violation shows
    them. *)
Definition actual_after (r : list DayRow) (i : nat) (s : string) : string :=
  show_shift (duty_at r (i + 1) s) +:+ "," +:+
  show_shift (duty_at r (i + 2) s) +:+ "," +:+
  show_shift (duty_at r (i + 3) s).

(** What the check of the cell [cs] of the row [day] of index [i] adds to
    the violations, when it does not raise. *)
Definition cell_report (r : list DayRow) (i : nat) (day : DayRow)
  (cs : string * string) : option (list Violation) :=
  if String.eqb (snd cs) "N" then
    if cell_raises r i day (fst cs) then None
    else if breaks_pattern r i (fst cs)
    then Some [night_violation (fst cs) (default "" (row_date day))
                 (actual_after r i (fst cs))]
    else Some []
  else Some [].

(** What the cells of a row add. *)
Definition row_report (r : list DayRow) (ie : nat * DayRow)
  : option (list Violation) :=
  adds ← mapM (cell_report r (fst ie) (snd ie)) (assignments_of (snd ie));
  Some (concat adds).

(** What the rows of a grid add, under the rule [night_pattern]. *)
Definition night_report (r : list DayRow) : option (list Violation) :=
  adds ← mapM (row_report r) (combine (seq 0 (length r)) r);
  Some (concat adds).

(** * Properties *)

(** ** The option monad *)

Lemma bind_eq_Some {A B} (m : option A) (k : A → option B) (r : B) :
  m ≫= k = Some r → ∃ x, m = Some x ∧ k x = Some r.
Proof. destruct m as [x|]; simpl; [eauto | discriminate]. Qed.

(** [bind_inv H x E] splits [H : (x ← m; k) = Some r] into [E : m = Some x]
    and [H : k x = Some r]. *)
Ltac bind_inv H x E :=
  lazymatch type of H with
  | @mbind _ _ _ _ ?k ?m = Some ?r =>
      apply (bind_eq_Some m k r) in H as [x [E H]]; cbv beta in H
  end.

Lemma for_each_cons {A S} (body : S → A → option S) x l s :
  for_each body (x :: l) s = s' ← body s x; for_each body l s'.
Proof. done. Qed.

(** ** Dictionaries *)

Section DictFacts.
Context {V : Type}.
Implicit Types (d : dict V) (k : string) (v : V).

Lemma get_set_eq d k v : Dict.get k (Dict.set k v d) = Some v.
Proof.
  induction d as [|[k' v'] d IH]; simpl.
  - by rewrite String.eqb_refl.
  - destruct (String.eqb k' k) eqn:E; simpl; rewrite E; auto.
Qed.

Lemma get_set_ne d k k' v : k ≠ k' → Dict.get k' (Dict.set k v d) = Dict.get k' d.
Proof.
  intros Hne. induction d as [|[k0 v0] d IH]; simpl.
  - apply String.eqb_neq in Hne. by rewrite Hne.
  - destruct (String.eqb k0 k) eqn:E; simpl.
    + apply String.eqb_eq in E; subst k0.
      apply String.eqb_neq in Hne. by rewrite Hne.
    + by rewrite IH.
Qed.

Lemma get_Some_In d k v : Dict.get k d = Some v → In (k, v) d.
Proof.
  induction d as [|[k0 v0] d IH]; simpl; [discriminate|].
  destruct (String.eqb k0 k) eqn:E.
  - apply String.eqb_eq in E. intros [= ->]. subst. by left.
  - intros H. right. auto.
Qed.

Lemma get_None_keys d k : Dict.get k d = None ↔ ¬ In k (Dict.keys d).
Proof.
  induction d as [|[k0 v0] d IH]; simpl; [tauto|].
  destruct (String.eqb k0 k) eqn:E.
  - apply String.eqb_eq in E. split; [discriminate | intros H; destruct H; auto].
  - apply String.eqb_neq in E. rewrite IH. tauto.
Qed.

Lemma get_is_Some_keys d k : is_Some (Dict.get k d) ↔ In k (Dict.keys d).
Proof.
  destruct (Dict.get k d) eqn:E.
  - split; [intros _ | eauto].
    apply get_Some_In in E. apply (in_map fst) in E. exact E.
  - apply get_None_keys in E. split; [intros [? [=]] | tauto].
Qed.

Lemma mem_keys d k : Dict.mem k d = true ↔ In k (Dict.keys d).
Proof.
  rewrite <- get_is_Some_keys. unfold Dict.mem.
  destruct (Dict.get k d); split; eauto; try discriminate. intros [? [=]].
Qed.

Lemma In_get_nodup d k v : NoDup (Dict.keys d) → In (k, v) d → Dict.get k d = Some v.
Proof.
  induction d as [|[k0 v0] d IH]; simpl; [tauto|].
  intros Hnd [[= -> ->]|Hin].
  - by rewrite String.eqb_refl.
  - apply NoDup_cons in Hnd as [Hk0 Hnd].
    destruct (String.eqb k0 k) eqn:E; [|auto].
    apply String.eqb_eq in E; subst k0. exfalso. apply Hk0.
    apply list_elem_of_In. apply (in_map fst) in Hin. exact Hin.
Qed.

(** Assigning to a key that is present keeps the keys and their order;
    assigning to a new key appends it. *)
Lemma keys_set_present d k v :
  In k (Dict.keys d) → Dict.keys (Dict.set k v d) = Dict.keys d.
Proof.
  unfold Dict.keys.
  induction d as [|[k0 v0] d IH]; simpl; [tauto|].
  destruct (String.eqb k0 k) eqn:E; simpl; [done|].
  apply String.eqb_neq in E. intros [?|Hin]; [congruence|].
  by rewrite IH.
Qed.

Lemma set_fresh d k v : ¬ In k (Dict.keys d) → Dict.set k v d = (d ++ [(k, v)])%list.
Proof.
  induction d as [|[k0 v0] d IH]; simpl; [done|].
  intros Hn. destruct (String.eqb k0 k) eqn:E.
  - apply String.eqb_eq in E. tauto.
  - rewrite IH; [done | tauto].
Qed.

End DictFacts.

Section DictOf.
Context {V : Type}.
Implicit Types (d l : dict V) (k : string) (v : V).

Lemma keys_set d k v :
  Dict.keys (Dict.set k v d)
  = if Dict.mem k d then Dict.keys d else (Dict.keys d ++ [k])%list.
Proof.
  destruct (Dict.mem k d) eqn:E.
  - apply keys_set_present. by apply mem_keys.
  - assert (¬ In k (Dict.keys d)) as Hn.
    { intros H. apply mem_keys in H. congruence. }
    rewrite set_fresh by done. unfold Dict.keys. by rewrite map_app.
Qed.

Lemma In_keys_set d k k' v :
  In k' (Dict.keys (Dict.set k v d)) ↔ k' = k ∨ In k' (Dict.keys d).
Proof.
  rewrite keys_set. destruct (Dict.mem k d) eqn:E.
  - apply mem_keys in E. split; [tauto | intros [->|]; done].
  - rewrite in_app_iff. simpl. intuition congruence.
Qed.

Lemma nodup_keys_set d k v :
  NoDup (Dict.keys d) → NoDup (Dict.keys (Dict.set k v d)).
Proof.
  intros Hnd. rewrite keys_set. destruct (Dict.mem k d) eqn:E; [done|].
  apply NoDup_app. split; [done|]. split; [|apply NoDup_singleton].
  intros x Hx Hk. apply list_elem_of_singleton in Hk. subst x.
  apply list_elem_of_In, mem_keys in Hx. congruence.
Qed.

Lemma fold_set_nodup l d :
  NoDup (Dict.keys d) →
  NoDup (Dict.keys (fold_left (λ d kv, Dict.set (fst kv) (snd kv) d) l d)).
Proof.
  revert d. induction l as [|[k v] l IH]; intros d Hd; simpl; [done|].
  apply IH. by apply nodup_keys_set.
Qed.

Lemma fold_set_In_keys l d k :
  In k (Dict.keys (fold_left (λ d kv, Dict.set (fst kv) (snd kv) d) l d))
  ↔ In k (Dict.keys d) ∨ In k (map fst l).
Proof.
  revert d. induction l as [|[k0 v0] l IH]; intros d; simpl; [tauto|].
  rewrite IH, In_keys_set. intuition congruence.
Qed.

Lemma fold_set_fresh l d :
  NoDup (map fst l) → (∀ k, In k (map fst l) → ¬ In k (Dict.keys d)) →
  fold_left (λ d kv, Dict.set (fst kv) (snd kv) d) l d = (d ++ l)%list.
Proof.
  revert d. induction l as [|[k v] l IH]; intros d Hnd Hfresh; simpl.
  - by rewrite app_nil_r.
  - simpl in Hnd. apply NoDup_cons in Hnd as [Hk Hnd].
    rewrite set_fresh by (apply Hfresh; simpl; auto).
    rewrite IH; [by rewrite <- app_assoc | done |].
    intros k' Hk' Hin. unfold Dict.keys in Hin.
    rewrite map_app, in_app_iff in Hin. simpl in Hin.
    destruct Hin as [Hin|[<-|[]]].
    + apply (Hfresh k'); simpl; auto.
    + apply Hk. by apply list_elem_of_In.
Qed.

Lemma dict_of_nodup_keys l : NoDup (Dict.keys (dict_of l)).
Proof. apply fold_set_nodup. apply NoDup_nil_2. Qed.

Lemma dict_of_In_keys l k : In k (Dict.keys (dict_of l)) ↔ In k (map fst l).
Proof. unfold dict_of. rewrite fold_set_In_keys. simpl. tauto. Qed.

Lemma dict_of_nodup l : NoDup (map fst l) → dict_of l = l.
Proof. intros H. unfold dict_of. rewrite fold_set_fresh; auto. Qed.
End DictOf.

Section DictOfValues.
Context {V : Type}.
Implicit Types (d l : dict V) (k : string) (v : V).

Lemma In_set d k v k' v' :
  In (k', v') (Dict.set k v d) → (k', v') = (k, v) ∨ In (k', v') d.
Proof.
  induction d as [|[k0 v0] d IH]; simpl; [intuition|].
  destruct (String.eqb k0 k) eqn:E; simpl.
  - apply String.eqb_eq in E. subst. intuition.
  - intuition.
Qed.

Lemma fold_set_In l d k v :
  In (k, v) (fold_left (λ d kv, Dict.set (fst kv) (snd kv) d) l d) →
  In (k, v) d ∨ In (k, v) l.
Proof.
  revert d. induction l as [|[k0 v0] l IH]; intros d; simpl; [tauto|].
  intros H. apply IH in H as [H|H]; [|tauto].
  apply In_set in H as [[= -> ->]|H]; tauto.
Qed.

Lemma dict_of_get l k v : Dict.get k (dict_of l) = Some v → In (k, v) l.
Proof.
  intros H. apply get_Some_In, fold_set_In in H as [[]|H]. done.
Qed.
End DictOfValues.

Lemma staff_of_nodup staff_db : NoDup (Dict.keys (staff_of staff_db)).
Proof. apply dict_of_nodup_keys. Qed.

(** ** Rows of the schedule *)

Section Cells.
Implicit Types (s : dict (list (option string))) (c : string) (i : nat).

Lemma cell_set_lookup s s' c i v c' j :
  cell_set s c i v = Some s' →
  cell_at s' c' j
  = if decide (c' = c ∧ j = i) then Some (Some v) else cell_at s c' j.
Proof.
  unfold cell_set, cell_at, list_set. intros H.
  bind_inv H row Hrow. bind_inv H row' Hset.
  destruct (i <? length row) eqn:Hi; [|discriminate].
  apply Nat.ltb_lt in Hi.
  injection Hset as <-. injection H as <-.
  destruct (decide (c' = c)) as [->|Hc].
  - rewrite get_set_eq, Hrow. simpl.
    destruct (decide (j = i)) as [->|Hj].
    + rewrite decide_True by done. by apply list_lookup_insert_eq.
    + rewrite decide_False by tauto. by apply list_lookup_insert_ne.
  - rewrite get_set_ne by done. rewrite decide_False by tauto. done.
Qed.

Lemma cell_set_total s c i v :
  is_Some (cell_at s c i) → is_Some (cell_set s c i v).
Proof.
  unfold cell_set, cell_at, list_set. intros [x H].
  bind_inv H row Hrow. rewrite Hrow. simpl.
  apply lookup_lt_Some in H. apply Nat.ltb_lt in H. rewrite H. simpl. eauto.
Qed.

Lemma all_free_spec s c d offsets b :
  all_free s c d offsets = Some b →
  b = true → ∀ i, In i offsets → cell_at s c (d + i) = Some None.
Proof.
  revert b. induction offsets as [|o os IH]; intros b H Hb i Hi; [destruct Hi|].
  simpl in H. bind_inv H cur Hcur. destruct cur as [x|].
  - congruence.
  - destruct Hi as [<-|Hi]; [done|]. eapply IH; eauto.
Qed.
End Cells.

(** ** The leave resolver *)

Lemma date_leb_le a b : date_leb a b = true ↔ date_le a b.
Proof.
  unfold date_leb, date_le. destruct (date_cmp a b); split; congruence.
Qed.

Lemma later_year_after a b : (year b < year a)%Z → date_lt b a.
Proof.
  intros H. unfold date_lt, date_cmp.
  apply Z.compare_lt_iff in H. by rewrite H.
Qed.

Section LeaveFacts.
Variable leave_records : list LeaveEntry.
Variable fromisoformat : string → option date.

Local Abbreviation leave_scan := (leave_scan fromisoformat).
Local Abbreviation is_on_leave := (is_on_leave leave_records fromisoformat).

(** The test of lines 239-243 on one parsed period. *)
Lemma period_test start stop d :
  (date_leb start d && date_leb d stop
   || (year stop <? year start)%Z && (date_leb start d || date_leb d stop))
  = true ↔ covers start stop d.
Proof.
  unfold covers, wraps_year.
  rewrite orb_true_iff, !andb_true_iff, orb_true_iff, !date_leb_le, Z.ltb_lt.
  split; [|tauto].
  intros [?|[? ?]]; [tauto|]. right. auto using later_year_after.
Qed.

Lemma leave_scan_step entry rest c d :
  leave_scan (entry :: rest) c d =
  if String.eqb (leave_code entry) c then
    start ← fromisoformat (leave_start entry);
    stop ← fromisoformat (leave_end entry);
    if date_leb start d && date_leb d stop
       || (year stop <? year start)%Z && (date_leb start d || date_leb d stop)
    then Some true else leave_scan rest c d
  else leave_scan rest c d.
Proof.
  simpl. destruct (String.eqb (leave_code entry) c); [|done].
  destruct (fromisoformat (leave_start entry)) as [start|]; [|done].
  destruct (fromisoformat (leave_end entry)) as [stop|]; [|done].
  simpl. by destruct (date_leb start d && date_leb d stop).
Qed.

Lemma leave_scan_true entries c d :
  leave_scan entries c d = Some true →
  ∃ start stop, leave_period entries fromisoformat c start stop
                ∧ covers start stop d.
Proof.
  induction entries as [|entry rest IH]; [discriminate|].
  rewrite leave_scan_step. intros H.
  assert (leave_scan rest c d = Some true →
          ∃ start stop, leave_period (entry :: rest) fromisoformat c start stop
                        ∧ covers start stop d) as Hrest.
  { intros Hr. destruct (IH Hr) as (start & stop & (e & ? & ?) & ?).
    exists start, stop. split; [exists e; simpl; tauto | done]. }
  destruct (String.eqb (leave_code entry) c) eqn:Ec; [|auto].
  apply String.eqb_eq in Ec.
  bind_inv H start Hstart. bind_inv H stop Hstop.
  match type of H with (if ?t then _ else _) = _ => destruct t eqn:Et end;
    [|auto].
  exists start, stop. split; [exists entry; simpl; auto|].
  by apply period_test.
Qed.

Lemma leave_scan_false entries c d start stop :
  leave_scan entries c d = Some false →
  leave_period entries fromisoformat c start stop → ¬ covers start stop d.
Proof.
  induction entries as [|entry rest IH]; intros H (e & Hin & Hc & Hs & He).
  { destruct Hin. }
  rewrite leave_scan_step in H.
  assert (e ≠ entry → leave_scan rest c d = Some false → ¬ covers start stop d)
    as Hrest.
  { intros Hne Hr. apply IH; [done|]. exists e.
    destruct Hin as [?|?]; [congruence | auto]. }
  destruct (String.eqb (leave_code entry) c) eqn:Ec.
  - bind_inv H start' Hstart. bind_inv H stop' Hstop.
    match type of H with (if ?t then _ else _) = _ => destruct t eqn:Et end;
      [discriminate|].
    destruct Hin as [<-|Hin].
    + assert (start' = start) by congruence.
      assert (stop' = stop) by congruence. subst.
      rewrite <- period_test. congruence.
    + apply IH; [done|]. by exists e.
  - apply String.eqb_neq in Ec. apply Hrest; [congruence | done].
Qed.

Lemma leave_scan_defined entries c d :
  (∀ entry, In entry entries → leave_code entry = c →
     is_Some (fromisoformat (leave_start entry))
     ∧ is_Some (fromisoformat (leave_end entry))) →
  is_Some (leave_scan entries c d).
Proof.
  induction entries as [|entry rest IH]; intros Hp; [by eexists|].
  rewrite leave_scan_step.
  assert (is_Some (leave_scan rest c d)) as Hrest.
  { apply IH. intros e ? ?. apply Hp; simpl; auto. }
  destruct (String.eqb (leave_code entry) c) eqn:Ec; [|done].
  apply String.eqb_eq in Ec.
  destruct (Hp entry) as [[start ->] [stop ->]]; simpl; auto.
  match goal with |- is_Some (if ?t then _ else _) => destruct t end;
    [by eexists | done].
Qed.

Lemma leave_scan_absent entries c d :
  (∀ entry, In entry entries → leave_code entry ≠ c) →
  leave_scan entries c d = Some false.
Proof.
  induction entries as [|entry rest IH]; intros Hn; [done|].
  rewrite leave_scan_step.
  destruct (String.eqb (leave_code entry) c) eqn:Ec.
  - apply String.eqb_eq in Ec. exfalso. apply (Hn entry); simpl; auto.
  - apply IH. intros e ?. apply Hn. simpl. auto.
Qed.
End LeaveFacts.

(** ** Sorting the candidates *)

Lemma In_insert_by_key {A} (x y : nat * A) l :
  In y (insert_by_key x l) ↔ y = x ∨ In y l.
Proof.
  induction l as [|z l IH]; simpl; [intuition|].
  destruct (fst x <=? fst z); simpl; [intuition|]. rewrite IH. intuition.
Qed.

Lemma In_stable_sort {A} (y : nat * A) l : In y (stable_sort l) ↔ In y l.
Proof.
  unfold stable_sort. induction l as [|x l IH]; simpl; [done|].
  rewrite In_insert_by_key, IH. intuition.
Qed.

Lemma sorted_by_count_In counts l l' c :
  sorted_by_count counts l = Some l' → In c l' → In c l.
Proof.
  unfold sorted_by_count. intros H Hin. bind_inv H keyed Hk.
  injection H as <-. apply in_map_iff in Hin as ([n c'] & Hc & Hin).
  simpl in Hc. subst c'. apply (proj1 (In_stable_sort _ _)) in Hin.
  apply mapM_Some_1 in Hk.
  apply list_elem_of_In, list_elem_of_lookup in Hin as [i Hi].
  destruct (Forall2_lookup_r _ _ _ _ _ Hk Hi) as (c' & Hc' & Hget).
  bind_inv Hget m Hm. injection Hget as _ ->.
  apply list_elem_of_In, list_elem_of_lookup. eauto.
Qed.

Lemma str_in_In x l : str_in x l = true ↔ In x l.
Proof.
  unfold str_in. rewrite existsb_exists. split.
  - intros (y & Hy & E). apply String.eqb_eq in E. by subst.
  - intros H. exists x. split; [done | apply String.eqb_refl].
Qed.

(** ** Counting commits *)

Lemma starts_of_app s h h' : starts_of s (h ++ h') = starts_of s h + starts_of s h'.
Proof. unfold starts_of. by rewrite List.filter_app, length_app. Qed.

Lemma commits_on_app d h h' :
  commits_on d (h ++ h') = commits_on d h + commits_on d h'.
Proof. unfold commits_on. by rewrite List.filter_app, length_app. Qed.

Lemma starts_of_start s d c :
  starts_of s [start_event d c] = if decide (c = s) then 1 else 0.
Proof.
  unfold starts_of. simpl. case_decide as E.
  - subst. by rewrite String.eqb_refl.
  - apply String.eqb_neq in E. by rewrite E.
Qed.

Lemma commits_on_none d h : (∀ e, In e h → ev_day e ≠ d) → commits_on d h = 0.
Proof.
  unfold commits_on. induction h as [|e h IH]; intros Hn; simpl; [done|].
  destruct (ev_day e =? d) eqn:E.
  - apply Nat.eqb_eq in E. exfalso. apply (Hn e); simpl; auto.
  - apply IH. intros e' ?. apply Hn. simpl. auto.
Qed.

Lemma commits_on_le d h : commits_on d h ≤ length h.
Proof. unfold commits_on. apply List.filter_length_le. Qed.

Lemma starts_on_le_commits d h : starts_on d h ≤ commits_on d h.
Proof.
  unfold starts_on, commits_on. induction h as [|e h IH]; simpl; [done|].
  destruct (ev_day e =? d), (commit_eqb (ev_commit e) StartSequence); simpl; lia.
Qed.

(** ** One turn of the night phase *)

Lemma start_sequence_spec d c st st' :
  start_sequence d c st = Some st' →
  ∃ n, Dict.get c (night_counts st) = Some n
       ∧ night_counts st' = Dict.set c (n + 2) (night_counts st)
       ∧ assigned_tonight st' = assigned_tonight st + 1
       ∧ history st' = (history st ++ [start_event d c])%list
       ∧ ∀ c' j, cell_at (schedule st') c' j
                 = if decide (c' = c ∧ d ≤ j < d + 4)
                   then Some (Some (pattern_shift (j - d)))
                   else cell_at (schedule st) c' j.
Proof.
  unfold start_sequence, commit_event. intros H.
  bind_inv H s1 H1. bind_inv H s2 H2. bind_inv H s3 H3. bind_inv H s4 H4.
  bind_inv H n Hn. injection H as <-. exists n. simpl.
  repeat split; try done.
  intros c' j.
  rewrite (cell_set_lookup _ _ _ _ _ c' j H4), (cell_set_lookup _ _ _ _ _ c' j H3),
    (cell_set_lookup _ _ _ _ _ c' j H2), (cell_set_lookup _ _ _ _ _ c' j H1).
  destruct (decide (c' = c)) as [->|Hc].
  - destruct (decide (j = d + 3)) as [->|?];
      [rewrite !decide_True by (split; [done|lia]);
       by replace (d + 3 - d) with 3 by lia|].
    rewrite (decide_False (P := c = c ∧ j = d + 3)) by tauto.
    destruct (decide (j = d + 2)) as [->|?];
      [rewrite !decide_True by (split; [done|lia]);
       by replace (d + 2 - d) with 2 by lia|].
    rewrite (decide_False (P := c = c ∧ j = d + 2)) by tauto.
    destruct (decide (j = d + 1)) as [->|?];
      [rewrite !decide_True by (split; [done|lia]);
       by replace (d + 1 - d) with 1 by lia|].
    rewrite (decide_False (P := c = c ∧ j = d + 1)) by tauto.
    destruct (decide (j = d)) as [->|?];
      [rewrite !decide_True by (split; [done|lia]);
       by replace (d - d) with 0 by lia|].
    rewrite (decide_False (P := c = c ∧ j = d)) by tauto.
    rewrite decide_False by lia. done.
  - rewrite !decide_False by tauto. done.
Qed.

Section NightFacts.
Variable staff : dict Staff.
Variable leave_records : list LeaveEntry.
Variable fromisoformat : string → option date.
Variables (yr mo : Z) (days : nat).
Variables (night_eligible night_predominant : list string).

Local Abbreviation is_on_leave := (is_on_leave leave_records fromisoformat).
Local Abbreviation night_turn :=
  (night_turn leave_records fromisoformat yr mo days).
Local Abbreviation night_candidates :=
  (night_candidates leave_records fromisoformat yr mo days).
Local Abbreviation night_day :=
  (night_day leave_records fromisoformat yr mo days
     night_eligible night_predominant).
Local Abbreviation started :=
  (started leave_records fromisoformat yr mo days night_eligible).
Local Abbreviation night_inv :=
  (night_inv leave_records fromisoformat yr mo days night_eligible).

(** Under the invariant the branch "Continue sequence" is never taken:
    it needs a free cell right after a night. *)
Lemma look_back_proceeds d c st back :
  (∀ c i, cell_at (schedule st) c i = Some (Some "N") →
          cell_at (schedule st) c (i + 1) ≠ Some None) →
  cell_at (schedule st) c d = Some None →
  look_back days d c st = Some back → ∃ can_start, back = Proceed can_start.
Proof.
  intros Hfollow Hfree. unfold look_back.
  destruct (0 <? d) eqn:Hd; [|intros [= <-]; eauto].
  apply Nat.ltb_lt in Hd. intros H. bind_inv H prev Hprev.
  destruct (is_str prev "N") eqn:HN; [|injection H as <-; eauto].
  exfalso. destruct prev as [p|]; [|discriminate]. simpl in HN.
  apply String.eqb_eq in HN. subst p.
  apply (Hfollow c (d - 1)); [done|].
  by replace (d - 1 + 1) with d by lia.
Qed.

Lemma leave_check_spec d c flags :
  leave_check leave_records fromisoformat yr mo d c = Some flags →
  existsb id flags = false →
  ∀ i, i < 4 →
    ∃ dt, mk_date yr mo (Z.of_nat (d + i + 1)) = Some dt
          ∧ is_on_leave c dt = Some false.
Proof.
  unfold leave_check. intros H Hnone i Hi.
  apply mapM_Some_1 in H.
  assert (seq 0 4 !! i = Some i) as Hseq.
  { do 4 (destruct i as [|i]; [done|]). lia. }
  destruct (Forall2_lookup_l _ _ _ _ _ H Hseq) as (b & Hb & Hcall).
  bind_inv Hcall dt Hdt. exists dt. split; [done|].
  destruct b; [|done].
  assert (existsb id flags = true); [|congruence].
  apply existsb_exists. exists true. split; [|done].
  apply list_elem_of_In, list_elem_of_lookup. eauto.
Qed.

(** A turn either leaves the state as it is or starts a sequence on free
    cells. *)
Lemma night_turn_cases d cd c st st' :
  (∀ c i, cell_at (schedule st) c i = Some (Some "N") →
          cell_at (schedule st) c (i + 1) ≠ Some None) →
  night_turn d cd st c = Some st' →
  st' = st
  ∨ (d + 3 < days
     ∧ (∀ i, i < 4 → cell_at (schedule st) c (d + i) = Some None)
     ∧ (∀ i, i < 4 →
          ∃ dt, mk_date yr mo (Z.of_nat (d + i + 1)) = Some dt
                ∧ is_on_leave c dt = Some false)
     ∧ start_sequence d c st = Some st').
Proof.
  intros Hfollow. unfold night_turn. intros H.
  bind_inv H on_leave Hleave. destruct on_leave; [left; congruence|].
  bind_inv H cur Hcur.
  destruct cur as [x|]; unfold is_set in H; [left; congruence|].
  bind_inv H back Hback.
  destruct (look_back_proceeds _ _ _ _ Hfollow Hcur Hback) as [can_start ->].
  destruct (can_start && (d + 3 <? days)) eqn:Hgo; [|left; congruence].
  apply andb_true_iff in Hgo as [_ Hfit]. apply Nat.ltb_lt in Hfit.
  bind_inv H free Hfree. destruct free; [|left; congruence].
  bind_inv H flags Hflags.
  destruct (negb (existsb id flags)) eqn:Hnone; [|left; congruence].
  apply negb_true_iff in Hnone.
  right. split; [done|]. split; [|split; [|done]].
  - intros i Hi. eapply all_free_spec; eauto.
    apply in_seq. lia.
  - eauto using leave_check_spec.
Qed.

Lemma start_preserves d c st st' :
  night_inv st → d + 3 < days → In c night_eligible →
  (∀ i, i < 4 → cell_at (schedule st) c (d + i) = Some None) →
  (∃ dt, mk_date yr mo (Z.of_nat d + 1) = Some dt ∧ weekday dt ≠ 6%Z) →
  (∀ i, i < 4 →
     ∃ dt, mk_date yr mo (Z.of_nat (d + i + 1)) = Some dt
           ∧ is_on_leave c dt = Some false) →
  start_sequence d c st = Some st' →
  night_inv st'.
Proof.
  intros [Hfollow Hevents Hcounts Hkeys] Hfit Hc Hfree Hday Hleave Hstart.
  destruct (start_sequence_spec _ _ _ _ Hstart)
    as (n & Hn & Hnc & _ & Hhist & Hcells).
  split.
  - intros c' i. rewrite !Hcells.
    destruct (decide (c' = c ∧ d ≤ i + 1 < d + 4)) as [_|Hout]; [done|].
    destruct (decide (c' = c ∧ d ≤ i < d + 4)) as [[-> Hi]|_]; [|by auto].
    assert (i - d = 3) as ->; [|discriminate].
    destruct (decide (i + 1 < d + 4)); [|lia].
    exfalso. apply Hout. split; [done|lia].
  - intros e. rewrite Hhist, in_app_iff. intros [Hin|[<-|[]]].
    + destruct (Hevents e Hin) as (Hk & Hf & He & Hpat & Hrest).
      split; [done|]. split; [done|]. split; [done|]. split; [|done].
      intros i Hi. rewrite Hcells.
      destruct (decide (ev_staff e = c ∧ d ≤ ev_day e + i < d + 4))
        as [[Hs Hr]|_]; [|by auto].
      specialize (Hpat i Hi). rewrite Hs in Hpat.
      specialize (Hfree (ev_day e + i - d)).
      replace (d + (ev_day e + i - d)) with (ev_day e + i) in Hfree by lia.
      rewrite Hfree in Hpat by lia. discriminate.
    + split; [done|]. split; [done|]. split; [done|]. split; [|done].
      intros i Hi. simpl. rewrite Hcells.
      rewrite decide_True by (split; [done|lia]).
      by replace (d + i - d) with i by lia.
  - intros c' m. rewrite Hnc, Hhist, starts_of_app, starts_of_start.
    destruct (decide (c = c')) as [<-|Hne].
    + rewrite get_set_eq. intros [= <-]. specialize (Hcounts c n Hn). lia.
    + rewrite get_set_ne by done. intros Hm.
      specialize (Hcounts c' m Hm). lia.
  - intros c'. rewrite Hnc, In_keys_set, Hkeys. split; [|tauto].
    intros [->|?]; done.
Qed.

Lemma night_turn_inv d cd c st st' :
  night_inv st → mk_date yr mo (Z.of_nat d + 1) = Some cd →
  weekday cd ≠ 6%Z → In c night_eligible →
  night_turn d cd st c = Some st' →
  night_inv st'
  ∧ (st' = st
     ∨ (history st' = (history st ++ [start_event d c])%list
        ∧ assigned_tonight st' = assigned_tonight st + 1)).
Proof.
  intros Hinv Hcd Hwd Hc Hturn.
  destruct (night_turn_cases _ _ _ _ _ (inv_follow _ _ _ _ _ _ _ Hinv) Hturn)
    as [->|(Hfit & Hfree & Hleave & Hstart)]; [by auto|].
  split; [by eauto using start_preserves|]. right.
  destruct (start_sequence_spec _ _ _ _ Hstart) as (n & _ & _ & ? & ? & _).
  done.
Qed.

Lemma night_candidates_cons d cd c rest st :
  night_candidates d cd (c :: rest) st
  = if 2 <=? assigned_tonight st then Some st
    else st' ← night_turn d cd st c; night_candidates d cd rest st'.
Proof. done. Qed.

Lemma night_candidates_inv d cd candidates st st' :
  night_inv st → mk_date yr mo (Z.of_nat d + 1) = Some cd →
  weekday cd ≠ 6%Z → (∀ c, In c candidates → In c night_eligible) →
  night_candidates d cd candidates st = Some st' →
  night_inv st'
  ∧ ∃ new, history st' = (history st ++ new)%list
           ∧ (∀ e, In e new → ∃ c, e = start_event d c)
           ∧ assigned_tonight st' = assigned_tonight st + length new
           ∧ (assigned_tonight st ≤ 2 → assigned_tonight st' ≤ 2).
Proof.
  intros Hinv Hcd Hwd. revert st Hinv.
  induction candidates as [|c rest IH]; intros st Hinv Hel H.
  - injection H as <-. split; [done|]. exists []. simpl.
    rewrite app_nil_r. repeat split; [tauto | lia | done].
  - rewrite night_candidates_cons in H.
    destruct (2 <=? assigned_tonight st) eqn:Hcap.
    + injection H as <-. split; [done|]. exists []. simpl.
      rewrite app_nil_r. repeat split; [tauto | lia | done].
    + apply Nat.leb_gt in Hcap. bind_inv H st1 Hturn.
      destruct (night_turn_inv _ _ _ _ _ Hinv Hcd Hwd (Hel c (or_introl eq_refl)) Hturn)
        as [Hinv1 Hstep].
      destruct (IH st1 Hinv1 (λ c' Hc', Hel c' (or_intror Hc')) H)
        as (Hinv' & new & Hh & Hnew & Ha & Hle).
      split; [done|].
      destruct Hstep as [->|[Hh1 Ha1]].
      * exists new. repeat split; try done.
      * exists (start_event d c :: new). rewrite Hh, Hh1, <- app_assoc.
        repeat split; simpl.
        -- intros e [<-|?]; eauto.
        -- lia.
        -- intros _. apply Hle. lia.
Qed.

Lemma candidates_of_eligible st candidates c :
  candidates_of night_eligible night_predominant st = Some candidates →
  In c candidates → In c night_eligible.
Proof.
  unfold candidates_of. intros H. bind_inv H prio Hprio.
  bind_inv H others Hothers. injection H as <-.
  rewrite in_app_iff. intros [Hin|Hin].
  - eapply sorted_by_count_In in Hin; [|done].
    apply filter_In in Hin as [_ Hin]. by apply str_in_In.
  - eapply sorted_by_count_In in Hin; [|done].
    by apply filter_In in Hin as [Hin _].
Qed.

Lemma reset_tonight_inv st : night_inv st → night_inv (reset_tonight st).
Proof. intros [? ? ? ?]. by split. Qed.

(** A day of the night phase appends at most two commits, all of them
    starts of that day, and none on a Sunday. *)
Lemma night_day_inv st d st' :
  night_inv st → night_day st d = Some st' →
  night_inv st'
  ∧ ∃ new, history st' = (history st ++ new)%list
           ∧ length new ≤ 2
           ∧ ∀ e, In e new → ∃ c, e = start_event d c.
Proof.
  intros Hinv. unfold night_day. intros H.
  bind_inv H cd Hcd.
  destruct (weekday cd =? 6)%Z eqn:Hwd.
  { injection H as <-. split; [done|]. exists []. rewrite app_nil_r.
    repeat split; [simpl; lia | intros e []]. }
  apply Z.eqb_neq in Hwd. bind_inv H candidates Hcands.
  apply night_candidates_inv in H as (Hinv' & new & Hh & Hnew & Ha & Hle);
    [|by apply reset_tonight_inv | done | done
     |by eauto using candidates_of_eligible].
  split; [done|]. exists new. simpl in *. split; [done|]. split; [lia|done].
Qed.

Lemma night_days_inv a n st st' :
  night_inv st →
  (∀ e, In e (history st) → ev_day e < a) →
  (∀ d, commits_on d (history st) ≤ 2) →
  for_each night_day (seq a n) st = Some st' →
  night_inv st'
  ∧ (∀ e, In e (history st') → ev_day e < a + n)
  ∧ (∀ d, commits_on d (history st') ≤ 2).
Proof.
  revert a st. induction n as [|n IH]; intros a st Hinv Hbefore Hcap H.
  - injection H as <-. split; [done|]. split; [|done].
    intros e He. specialize (Hbefore e He). lia.
  - change (seq a (S n)) with (a :: seq (S a) n) in H.
    rewrite for_each_cons in H. bind_inv H st1 Hday.
    destruct (night_day_inv _ _ _ Hinv Hday)
      as (Hinv1 & new & Hh & Hlen & Hnew).
    apply IH in H as (Hinv' & Hbefore' & Hcap'); [| done | |].
    + split; [done|]. split; [|done].
      intros e He. specialize (Hbefore' e He). lia.
    + intros e. rewrite Hh, in_app_iff. intros [He|He].
      * specialize (Hbefore e He). lia.
      * destruct (Hnew e He) as [c ->]. simpl. lia.
    + intros d. rewrite Hh, commits_on_app.
      destruct (decide (d = a)) as [->|Hne].
      * rewrite (commits_on_none a (history st)).
        -- pose proof (commits_on_le a new). lia.
        -- intros e He. specialize (Hbefore e He). lia.
      * rewrite (commits_on_none d new).
        -- specialize (Hcap d). lia.
        -- intros e He. destruct (Hnew e He) as [c ->]. simpl. congruence.
Qed.

Lemma initial_cell c i x :
  cell_at (schedule (initial_state staff days night_eligible)) c i = Some x →
  x = None.
Proof.
  unfold cell_at, initial_state. simpl. intros H. bind_inv H row Hrow.
  apply dict_of_get, in_map_iff in Hrow as (c' & [= _ <-] & _).
  apply lookup_replicate in H as [-> _]. done.
Qed.

Lemma initial_inv : night_inv (initial_state staff days night_eligible).
Proof.
  split.
  - intros c i H. apply initial_cell in H. discriminate.
  - intros e [].
  - intros c n H. simpl in H.
    apply dict_of_get, in_map_iff in H as (c' & [= _ <-] & _). done.
  - intros c. simpl. rewrite dict_of_In_keys, map_map. simpl.
    by rewrite map_id.
Qed.

(** The state the night phase ends in. *)
Lemma night_phase_inv st :
  night_phase staff leave_records fromisoformat yr mo days
    night_eligible night_predominant = Some st →
  night_inv st
  ∧ (∀ e, In e (history st) → ev_day e < days)
  ∧ (∀ d, commits_on d (history st) ≤ 2).
Proof.
  unfold night_phase. intros H.
  apply night_days_inv in H; [done | apply initial_inv | intros e [] |].
  intros d. simpl. unfold commits_on. simpl. lia.
Qed.
End NightFacts.

(** ** The history is a ghost *)

Section Ghost.
Variable leave_records : list LeaveEntry.
Variable fromisoformat : string → option date.
Variables (yr mo : Z) (days : nat).
Variables (night_eligible night_predominant : list string).

Local Abbreviation night_turn :=
  (night_turn leave_records fromisoformat yr mo days).
Local Abbreviation night_candidates :=
  (night_candidates leave_records fromisoformat yr mo days).
Local Abbreviation night_day :=
  (night_day leave_records fromisoformat yr mo days
     night_eligible night_predominant).

Lemma erase_history_locals st1 st2 :
  erase_history st1 = erase_history st2 ↔
  schedule st1 = schedule st2 ∧ night_counts st1 = night_counts st2
  ∧ assigned_tonight st1 = assigned_tonight st2.
Proof.
  destruct st1, st2. unfold erase_history. simpl. split.
  - by intros [= -> -> ->].
  - by intros (-> & -> & ->).
Qed.

Lemma commit_event_ghost st1 st2 sched d c n what :
  erase_history st1 = erase_history st2 →
  erase_history <$> commit_event st1 sched d c n what
  = erase_history <$> commit_event st2 sched d c n what.
Proof.
  intros (_ & Hn & Ha)%erase_history_locals. unfold commit_event.
  rewrite Hn, Ha. by destruct (Dict.get c (night_counts st2)).
Qed.

Lemma start_sequence_ghost st1 st2 d c :
  erase_history st1 = erase_history st2 →
  erase_history <$> start_sequence d c st1
  = erase_history <$> start_sequence d c st2.
Proof.
  intros He. pose proof He as (Hs & _)%erase_history_locals.
  unfold start_sequence. rewrite Hs.
  destruct (cell_set (schedule st2) c d "N") as [s1|]; [|done]. simpl.
  destruct (cell_set s1 c (d + 1) "N") as [s2|]; [|done]. simpl.
  destruct (cell_set s2 c (d + 2) "SD") as [s3|]; [|done]. simpl.
  destruct (cell_set s3 c (d + 3) "DO") as [s4|]; [|done]. simpl.
  by apply commit_event_ghost.
Qed.

Lemma continue_sequence_ghost st1 st2 d c :
  erase_history st1 = erase_history st2 →
  erase_history <$> continue_sequence days d c st1
  = erase_history <$> continue_sequence days d c st2.
Proof.
  intros He. pose proof He as (Hs & _)%erase_history_locals.
  unfold continue_sequence. rewrite Hs.
  destruct (cell_set (schedule st2) c d "N") as [s1|]; [|done]. simpl.
  destruct (if d + 1 <? days then cell_set s1 c (d + 1) "SD" else Some s1)
    as [s2|]; [|done]. simpl.
  destruct (if d + 2 <? days then cell_set s2 c (d + 2) "DO" else Some s2)
    as [s3|]; [|done]. simpl.
  by apply commit_event_ghost.
Qed.

Lemma look_back_ghost st1 st2 d c :
  erase_history st1 = erase_history st2 →
  erase_back <$> look_back days d c st1 = erase_back <$> look_back days d c st2.
Proof.
  intros He. pose proof He as (Hs & _)%erase_history_locals.
  unfold look_back. rewrite Hs. destruct (0 <? d); [|done].
  destruct (cell_at (schedule st2) c (d - 1)) as [prev|]; [|done]. simpl.
  destruct (is_str prev "N"); [|done].
  destruct (if 1 <? d then _ else _) as [[|]|]; [done| |done]. simpl.
  pose proof (continue_sequence_ghost st1 st2 d c He) as Hc.
  destruct (continue_sequence days d c st1), (continue_sequence days d c st2);
    simpl in *; congruence.
Qed.

Lemma night_turn_ghost st1 st2 d cd c :
  erase_history st1 = erase_history st2 →
  erase_history <$> night_turn d cd st1 c
  = erase_history <$> night_turn d cd st2 c.
Proof.
  intros He. pose proof He as (Hs & _)%erase_history_locals.
  unfold night_turn. rewrite Hs.
  destruct (is_on_leave leave_records fromisoformat c cd) as [[|]|];
    [by simpl; f_equal | | done].
  cbn [mbind option_bind].
  destruct (cell_at (schedule st2) c d) as [cur|]; [|done].
  cbn [mbind option_bind].
  destruct (is_set cur); [by simpl; f_equal|].
  pose proof (look_back_ghost st1 st2 d c He) as Hb.
  destruct (look_back days d c st1) as [[a|b1]|],
    (look_back days d c st2) as [[a'|b2]|]; simpl in Hb; try congruence.
  - cbn [mbind option_bind]. simpl. congruence.
  - injection Hb as ->. cbn [mbind option_bind].
    destruct (b2 && (d + 3 <? days)); [|by simpl; f_equal].
    destruct (all_free (schedule st2) c d (seq 0 4)) as [[|]|];
      [| by simpl; f_equal | done].
    cbn [mbind option_bind].
    destruct (leave_check leave_records fromisoformat yr mo d c) as [flags|];
      [|done].
    cbn [mbind option_bind].
    destruct (negb (existsb id flags)); [|by simpl; f_equal].
    by apply start_sequence_ghost.
  - done.
Qed.

Lemma night_candidates_ghost candidates st1 st2 d cd :
  erase_history st1 = erase_history st2 →
  erase_history <$> night_candidates d cd candidates st1
  = erase_history <$> night_candidates d cd candidates st2.
Proof.
  revert st1 st2. induction candidates as [|c rest IH]; intros st1 st2 He.
  - simpl. by f_equal.
  - rewrite !night_candidates_cons.
    pose proof He as (_ & _ & ->)%erase_history_locals.
    destruct (2 <=? assigned_tonight st2); [by simpl; f_equal|].
    pose proof (night_turn_ghost st1 st2 d cd c He) as Ht.
    destruct (night_turn d cd st1 c) as [a|], (night_turn d cd st2 c) as [b|];
      simpl in Ht; try congruence.
    cbn [mbind option_bind]. apply IH. congruence.
Qed.

Lemma candidates_of_ghost st1 st2 :
  night_counts st1 = night_counts st2 →
  candidates_of night_eligible night_predominant st1
  = candidates_of night_eligible night_predominant st2.
Proof. intros H. unfold candidates_of. by rewrite H. Qed.

(** The night phase never reads the history: two states with the same
    locals go through a day to states with the same locals. *)
Lemma night_day_ghost st1 st2 d :
  erase_history st1 = erase_history st2 →
  erase_history <$> night_day st1 d = erase_history <$> night_day st2 d.
Proof.
  intros He. unfold night_day.
  destruct (mk_date yr mo (Z.of_nat d + 1)) as [cd|]; [|done].
  cbn [mbind option_bind].
  destruct (weekday cd =? 6)%Z; [by simpl; f_equal|].
  pose proof He as (Hs & Hn & Ha)%erase_history_locals.
  rewrite (candidates_of_ghost (reset_tonight st1) (reset_tonight st2)) by done.
  destruct (candidates_of _ _ (reset_tonight st2)) as [candidates|]; [|done].
  cbn [mbind option_bind].
  apply night_candidates_ghost. apply erase_history_locals. by simpl.
Qed.
End Ghost.

(** ** The calendar *)

Lemma mk_date_Some y m d dt :
  mk_date y m d = Some dt →
  dt = Date y m d
  ∧ (1 <= y <= 9999)%Z ∧ (1 <= m <= 12)%Z ∧ (1 <= d <= days_in_month y m)%Z.
Proof.
  unfold mk_date.
  destruct (_ && _) eqn:E; [|discriminate]. intros [= <-].
  rewrite !andb_true_iff, !Z.leb_le in E. split; [done|lia].
Qed.

Lemma mk_date_valid y m d :
  (1 <= y <= 9999)%Z → (1 <= m <= 12)%Z → (1 <= d <= days_in_month y m)%Z →
  mk_date y m d = Some (Date y m d).
Proof.
  intros Hy Hm Hd. unfold mk_date.
  assert ((1 <=? y) && (y <=? 9999) && (1 <=? m) && (m <=? 12) && (1 <=? d)
          && (d <=? days_in_month y m) = true)%Z as ->; [|done].
  rewrite !andb_true_iff, !Z.leb_le. lia.
Qed.

Lemma year_length y :
  (days_before_year (y + 1) - days_before_year y
   = 365 + (if is_leap y then 1 else 0))%Z.
Proof.
  unfold days_before_year, is_leap. cbv zeta.
  replace (y + 1 - 1)%Z with y by lia.
  destruct (y mod 4 =? 0)%Z eqn:E4; destruct (y mod 100 =? 0)%Z eqn:E100;
    destruct (y mod 400 =? 0)%Z eqn:E400; simpl;
    rewrite ?Z.eqb_eq, ?Z.eqb_neq in *;
    Z.div_mod_to_equations; lia.
Qed.

Lemma days_in_month_range y m :
  (1 <= m <= 12)%Z → (28 <= days_in_month y m <= 31)%Z.
Proof.
  intros Hm. unfold days_in_month.
  assert (m = 1 ∨ m = 2 ∨ m = 3 ∨ m = 4 ∨ m = 5 ∨ m = 6 ∨ m = 7 ∨ m = 8
          ∨ m = 9 ∨ m = 10 ∨ m = 11 ∨ m = 12)%Z as Hcases by lia.
  destruct (is_leap y);
    repeat (destruct Hcases as [->|Hcases]; [simpl; lia|]); subst; simpl; lia.
Qed.

(** [get_days_in_month] succeeds on the months of the calendar it can
    build the next month of, and gives the days of the month. *)
Lemma get_days_in_month_calendar yr mo days :
  get_days_in_month yr mo = Some days →
  (1 <= yr <= 9999)%Z ∧ (1 <= mo <= 12)%Z ∧ days = days_in_month yr mo.
Proof.
  unfold get_days_in_month. intros H.
  bind_inv H next_month Hnext. bind_inv H day1 Hday1. injection H as <-.
  apply mk_date_Some in Hday1 as (-> & Hy & Hm & _).
  split; [done|]. split; [done|].
  unfold days_between, toordinal.
  destruct (mo =? 12)%Z eqn:E12.
  - apply Z.eqb_eq in E12. subst mo.
    apply mk_date_Some in Hnext as (-> & _). simpl.
    pose proof (year_length yr) as Hlen.
    unfold days_before_month, days_in_month. simpl.
    destruct (is_leap yr), (is_leap (yr + 1)); simpl; lia.
  - apply Z.eqb_neq in E12.
    apply mk_date_Some in Hnext as (-> & _). simpl.
    assert (mo = 1 ∨ mo = 2 ∨ mo = 3 ∨ mo = 4 ∨ mo = 5 ∨ mo = 6 ∨ mo = 7
            ∨ mo = 8 ∨ mo = 9 ∨ mo = 10 ∨ mo = 11)%Z as Hcases by lia.
    unfold days_before_month, days_in_month.
    destruct (is_leap yr);
      repeat (destruct Hcases as [->|Hcases]; [simpl; lia|]); subst; simpl; lia.
Qed.

Lemma get_days_in_month_defined yr mo :
  (1 <= mo <= 12)%Z → (1 <= yr <= 9999)%Z → (yr, mo) ≠ (9999, 12)%Z →
  get_days_in_month yr mo = Some (days_in_month yr mo).
Proof.
  intros Hm Hy Hlast.
  assert (is_Some (get_days_in_month yr mo)) as [days Hdays].
  { unfold get_days_in_month.
    pose proof (days_in_month_range yr mo Hm).
    rewrite (mk_date_valid yr mo 1) by lia.
    destruct (mo =? 12)%Z eqn:E12.
    - apply Z.eqb_eq in E12. subst mo.
      assert (yr ≠ 9999%Z) by congruence.
      rewrite (mk_date_valid (yr + 1) 1 1); [by eexists | lia | lia |].
      pose proof (days_in_month_range (yr + 1) 1). lia.
    - apply Z.eqb_neq in E12.
      rewrite (mk_date_valid yr (mo + 1) 1); [by eexists | lia | lia |].
      pose proof (days_in_month_range yr (mo + 1)). lia. }
  rewrite Hdays. f_equal. by apply get_days_in_month_calendar in Hdays as (_ & _ & ->).
Qed.

(** ** A run raises nothing *)

Lemma sorted_by_count_defined counts l :
  (∀ c, In c l → In c (Dict.keys counts)) → is_Some (sorted_by_count counts l).
Proof.
  intros Hkeys. unfold sorted_by_count.
  destruct (mapM (λ c, n ← Dict.get c counts; Some (n, c)) l) as [keyed|] eqn:E;
    [by eexists|].
  apply mapM_None_1, Exists_exists in E as (c & Hc & Hnone).
  apply list_elem_of_In, Hkeys, get_is_Some_keys in Hc as [n Hn].
  rewrite Hn in Hnone. discriminate.
Qed.

Lemma cell_set_ready staff days s s' c i v :
  rows_ready staff days s → cell_set s c i v = Some s' → rows_ready staff days s'.
Proof.
  intros Hready Hset c' j Hc' Hj. rewrite (cell_set_lookup _ _ _ _ _ c' j Hset).
  case_decide; [by eexists | by apply Hready].
Qed.

Lemma start_sequence_defined staff days d c st :
  rows_ready staff days (schedule st) → In c (Dict.keys staff) → d + 3 < days →
  In c (Dict.keys (night_counts st)) →
  ∃ st', start_sequence d c st = Some st'
         ∧ rows_ready staff days (schedule st').
Proof.
  intros Hready Hc Hfit Hcount. unfold start_sequence, commit_event.
  destruct (cell_set_total (schedule st) c d "N") as [s1 H1];
    [apply Hready; [done|lia]|].
  pose proof (cell_set_ready _ _ _ _ _ _ _ Hready H1) as Hr1.
  destruct (cell_set_total s1 c (d + 1) "N") as [s2 H2];
    [apply Hr1; [done|lia]|].
  pose proof (cell_set_ready _ _ _ _ _ _ _ Hr1 H2) as Hr2.
  destruct (cell_set_total s2 c (d + 2) "SD") as [s3 H3];
    [apply Hr2; [done|lia]|].
  pose proof (cell_set_ready _ _ _ _ _ _ _ Hr2 H3) as Hr3.
  destruct (cell_set_total s3 c (d + 3) "DO") as [s4 H4];
    [apply Hr3; [done|lia]|].
  pose proof (cell_set_ready _ _ _ _ _ _ _ Hr3 H4) as Hr4.
  apply get_is_Some_keys in Hcount as [n Hn].
  rewrite H1. simpl. rewrite H2. simpl. rewrite H3. simpl. rewrite H4. simpl.
  rewrite Hn. simpl. eexists. split; [done|]. done.
Qed.

Lemma all_free_defined s c d offsets :
  (∀ i, In i offsets → is_Some (cell_at s c (d + i))) →
  is_Some (all_free s c d offsets).
Proof.
  induction offsets as [|i offsets IH]; intros Hcells; [by eexists|].
  simpl. destruct (Hcells i) as [cur ->]; [simpl; auto|]. simpl.
  destruct cur; [by eexists|]. apply IH. intros j ?. apply Hcells. simpl. auto.
Qed.

Section Defined.
Variable staff : dict Staff.
Variable leave_records : list LeaveEntry.
Variable fromisoformat : string → option date.
Variables (yr mo : Z) (days : nat).
Variables (night_eligible night_predominant : list string).

Hypothesis table_parses : leave_table_parses leave_records fromisoformat.
Hypothesis days_exist :
  ∀ d, d < days → is_Some (mk_date yr mo (Z.of_nat d + 1)).
Hypothesis eligible_staff :
  ∀ c, In c night_eligible → In c (Dict.keys staff).

Local Abbreviation is_on_leave := (is_on_leave leave_records fromisoformat).
Local Abbreviation night_turn :=
  (night_turn leave_records fromisoformat yr mo days).
Local Abbreviation night_candidates :=
  (night_candidates leave_records fromisoformat yr mo days).
Local Abbreviation night_day :=
  (night_day leave_records fromisoformat yr mo days
     night_eligible night_predominant).
Local Abbreviation night_inv :=
  (night_inv leave_records fromisoformat yr mo days night_eligible).
Local Abbreviation rows_ready := (rows_ready staff days).

Lemma is_on_leave_defined c d : is_Some (is_on_leave c d).
Proof.
  apply leave_scan_defined. intros entry Hin _. by apply table_parses.
Qed.

Lemma leave_check_defined d c :
  d + 3 < days →
  is_Some (leave_check leave_records fromisoformat yr mo d c).
Proof.
  intros Hfit. unfold leave_check. apply mapM_is_Some_2, Forall_forall.
  intros i Hi. apply list_elem_of_In, in_seq in Hi. simpl.
  replace (Z.of_nat (d + i + 1)) with (Z.of_nat (d + i) + 1)%Z by lia.
  destruct (days_exist (d + i)) as [dt ->]; [lia|]. simpl.
  apply is_on_leave_defined.
Qed.

Lemma look_back_defined d c st :
  night_inv st → rows_ready (schedule st) → In c (Dict.keys staff) → d < days →
  cell_at (schedule st) c d = Some None →
  ∃ can_start, look_back days d c st = Some (Proceed can_start).
Proof.
  intros Hinv Hready Hc Hd Hfree. unfold look_back.
  destruct (0 <? d) eqn:E; [|by eexists].
  apply Nat.ltb_lt in E.
  destruct (Hready c (d - 1)) as [prev Hprev]; [done|lia|].
  rewrite Hprev. simpl.
  destruct (is_str prev "N") eqn:HN; [|by eexists].
  exfalso. destruct prev as [p|]; [|discriminate].
  apply String.eqb_eq in HN. subst p.
  apply (inv_follow _ _ _ _ _ _ _ Hinv c (d - 1)); [done|].
  by replace (d - 1 + 1) with d by lia.
Qed.

Lemma night_turn_defined d cd c st :
  night_inv st → rows_ready (schedule st) → In c night_eligible → d < days →
  ∃ st', night_turn d cd st c = Some st' ∧ rows_ready (schedule st').
Proof.
  intros Hinv Hready Hc Hd. unfold night_turn.
  pose proof (eligible_staff c Hc) as Hstaff.
  destruct (is_on_leave_defined c cd) as [on_leave ->]. cbn [mbind option_bind].
  destruct on_leave; [by eexists|].
  destruct (Hready c d Hstaff Hd) as [cur Hcur]. rewrite Hcur. cbn [mbind option_bind].
  destruct cur; [by eexists|]. unfold is_set.
  destruct (look_back_defined d c st Hinv Hready Hstaff Hd Hcur)
    as [can_start ->]. cbn [mbind option_bind].
  destruct (can_start && (d + 3 <? days)) eqn:Hgo; [|by eexists].
  apply andb_true_iff in Hgo as [_ Hfit]. apply Nat.ltb_lt in Hfit.
  destruct (all_free_defined (schedule st) c d (seq 0 4)) as [free ->].
  { intros i Hi. apply in_seq in Hi. apply Hready; [done|lia]. }
  cbn [mbind option_bind]. destruct free; [|by eexists].
  destruct (leave_check_defined d c Hfit) as [flags ->]. cbn [mbind option_bind].
  destruct (negb (existsb id flags)); [|by eexists].
  apply (start_sequence_defined staff days); try done.
  by apply (inv_keys _ _ _ _ _ _ _ Hinv).
Qed.

Lemma night_candidates_defined d cd candidates st :
  night_inv st → rows_ready (schedule st) →
  mk_date yr mo (Z.of_nat d + 1) = Some cd → weekday cd ≠ 6%Z →
  (∀ c, In c candidates → In c night_eligible) → d < days →
  ∃ st', night_candidates d cd candidates st = Some st'
         ∧ rows_ready (schedule st').
Proof.
  intros Hinv Hready Hcd Hwd Hel Hd. revert st Hinv Hready.
  induction candidates as [|c rest IH]; intros st Hinv Hready.
  - by eexists.
  - rewrite night_candidates_cons.
    destruct (2 <=? assigned_tonight st); [by eexists|].
    destruct (night_turn_defined d cd c st Hinv Hready) as (st1 & Hturn & Hr1);
      [apply Hel; simpl; auto | done |].
    rewrite Hturn. simpl.
    apply IH; [intros c' ?; apply Hel; simpl; auto | | done].
    by destruct (night_turn_inv _ _ _ _ _ _ _ _ _ _ _ Hinv Hcd Hwd
                   (Hel c (or_introl eq_refl)) Hturn).
Qed.

Lemma candidates_of_defined st :
  night_inv st →
  is_Some (candidates_of night_eligible night_predominant st).
Proof.
  intros Hinv. unfold candidates_of.
  destruct (sorted_by_count_defined (night_counts st)
              (List.filter (λ c, str_in c night_eligible) night_predominant))
    as [prio ->].
  { intros c Hin. apply filter_In in Hin as [_ Hin].
    by apply (inv_keys _ _ _ _ _ _ _ Hinv), str_in_In. }
  destruct (sorted_by_count_defined (night_counts st)
              (List.filter (λ c, negb (str_in c night_predominant))
                 night_eligible))
    as [others ->].
  { intros c Hin. apply filter_In in Hin as [Hin _].
    by apply (inv_keys _ _ _ _ _ _ _ Hinv). }
  by eexists.
Qed.

Lemma night_day_defined st d :
  night_inv st → rows_ready (schedule st) → d < days →
  ∃ st', night_day st d = Some st' ∧ rows_ready (schedule st').
Proof.
  intros Hinv Hready Hd. unfold night_day.
  destruct (days_exist d Hd) as [cd Hcd]. rewrite Hcd. simpl.
  destruct (weekday cd =? 6)%Z eqn:Hwd; [by eexists|].
  apply Z.eqb_neq in Hwd.
  destruct (candidates_of_defined (reset_tonight st)) as [candidates Hcands];
    [by apply reset_tonight_inv|].
  rewrite Hcands. simpl.
  apply night_candidates_defined; try done.
  - by apply reset_tonight_inv.
  - intros c. by apply (candidates_of_eligible _ _ _ _ _ Hcands).
Qed.

Lemma night_days_defined a n st :
  night_inv st → rows_ready (schedule st) → a + n ≤ days →
  ∃ st', for_each night_day (seq a n) st = Some st'
         ∧ rows_ready (schedule st').
Proof.
  revert a st. induction n as [|n IH]; intros a st Hinv Hready Hle.
  - by eexists.
  - change (seq a (S n)) with (a :: seq (S a) n). rewrite for_each_cons.
    destruct (night_day_defined st a Hinv Hready) as (st1 & Hday & Hr1); [lia|].
    rewrite Hday. simpl. apply IH; [|done|lia].
    by destruct (night_day_inv _ _ _ _ _ _ _ _ _ _ Hinv Hday).
Qed.
End Defined.

(** ** The fill phase *)

(** A row built by assigning, key after key, a computed value to each key
    of a dictionary. *)
Lemma for_each_assign {V} (f : string → option string) (l : dict V)
  (acc a : dict string) :
  NoDup (Dict.keys l) →
  (∀ k, In k (Dict.keys l) → ¬ In k (Dict.keys acc)) →
  for_each (λ acc cs, shift ← f (fst cs); Some (Dict.set (fst cs) shift acc))
    l acc = Some a →
  Dict.keys a = (Dict.keys acc ++ Dict.keys l)%list
  ∧ (∀ k, In k (Dict.keys l) → ∃ v, f k = Some v ∧ Dict.get k a = Some v)
  ∧ (∀ k, ¬ In k (Dict.keys l) → Dict.get k a = Dict.get k acc).
Proof.
  revert acc. induction l as [|[k0 x0] l IH]; intros acc Hnd Hfresh H.
  - injection H as <-. simpl. rewrite app_nil_r. by repeat split.
  - rewrite for_each_cons in H. simpl in H. bind_inv H acc1 Hstep.
    bind_inv Hstep v Hv. injection Hstep as <-.
    unfold Dict.keys in Hnd. simpl in Hnd. apply NoDup_cons in Hnd as [Hk0 Hnd].
    assert (¬ In k0 (Dict.keys l)) as Hk0' by (by rewrite <- list_elem_of_In).
    assert (¬ In k0 (Dict.keys acc)) as Hk0acc by (apply Hfresh; simpl; auto).
    apply IH in H as (Hkeys & Hin & Hout); [|done|].
    + split; [|split].
      * rewrite Hkeys, keys_set.
        assert (Dict.mem k0 acc = false) as ->.
        { destruct (Dict.mem k0 acc) eqn:E; [|done].
          by apply mem_keys in E. }
        by rewrite <- app_assoc.
      * intros k [<-|Hk]; [|by auto].
        exists v. split; [done|]. rewrite Hout by done. apply get_set_eq.
      * intros k Hk. simpl in Hk. rewrite Hout by tauto.
        apply get_set_ne. tauto.
    + intros k Hk. rewrite In_keys_set. intros [->|Hacc]; [done|].
      apply (Hfresh k); simpl; auto.
Qed.

Section FillFacts.
Variable staff : dict Staff.
Hypothesis staff_nodup : NoDup (Dict.keys staff).
Variable leave_records : list LeaveEntry.
Variable fromisoformat : string → option date.
Variables (yr mo : Z) (days : nat).

Local Abbreviation is_on_leave := (is_on_leave leave_records fromisoformat).
Local Abbreviation fill_cell := (fill_cell staff leave_records fromisoformat).
Local Abbreviation fill_day :=
  (fill_day staff leave_records fromisoformat yr mo).
Local Abbreviation fill_phase :=
  (fill_phase staff leave_records fromisoformat yr mo days).

Lemma fill_day_spec st d entry :
  fill_day st d = Some entry →
  ∃ cd, mk_date yr mo (Z.of_nat d + 1) = Some cd
        ∧ entry_date entry = isoformat cd
        ∧ day_number entry = d + 1
        ∧ is_sunday entry = (weekday cd =? 6)%Z
        ∧ is_saturday entry = (weekday cd =? 5)%Z
        ∧ is_weekend entry = (5 <=? weekday cd)%Z
        ∧ Dict.keys (assignments entry) = Dict.keys staff
        ∧ ∀ c, In c (Dict.keys staff) →
               ∃ v, fill_cell st d cd entry c = Some v
                    ∧ Dict.get c (assignments entry) = Some v.
Proof.
  unfold fill_day. intros H. bind_inv H cd Hcd.
  bind_inv H a Ha. injection H as <-. exists cd.
  apply for_each_assign in Ha as (Hkeys & Hin & _); [|done|by auto].
  repeat split; try done.
Qed.

Lemma fill_phase_spec st r :
  fill_phase st = Some r →
  length r = days
  ∧ ∀ d entry, r !! d = Some entry → d < days ∧ fill_day st d = Some entry.
Proof.
  unfold fill_phase. intros H. apply mapM_Some_1 in H.
  pose proof (Forall2_length _ _ _ H) as Hlen. rewrite length_seq in Hlen.
  split; [done|]. intros d entry Hd.
  destruct (Forall2_lookup_r _ _ _ _ _ H Hd) as (d' & Hd' & Hfill).
  apply lookup_seq in Hd' as [-> ?]. done.
Qed.
End FillFacts.

(** ** A call of [generate] *)

Lemma In_night_eligible_codes staff c :
  In c (night_eligible_codes staff) → In c (Dict.keys staff).
Proof.
  unfold night_eligible_codes, Dict.keys. rewrite !in_map_iff.
  intros (cs & <- & Hin). apply filter_In in Hin as [Hin _]. eauto.
Qed.

Section EngineFacts.
Variable staff : dict Staff.
Hypothesis staff_nodup : NoDup (Dict.keys staff).
Variable leave_records : list LeaveEntry.
Variable fromisoformat : string → option date.

Local Abbreviation is_on_leave := (is_on_leave leave_records fromisoformat).
Local Abbreviation fill_cell := (fill_cell staff leave_records fromisoformat).
Local Abbreviation night_run := (night_run staff leave_records fromisoformat).
Local Abbreviation generate := (generate staff leave_records fromisoformat).
Local Abbreviation night_inv yr mo days :=
  (night_inv leave_records fromisoformat yr mo days
     (night_eligible_codes staff)).

Lemma fill_cell_cases st d cd entry c v :
  fill_cell st d cd entry c = Some v →
  ∃ (on_leave : bool) (cur : option string),
    is_on_leave c cd = Some on_leave
    ∧ v = (if on_leave then "A" else
           match cur with
           | Some shift => shift
           | None => preferred_shift staff (night_counts st) c entry d
           end)
    ∧ (on_leave = false → cell_at (schedule st) c d = Some cur).
Proof.
  unfold fill_cell. intros H. bind_inv H on_leave Hl.
  exists on_leave. destruct on_leave.
  - injection H as <-. exists None. by repeat split.
  - bind_inv H cur Hcur. exists cur. destruct cur; injection H as <-; by repeat split.
Qed.

Lemma night_run_inv mo yr st :
  night_run mo yr = Some st →
  ∃ days, get_days_in_month yr mo = Some days
          ∧ night_inv yr mo (Z.to_nat days) st
          ∧ (∀ e, In e (history st) → ev_day e < Z.to_nat days)
          ∧ (∀ d, commits_on d (history st) ≤ 2).
Proof.
  unfold night_run. intros H. bind_inv H days Hdays.
  exists days. split; [done|]. by apply night_phase_inv in H.
Qed.

Lemma generate_inv mo yr r :
  generate mo yr = Some r →
  ∃ days st,
    get_days_in_month yr mo = Some days
    ∧ night_run mo yr = Some st
    ∧ fill_phase staff leave_records fromisoformat yr mo (Z.to_nat days) st
      = Some (roster r)
    ∧ total_days r = days
    ∧ total_staff r = length staff
    ∧ shift_distribution r = shift_counts_of (roster r)
    ∧ night_shift_distribution r = night_counts st.
Proof.
  unfold generate, night_run. intros H.
  bind_inv H days Hdays. cbv zeta in H. bind_inv H st Hst.
  bind_inv H rows Hrows. bind_inv H day1 Hday1. injection H as <-.
  exists days, st. simpl. split; [done|].
  split; [by rewrite Hdays|]. by repeat split.
Qed.

(** Every cell of the returned roster is the duty [fill_cell] computes
    from the night phase's final state. *)
Lemma roster_cell mo yr r st d entry c :
  generate mo yr = Some r → night_run mo yr = Some st →
  roster r !! d = Some entry → In c (Dict.keys staff) →
  ∃ cd v, mk_date yr mo (Z.of_nat d + 1) = Some cd
          ∧ is_sunday entry = (weekday cd =? 6)%Z
          ∧ is_saturday entry = (weekday cd =? 5)%Z
          ∧ fill_cell st d cd entry c = Some v
          ∧ Dict.get c (assignments entry) = Some v.
Proof.
  intros Hgen Hrun Hrow Hc.
  destruct (generate_inv _ _ _ Hgen) as (days & st' & _ & Hrun' & Hfill & _).
  assert (st' = st) as -> by congruence.
  apply fill_phase_spec in Hfill as [_ Hrows].
  destruct (Hrows d entry Hrow) as [_ Hday].
  apply fill_day_spec in Hday
    as (cd & Hcd & _ & _ & Hsun & Hsat & _ & _ & Hcells); [|done].
  destruct (Hcells c Hc) as (v & Hv & Hget). by exists cd, v.
Qed.

Lemma roster_row mo yr r days d :
  generate mo yr = Some r → get_days_in_month yr mo = Some days →
  d < Z.to_nat days → is_Some (roster r !! d).
Proof.
  intros Hgen Hdays Hd.
  destruct (generate_inv _ _ _ Hgen) as (days' & st & Hdays' & _ & Hfill & _).
  assert (days' = days) as -> by congruence.
  apply fill_phase_spec in Hfill as [Hlen _].
  apply lookup_lt_is_Some. lia.
Qed.
End EngineFacts.

(** ** Statistics *)

Lemma sum_values_set counts k v :
  sum_values (Dict.set k v counts) + default 0 (Dict.get k counts)
  = sum_values counts + v.
Proof.
  unfold sum_values, Dict.values.
  induction counts as [|[k0 v0] counts IH]; simpl; [lia|].
  destruct (String.eqb k0 k); simpl; lia.
Qed.

Lemma sum_values_count_shift counts shift :
  sum_values (count_shift counts shift) = sum_values counts + 1.
Proof.
  unfold count_shift.
  pose proof (sum_values_set counts shift (default 0 (Dict.get shift counts) + 1)).
  lia.
Qed.

Lemma sum_values_count_shifts shifts counts :
  sum_values (fold_left count_shift shifts counts)
  = sum_values counts + length shifts.
Proof.
  revert counts. induction shifts as [|s shifts IH]; intros counts; simpl.
  - lia.
  - rewrite IH, sum_values_count_shift. lia.
Qed.

(** The distribution counts every cell of the grid once. *)
Lemma sum_values_shift_counts r n :
  (∀ entry, In entry r → length (assignments entry) = n) →
  sum_values (shift_counts_of r) = length r * n.
Proof.
  unfold shift_counts_of. intros Hrows.
  assert (∀ counts,
            sum_values
              (fold_left
                 (λ counts entry,
                    fold_left count_shift (Dict.values (assignments entry)) counts)
                 r counts)
            = sum_values counts + length r * n) as Hgen.
  { induction r as [|entry r IH]; intros counts; simpl; [lia|].
    rewrite IH by (intros e ?; apply Hrows; simpl; auto).
    rewrite sum_values_count_shifts. unfold Dict.values.
    rewrite length_map, (Hrows entry) by (simpl; auto). lia. }
  rewrite Hgen. done.
Qed.

(** ** Night candidates *)

Lemma night_eligible_codes_spec staff c s :
  NoDup (Dict.keys staff) → Dict.get c staff = Some s →
  In c (night_eligible_codes staff)
  ↔ night_eligible s = true
    ∧ opt_in (ptype (get_staff_preference staff c))
        ["strict_oh"; "pm_predominant"] = false.
Proof.
  intros Hnd Hget. unfold night_eligible_codes. rewrite in_map_iff. split.
  - intros ([c' s'] & Hc & Hin). simpl in Hc. subst c'.
    apply filter_In in Hin as [Hin Hok]. cbn [fst snd] in Hok.
    apply In_get_nodup in Hin; [|done].
    assert (s' = s) as -> by congruence.
    apply andb_true_iff in Hok as [? Hno]. by apply negb_true_iff in Hno.
  - intros [Hflag Htype]. exists (c, s). split; [done|].
    apply filter_In. split; [by apply get_Some_In|].
    cbn [fst snd]. by rewrite Hflag, Htype.
Qed.

(** ** A call of [generate] raises nothing *)

Lemma initial_ready staff days night_eligible :
  rows_ready staff days (schedule (initial_state staff days night_eligible)).
Proof.
  intros c i Hc Hi. unfold cell_at, initial_state. simpl.
  assert (is_Some (Dict.get c
            (dict_of (map (λ c, (c, replicate days (@None string)))
                        (Dict.keys staff))))) as [row Hrow].
  { apply get_is_Some_keys, dict_of_In_keys. rewrite map_map. simpl.
    by rewrite map_id. }
  rewrite Hrow. simpl.
  apply dict_of_get, in_map_iff in Hrow as (c' & [= _ <-] & _).
  exists None. by apply lookup_replicate_2.
Qed.

Lemma for_each_assign_defined {V} (f : string → option string) (l : dict V)
  (acc : dict string) :
  (∀ k, In k (Dict.keys l) → is_Some (f k)) →
  is_Some
    (for_each (λ acc cs, shift ← f (fst cs); Some (Dict.set (fst cs) shift acc))
       l acc).
Proof.
  revert acc. induction l as [|[k x] l IH]; intros acc Hf; [by eexists|].
  rewrite for_each_cons. cbn [fst].
  destruct (Hf k) as [v ->]; [simpl; auto|]. simpl.
  apply IH. intros k' ?. apply Hf. simpl. auto.
Qed.

(** On every month [date] can build, and the month after it, with a leave
    table whose dates parse, [generate] returns a roster. *)
Lemma generate_defined staff_db leave_records fromisoformat mo yr :
  leave_table_parses leave_records fromisoformat →
  (1 <= mo <= 12)%Z → (1 <= yr <= 9999)%Z → (yr, mo) ≠ (9999, 12)%Z →
  is_Some (generate (staff_of staff_db) leave_records fromisoformat mo yr).
Proof.
  intros Hparse Hmo Hyr Hlast. unfold generate.
  rewrite (get_days_in_month_defined yr mo) by done.
  cbn [mbind option_bind]. cbv zeta.
  pose proof (days_in_month_range yr mo Hmo) as Hrange.
  set (days := Z.to_nat (days_in_month yr mo)).
  set (staff := staff_of staff_db).
  assert (∀ d, d < days → is_Some (mk_date yr mo (Z.of_nat d + 1))) as Hdates.
  { intros d Hd. rewrite mk_date_valid; [by eexists | done | done | lia]. }
  destruct (night_days_defined staff leave_records fromisoformat yr mo days
              (night_eligible_codes staff)
              (night_predominant_codes staff (night_eligible_codes staff))
              Hparse Hdates (In_night_eligible_codes staff) 0 days
              (initial_state staff days (night_eligible_codes staff)))
    as (st & Hst & Hready);
    [apply initial_inv | apply initial_ready | lia |].
  unfold night_phase. rewrite Hst. cbn [mbind option_bind].
  assert (is_Some (fill_phase staff leave_records fromisoformat yr mo days st))
    as [r Hr].
  { unfold fill_phase. apply mapM_is_Some_2, Forall_forall. intros d Hd.
    apply list_elem_of_In, in_seq in Hd. simpl. unfold fill_day.
    destruct (Hdates d) as [cd ->]; [lia|]. cbn [mbind option_bind].
    match goal with
    | |- is_Some (?m ≫= _) => assert (is_Some m) as [a ->]; [|by eexists]
    end.
    apply for_each_assign_defined. intros c Hc. unfold fill_cell.
    destruct (is_on_leave_defined leave_records fromisoformat Hparse c cd)
      as [on_leave ->].
    cbn [mbind option_bind]. destruct on_leave; [by eexists|].
    destruct (Hready c d Hc) as [cur ->]; [lia|].
    cbn [mbind option_bind]. destruct cur; by eexists. }
  rewrite Hr. cbn [mbind option_bind].
  rewrite mk_date_valid; [by eexists | done | done | lia].
Qed.

Lemma In_enumerate {A} (l : list A) a k x :
  l !! k = Some x → In (a + k, x) (combine (seq a (length l)) l).
Proof.
  revert a k. induction l as [|y l IH]; intros a k H; [done|].
  destruct k as [|k]; simpl in *.
  - injection H as ->. left. f_equal. lia.
  - right. replace (a + S k) with (S a + k) by lia. by apply IH.
Qed.

(** * The stated properties *)

Section Claims.
(** The tables an engine is built from. *)
Variable staff_db : list Staff.
Variable leave_records : list LeaveEntry.
Variable fromisoformat : string → option date.

Local Abbreviation staff := (staff_of staff_db).
Local Abbreviation is_on_leave := (is_on_leave leave_records fromisoformat).
Local Abbreviation night_run := (night_run staff leave_records fromisoformat).
Local Abbreviation generate := (generate staff leave_records fromisoformat).

(** C3. Leave wins: whoever is on leave on a day of the generated month
    has the duty [A] in that day's row, whatever the preference profile
    says and whatever the night phase wrote into the cell. *)
Theorem leave_overrides mo yr r d entry c cd :
  generate mo yr = Some r →
  roster r !! d = Some entry →
  In c (Dict.keys staff) →
  mk_date yr mo (Z.of_nat d + 1) = Some cd →
  is_on_leave c cd = Some true →
  Dict.get c (assignments entry) = Some "A".
Proof.
  intros Hgen Hrow Hc Hcd Hleave.
  destruct (generate_inv _ _ _ _ _ _ Hgen) as (days & st & _ & Hrun & _).
  destruct (roster_cell _ (staff_of_nodup _) _ _ _ _ _ _ _ _ _ Hgen Hrun Hrow Hc)
    as (cd' & v & Hcd' & _ & _ & Hfill & Hget).
  assert (cd' = cd) as -> by congruence.
  apply fill_cell_cases in Hfill as (b & cur & Hb & -> & _).
  assert (b = true) as -> by congruence. done.
Qed.

(** What a committed start gives the returned roster: the sequence fits
    the month, none of its four days is a leave day, and the four rows
    hold the pattern. *)
Lemma start_in_roster mo yr r st days d s :
  generate mo yr = Some r → night_run mo yr = Some st →
  get_days_in_month yr mo = Some days →
  In (start_event d s) (history st) →
  d + 3 < Z.to_nat days
  ∧ In s (Dict.keys staff)
  ∧ (∃ cd, mk_date yr mo (Z.of_nat d + 1) = Some cd ∧ weekday cd ≠ 6%Z)
  ∧ ∀ i, i < 4 →
      (∃ cd, mk_date yr mo (Z.of_nat (d + i) + 1) = Some cd
             ∧ is_on_leave s cd = Some false)
      ∧ assignment (roster r) (d + i) s = Some (pattern_shift i).
Proof.
  intros Hgen Hrun Hdays Hin.
  destruct (night_run_inv _ _ _ _ _ _ Hrun) as (days' & Hdays' & Hinv & _).
  assert (days' = days) as -> by congruence.
  destruct (inv_events _ _ _ _ _ _ _ Hinv _ Hin)
    as (_ & Hfit & Hs & Hpat & Hday & Hleave).
  simpl in *. apply In_night_eligible_codes in Hs.
  split; [done|]. split; [done|]. split; [done|].
  intros i Hi. destruct (Hleave i Hi) as (cd & Hcd & Hoff).
  replace (Z.of_nat (d + i + 1)) with (Z.of_nat (d + i) + 1)%Z in Hcd by lia.
  split; [by eauto|].
  destruct (roster_row _ _ _ _ _ _ _ (d + i) Hgen Hdays) as [entry Hrow]; [lia|].
  destruct (roster_cell _ (staff_of_nodup _) _ _ _ _ _ _ _ _ _ Hgen Hrun Hrow Hs)
    as (cd' & v & Hcd' & _ & _ & Hfill & Hget).
  assert (cd' = cd) as -> by congruence.
  apply fill_cell_cases in Hfill as (b & cur & Hb & -> & Hcur).
  assert (b = false) as -> by congruence.
  specialize (Hcur eq_refl). rewrite (Hpat i Hi) in Hcur.
  injection Hcur as <-. unfold assignment. by rewrite Hrow.
Qed.

(** C2. A committed night sequence is in the roster as committed: for a
    start of [s] on day [d] whose days [d+1], [d+2], [d+3] are in the month
    and none of whose four days is a leave day of [s], the rows [d] to
    [d+3] give [s] the duties [N], [N], [SD], [DO]. *)
Theorem start_gives_pattern mo yr r st days d s :
  generate mo yr = Some r → night_run mo yr = Some st →
  get_days_in_month yr mo = Some days →
  In (start_event d s) (history st) →
  d + 3 < Z.to_nat days →
  (∀ i cd, i < 4 → mk_date yr mo (Z.of_nat (d + i) + 1) = Some cd →
           is_on_leave s cd = Some false) →
  assignment (roster r) d s = Some "N"
  ∧ assignment (roster r) (d + 1) s = Some "N"
  ∧ assignment (roster r) (d + 2) s = Some "SD"
  ∧ assignment (roster r) (d + 3) s = Some "DO".
Proof.
  intros Hgen Hrun Hdays Hin _ _.
  destruct (start_in_roster _ _ _ _ _ _ _ Hgen Hrun Hdays Hin)
    as (_ & _ & _ & Hrows).
  pose proof (proj2 (Hrows 0 ltac:(lia))) as H0.
  pose proof (proj2 (Hrows 1 ltac:(lia))) as H1.
  pose proof (proj2 (Hrows 2 ltac:(lia))) as H2.
  pose proof (proj2 (Hrows 3 ltac:(lia))) as H3.
  rewrite Nat.add_0_r in H0. done.
Qed.

(** The two hypotheses of C2 hold of every committed start. *)
Lemma start_fits_and_is_off_leave mo yr r st days d s :
  generate mo yr = Some r → night_run mo yr = Some st →
  get_days_in_month yr mo = Some days →
  In (start_event d s) (history st) →
  d + 3 < Z.to_nat days
  ∧ ∀ i cd, i < 4 → mk_date yr mo (Z.of_nat (d + i) + 1) = Some cd →
            is_on_leave s cd = Some false.
Proof.
  intros Hgen Hrun Hdays Hin.
  destruct (start_in_roster _ _ _ _ _ _ _ Hgen Hrun Hdays Hin)
    as (Hfit & _ & _ & Hrows).
  split; [done|]. intros i cd Hi Hcd.
  destruct (proj1 (Hrows i Hi)) as (cd' & Hcd' & Hoff). congruence.
Qed.

(** C8. No sequence starts on a Sunday, and none starts so late that its
    fourth day would fall after the last day of the month. *)
Theorem no_start_on_sunday_or_past_month_end mo yr st days d s :
  night_run mo yr = Some st →
  get_days_in_month yr mo = Some days →
  In (start_event d s) (history st) →
  (∃ cd, mk_date yr mo (Z.of_nat d + 1) = Some cd ∧ weekday cd ≠ 6%Z)
  ∧ (Z.of_nat d + 1 + 3 <= days)%Z.
Proof.
  intros Hrun Hdays Hin.
  destruct (night_run_inv _ _ _ _ _ _ Hrun) as (days' & Hdays' & Hinv & _).
  assert (days' = days) as -> by congruence.
  destruct (inv_events _ _ _ _ _ _ _ Hinv _ Hin)
    as (_ & Hfit & _ & _ & Hday & _).
  simpl in *. split; [done|]. lia.
Qed.

(** C5, as the code has it. The night distribution counts nights, not
    sequences: a night candidate's entry is twice the number of sequences
    started for them in the run (every start adds its two nights to a
    counter that begins the run at 0), and staff who are no night
    candidates have no entry. *)
Theorem night_distribution_counts_nights mo yr r st :
  generate mo yr = Some r → night_run mo yr = Some st →
  (∀ s, In s (night_eligible_codes staff) →
        Dict.get s (night_shift_distribution r)
        = Some (2 * starts_of s (history st)))
  ∧ (∀ s, ¬ In s (night_eligible_codes staff) →
          Dict.get s (night_shift_distribution r) = None).
Proof.
  intros Hgen Hrun.
  destruct (generate_inv _ _ _ _ _ _ Hgen)
    as (days & st' & _ & Hrun' & _ & _ & _ & _ & ->).
  assert (st' = st) as -> by congruence.
  destruct (night_run_inv _ _ _ _ _ _ Hrun) as (days' & _ & Hinv & _).
  destruct Hinv as [_ _ Hcounts Hkeys]. split.
  - intros s Hs. apply Hkeys, get_is_Some_keys in Hs as [n Hn].
    rewrite Hn. f_equal. by apply Hcounts.
  - intros s Hs. apply get_None_keys. by rewrite Hkeys.
Qed.

(** Two recorded starts of one person never overlap: a second start does
    not fall on the three days that follow a first one. *)
Lemma starts_apart mo yr st d s e :
  night_run mo yr = Some st →
  In (start_event d s) (history st) → In e (history st) →
  ev_staff e = s → ¬ (d < ev_day e ≤ d + 3).
Proof.
  intros Hrun Hin He Hs [Hlo Hhi].
  destruct (night_run_inv _ _ _ _ _ _ Hrun) as (days & _ & Hinv & _).
  destruct (inv_events _ _ _ _ _ _ _ Hinv _ Hin) as (_ & _ & _ & Hpat & _).
  destruct (inv_events _ _ _ _ _ _ _ Hinv _ He) as (_ & _ & _ & Hpat' & _).
  simpl in Hpat. rewrite Hs in Hpat'.
  pose proof (Hpat' 0 ltac:(lia)) as H0. pose proof (Hpat' 1 ltac:(lia)) as H1.
  rewrite Nat.add_0_r in H0.
  assert (ev_day e = d + 1 ∨ ev_day e = d + 2 ∨ ev_day e = d + 3)
    as [E|[E|E]] by lia; rewrite E in H0, H1.
  - replace (d + 1 + 1) with (d + 2) in H1 by lia.
    rewrite (Hpat 2) in H1 by lia. discriminate.
  - rewrite (Hpat 2) in H0 by lia. discriminate.
  - rewrite (Hpat 3) in H0 by lia. discriminate.
Qed.

(** C9. An [emd_predominant] member whose weekend day is not Sunday gets,
    on a Sunday without leave and without a cell of the night phase, the
    weekday alternation: [OH+EMD] when the day index is a multiple of 4
    (flagged [night_emd] and night-eligible) or of 2 (otherwise), else
    [OH]; the Saturday rule [DO] does not apply. *)
Theorem emd_sunday_alternation mo yr r st d entry c s pref cd :
  generate mo yr = Some r → night_run mo yr = Some st →
  roster r !! d = Some entry →
  Dict.get c staff = Some s → shift_preference s = Some pref →
  ptype pref = Some "emd_predominant" →
  weekend_day pref ≠ Some "Sunday" →
  is_sunday entry = true →
  mk_date yr mo (Z.of_nat d + 1) = Some cd →
  is_on_leave c cd = Some false →
  cell_at (schedule st) c d = Some None →
  Dict.get c (assignments entry)
  = Some (if night_emd pref && night_eligible s
          then (if d mod 4 =? 0 then "OH+EMD" else "OH")
          else (if d mod 2 =? 0 then "OH+EMD" else "OH")).
Proof.
  intros Hgen Hrun Hrow Hs Hpref Htype Hwd Hsun Hcd Hleave Hcell.
  assert (In c (Dict.keys staff)) as Hc.
  { apply get_is_Some_keys. eauto. }
  destruct (roster_cell _ (staff_of_nodup _) _ _ _ _ _ _ _ _ _ Hgen Hrun Hrow Hc)
    as (cd' & v & Hcd' & Hsun' & Hsat' & Hfill & ->).
  assert (cd' = cd) as -> by congruence.
  apply fill_cell_cases in Hfill as (b & cur & Hb & -> & Hcur).
  assert (b = false) as -> by congruence.
  specialize (Hcur eq_refl). assert (cur = None) as -> by congruence.
  f_equal.
  assert (get_staff_preference staff c = pref) as Hp.
  { unfold get_staff_preference. by rewrite Hs, Hpref. }
  assert (is_saturday entry = false) as Hsat.
  { rewrite Hsat'. rewrite Hsun' in Hsun. apply Z.eqb_eq in Hsun.
    by rewrite Hsun. }
  assert (is_str (weekend_day pref) "Sunday" = false) as Hno.
  { destruct (weekend_day pref) as [w|]; [|done]. simpl.
    apply String.eqb_neq. congruence. }
  assert (Dict.mem c (night_counts st) = night_eligible s) as Hmem.
  { destruct (night_run_inv _ _ _ _ _ _ Hrun) as (days & _ & Hinv & _).
    pose proof (inv_keys _ _ _ _ _ _ _ Hinv c) as Hkeys.
    pose proof (night_eligible_codes_spec staff c s (staff_of_nodup _) Hs)
      as Hel.
    rewrite Hp, Htype in Hel.
    destruct (Dict.mem c (night_counts st)) eqn:E.
    - apply mem_keys, Hkeys, Hel in E as [E _]. done.
    - destruct (night_eligible s) eqn:E'; [|done].
      assert (Dict.mem c (night_counts st) = true); [|congruence].
      apply mem_keys, Hkeys, Hel. done. }
  unfold preferred_shift. rewrite Hp, Htype, Hsun, Hsat, Hno, Hmem. done.
Qed.

End Claims.

(** C4. The leave resolver answers [True] exactly when a leave period of
    the identifier covers the date: the date lies between start and end, or
    the period is written with its start after its end, in a later year,
    and the date is on or after the start or on or before the end. It
    answers whenever the dates of the identifier's periods parse, and an
    identifier without periods gets [False] without any error. *)
Theorem is_on_leave_resolves leave_records fromisoformat staff_code d :
  (∀ b, is_on_leave leave_records fromisoformat staff_code d = Some b →
        (b = true ↔
         ∃ start stop,
           leave_period leave_records fromisoformat staff_code start stop
           ∧ covers start stop d))
  ∧ ((∀ entry, In entry leave_records → leave_code entry = staff_code →
        is_Some (fromisoformat (leave_start entry))
        ∧ is_Some (fromisoformat (leave_end entry))) →
     is_Some (is_on_leave leave_records fromisoformat staff_code d))
  ∧ ((∀ entry, In entry leave_records → leave_code entry ≠ staff_code) →
     is_on_leave leave_records fromisoformat staff_code d = Some false).
Proof.
  unfold is_on_leave. split; [|split].
  - intros [|] H.
    + split; [intros _; by apply leave_scan_true | done].
    + split; [discriminate|]. intros (start & stop & Hp & Hc).
      exfalso. by apply (leave_scan_false _ _ _ _ _ _ H Hp).
  - apply leave_scan_defined.
  - apply leave_scan_absent.
Qed.

(** C10. The Sunday skip of the night phase keeps Sundays free of starts,
    not of night codes: the second, third and fourth day of a committed
    sequence hold [N], [SD] and [DO] in the roster also when the row is a
    Sunday, and the roster of January 2026 has a Sunday with [N] and [DO]
    and a Sunday with [SD], each from a sequence started on a day before. *)
Theorem sunday_rows_hold_night_codes :
  (∀ staff_db leave_records fromisoformat mo yr r st d s i entry,
     generate (staff_of staff_db) leave_records fromisoformat mo yr = Some r →
     night_run (staff_of staff_db) leave_records fromisoformat mo yr = Some st →
     In (start_event d s) (history st) →
     1 ≤ i ≤ 3 →
     roster r !! (d + i) = Some entry → is_sunday entry = true →
     Dict.get s (assignments entry) = Some (pattern_shift i))
  ∧ (∃ r st,
       engine_generate 1 2026 = Some r ∧ engine_night_run 1 2026 = Some st
       ∧ In (start_event 2 "GOD") (history st)
       ∧ In (start_event 0 "MIK") (history st)
       ∧ In (start_event 8 "MIK") (history st)
       ∧ (∃ e, roster r !! 3 = Some e ∧ is_sunday e = true
               ∧ Dict.get "GOD" (assignments e) = Some "N"
               ∧ Dict.get "MIK" (assignments e) = Some "DO")
       ∧ (∃ e, roster r !! 10 = Some e ∧ is_sunday e = true
               ∧ Dict.get "MIK" (assignments e) = Some "SD")).
Proof.
  split.
  - intros staff_db leave_records fromisoformat mo yr r st d s i entry
      Hgen Hrun Hin Hi Hrow _.
    destruct (generate_inv _ _ _ _ _ _ Hgen) as (days & _ & Hdays & _).
    destruct (start_in_roster _ _ _ _ _ _ _ _ _ _ Hgen Hrun Hdays Hin)
      as (_ & _ & _ & Hrows).
    destruct (Hrows i ltac:(lia)) as [_ Hcell].
    unfold assignment in Hcell. by rewrite Hrow in Hcell.
  - eexists. eexists.
    split; [vm_compute; reflexivity|]. split; [vm_compute; reflexivity|].
    split; [vm_compute; auto 20|]. split; [vm_compute; auto 20|].
    split; [vm_compute; auto 20|].
    split; eexists; vm_compute; auto.
Qed.

(** ** The rule checker on night sequences *)

(** C6 on the code. A full sequence [N, N, SD, DO] with a day after it is
    reported: the checker tests the three days after every [N], the second
    night of the pair included, and there they are [SD, DO] and the day
    after the sequence. With the third day changed to [OH] both nights are
    reported. *)
Theorem validate_flags_second_night :
  validate_roster sequence_grid ["night_pattern"]
  = Some {| valid := false;
            violations := [night_violation "GOD" "2026-01-06" "SD,DO,OH"];
            checks_performed := ["night_pattern"] |}
  ∧ validate_roster broken_grid ["night_pattern"]
    = Some {| valid := false;
              violations := [night_violation "GOD" "2026-01-05" "N,SD,OH";
                             night_violation "GOD" "2026-01-06" "SD,OH,OH"];
              checks_performed := ["night_pattern"] |}.
Proof. split; reflexivity. Qed.

(** When the sequence ends the grid, the second night has no three days
    after it and is not tested: the checker then reports nothing for the
    sequence, and one violation once its last day is changed. *)
Lemma validate_sequence_at_end :
  validate_roster (take 4 sequence_grid) ["night_pattern"]
  = Some {| valid := true; violations := [];
            checks_performed := ["night_pattern"] |}
  ∧ validate_roster (take 4 broken_grid) ["night_pattern"]
    = Some {| valid := false;
              violations := [night_violation "GOD" "2026-01-05" "N,SD,OH"];
              checks_performed := ["night_pattern"] |}.
Proof. split; reflexivity. Qed.

(** The rosters the engine generates do not pass its own checker. *)
Lemma generated_roster_fails_validation :
  ∃ r v, engine_generate 1 2026 = Some r
         ∧ validate_roster (json_rows (roster r)) ["night_pattern"] = Some v
         ∧ valid v = false
         ∧ In (night_violation "MIK" "2026-01-02" "SD,DO,N") (violations v).
Proof.
  eexists. eexists. split; [vm_compute; reflexivity|].
  split; [vm_compute; reflexivity|]. split; [reflexivity|].
  vm_compute. auto.
Qed.

(** ** The properties on the tables of the source *)

(** The sequence GOD starts on Saturday 3 January 2026. *)
Lemma start_gives_pattern_witness :
  ∃ r st,
    engine_generate 1 2026 = Some r ∧ engine_night_run 1 2026 = Some st
    ∧ In (start_event 2 "GOD") (history st)
    ∧ assignment (roster r) 2 "GOD" = Some "N"
    ∧ assignment (roster r) 3 "GOD" = Some "N"
    ∧ assignment (roster r) 4 "GOD" = Some "SD"
    ∧ assignment (roster r) 5 "GOD" = Some "DO".
Proof.
  eexists. eexists. split; [vm_compute; reflexivity|].
  split; [vm_compute; reflexivity|]. split; [vm_compute; auto 20|].
  eapply (start_gives_pattern STAFF_DB LEAVE_2026 fromisoformat_ymd 1 2026
            _ _ 31%Z 2 "GOD").
  - vm_compute; reflexivity.
  - vm_compute; reflexivity.
  - vm_compute; reflexivity.
  - vm_compute; auto 20.
  - vm_compute; lia.
  - intros i cd Hi Hcd.
    do 4 (destruct i as [|i];
          [vm_compute in Hcd; injection Hcd as <-; vm_compute; reflexivity|]).
    lia.
Defined.

(** LOV is on leave from 22 May 2026. *)
Lemma leave_overrides_witness :
  ∃ r entry,
    engine_generate 5 2026 = Some r ∧ roster r !! 21 = Some entry
    ∧ is_on_leave LEAVE_2026 fromisoformat_ymd "LOV" (Date 2026 5 22) = Some true
    ∧ Dict.get "LOV" (assignments entry) = Some "A".
Proof.
  eexists. eexists. split; [vm_compute; reflexivity|].
  split; [vm_compute; reflexivity|]. split; [vm_compute; reflexivity|].
  eapply (leave_overrides STAFF_DB LEAVE_2026 fromisoformat_ymd 5 2026
            _ 21 _ "LOV" (Date 2026 5 22)).
  - vm_compute; reflexivity.
  - vm_compute; reflexivity.
  - vm_compute; auto 40.
  - vm_compute; reflexivity.
  - vm_compute; reflexivity.
Defined.

(** The period of JISKAKA, 8 December 2026 to 18 July 2027, covers 25
    December 2026 and 5 January 2027; nobody is on leave under a code the
    table does not hold. *)
Lemma is_on_leave_resolves_witness :
  (∃ start stop,
     leave_period LEAVE_2026 fromisoformat_ymd "JISKAKA" start stop
     ∧ covers start stop (Date 2026 12 25))
  ∧ is_on_leave LEAVE_2026 fromisoformat_ymd "JISKAKA" (Date 2027 1 5) = Some true
  ∧ is_on_leave LEAVE_2026 fromisoformat_ymd "NOBODY" (Date 2026 12 25) = Some false.
Proof.
  split; [|split].
  - apply (proj1 (is_on_leave_resolves LEAVE_2026 fromisoformat_ymd "JISKAKA"
                    (Date 2026 12 25)) true).
    + vm_compute; reflexivity.
    + reflexivity.
  - vm_compute; reflexivity.
  - apply (proj2 (proj2 (is_on_leave_resolves LEAVE_2026 fromisoformat_ymd
                           "NOBODY" (Date 2026 12 25)))).
    intros entry Hin.
    vm_compute in Hin.
    repeat (destruct Hin as [<-|Hin]; [discriminate|]). destruct Hin.
Defined.

(** GOD, a night candidate, starts 7 sequences in January 2026 and is
    reported with 14. *)
Lemma night_distribution_counts_nights_witness :
  ∃ r st,
    engine_generate 1 2026 = Some r ∧ engine_night_run 1 2026 = Some st
    ∧ Dict.get "GOD" (night_shift_distribution r)
      = Some (2 * starts_of "GOD" (history st)).
Proof.
  eexists. eexists. split; [vm_compute; reflexivity|].
  split; [vm_compute; reflexivity|].
  refine (proj1 (night_distribution_counts_nights STAFF_DB LEAVE_2026
                   fromisoformat_ymd 1 2026 _ _ _ _) "GOD" _).
  - vm_compute; reflexivity.
  - vm_compute; reflexivity.
  - vm_compute; auto 20.
Defined.

(** C5 as stated fails: the value reported for GOD in January 2026 is 14,
    the number of sequences started for GOD is 7. *)
Lemma night_distribution_is_not_the_start_count :
  ∃ r st,
    engine_generate 1 2026 = Some r ∧ engine_night_run 1 2026 = Some st
    ∧ Dict.get "GOD" (night_shift_distribution r) = Some 14
    ∧ starts_of "GOD" (history st) = 7.
Proof.
  eexists. eexists. split; [vm_compute; reflexivity|].
  split; [vm_compute; reflexivity|]. split; vm_compute; reflexivity.
Qed.

(** The start of GOD on Saturday 3 January 2026. *)
Lemma no_start_on_sunday_or_past_month_end_witness :
  ∃ st, engine_night_run 1 2026 = Some st
        ∧ In (start_event 2 "GOD") (history st)
        ∧ (∃ cd, mk_date 2026 1 (Z.of_nat 2 + 1) = Some cd ∧ weekday cd ≠ 6%Z)
        ∧ (Z.of_nat 2 + 1 + 3 <= 31)%Z.
Proof.
  eexists. split; [vm_compute; reflexivity|]. split; [vm_compute; auto 20|].
  eapply (no_start_on_sunday_or_past_month_end STAFF_DB LEAVE_2026
            fromisoformat_ymd 1 2026 _ 31%Z 2 "GOD").
  - vm_compute; reflexivity.
  - vm_compute; reflexivity.
  - vm_compute; auto 20.
Defined.

(** MIK, flagged for night EMD and night-eligible, on Sunday 25 January
    2026: the day index 24 is a multiple of 4. *)
Lemma emd_sunday_alternation_witness :
  ∃ r entry,
    engine_generate 1 2026 = Some r ∧ roster r !! 24 = Some entry
    ∧ is_sunday entry = true
    ∧ Dict.get "MIK" (assignments entry) = Some "OH+EMD".
Proof.
  eexists. eexists. split; [vm_compute; reflexivity|].
  split; [vm_compute; reflexivity|]. split; [vm_compute; reflexivity|].
  eapply (emd_sunday_alternation STAFF_DB LEAVE_2026 fromisoformat_ymd 1 2026
            _ _ 24 _ "MIK"
            (mk_staff "MIK" true (mk_pref "emd_predominant" None false true))
            {| ptype := Some "emd_predominant"; weekend_day := None;
               shuffle := false; night_emd := true |}
            (Date 2026 1 25)).
  - vm_compute; reflexivity.
  - vm_compute; reflexivity.
  - vm_compute; reflexivity.
  - vm_compute; reflexivity.
  - vm_compute; reflexivity.
  - vm_compute; reflexivity.
  - vm_compute; discriminate.
  - vm_compute; reflexivity.
  - vm_compute; reflexivity.
  - vm_compute; reflexivity.
  - vm_compute; reflexivity.
Defined.

(** The dates of the leave table of the source parse. *)
Lemma leave_table_2026_parses : leave_table_parses LEAVE_2026 fromisoformat_ymd.
Proof.
  intros entry Hin. vm_compute in Hin.
  repeat (destruct Hin as [<-|Hin]; [vm_compute; eauto|]). destruct Hin.
Qed.

(** The engine of the source returns a roster for every month a request
    may name (month 1 to 12, year 2024 to 2030). *)
Lemma engine_generate_defined mo yr :
  (1 <= mo <= 12)%Z → (2024 <= yr <= 2030)%Z → is_Some (engine_generate mo yr).
Proof.
  intros Hmo Hyr. apply generate_defined.
  - apply leave_table_2026_parses.
  - done.
  - lia.
  - intros [= -> ->]. lia.
Qed.

(** A period written backwards within one year is no year wrap: only a
    later start year makes the resolver read a period over the turn of the
    year. *)
Lemma backwards_period_within_a_year :
  is_on_leave [mk_leave "X" "2026-12-08" "2026-01-10"] fromisoformat_ymd
    "X" (Date 2026 12 25) = Some false
  ∧ is_on_leave [mk_leave "X" "2027-12-08" "2026-01-10"] fromisoformat_ymd
      "X" (Date 2026 12 25) = Some false
  ∧ is_on_leave [mk_leave "X" "2027-12-08" "2026-01-10"] fromisoformat_ymd
      "X" (Date 2028 1 1) = Some true
  ∧ is_on_leave [mk_leave "X" "2027-12-08" "2026-01-10"] fromisoformat_ymd
      "X" (Date 2025 6 1) = Some true.
Proof. repeat split; reflexivity. Qed.

(** * Further properties of the code *)

(** ** Invariants of the night phase, by induction on its loops *)

Section NightInduction.
Variable staff : dict Staff.
Variable leave_records : list LeaveEntry.
Variable fromisoformat : string → option date.
Variables (yr mo : Z) (days : nat).
Variables (night_eligible night_predominant : list string).

Local Abbreviation night_inv :=
  (night_inv leave_records fromisoformat yr mo days night_eligible).

Variable P : NightState → Prop.
Hypothesis P_reset : ∀ st, P st → P (reset_tonight st).
Hypothesis P_start : ∀ d c st st',
  night_inv st → P st → d + 3 < days → In c night_eligible →
  (∀ i, i < 4 → cell_at (schedule st) c (d + i) = Some None) →
  start_sequence d c st = Some st' → P st'.

Lemma night_candidates_keeps d cd candidates st st' :
  night_inv st → P st → mk_date yr mo (Z.of_nat d + 1) = Some cd →
  weekday cd ≠ 6%Z → (∀ c, In c candidates → In c night_eligible) →
  night_candidates leave_records fromisoformat yr mo days d cd candidates st
  = Some st' →
  P st'.
Proof.
  intros Hinv HP Hcd Hwd. revert st Hinv HP.
  induction candidates as [|c rest IH]; intros st Hinv HP Hel H.
  - by injection H as <-.
  - rewrite night_candidates_cons in H.
    destruct (2 <=? assigned_tonight st); [by injection H as <-|].
    bind_inv H st1 Hturn.
    assert (In c night_eligible) as Hc by (apply Hel; simpl; auto).
    destruct (night_turn_inv _ _ _ _ _ _ _ _ _ _ _ Hinv Hcd Hwd Hc Hturn)
      as [Hinv1 _].
    apply (IH st1); [done| |by intros; apply Hel; simpl; auto|done].
    destruct (night_turn_cases _ _ _ _ _ _ _ _ _ _
                (inv_follow _ _ _ _ _ _ _ Hinv) Hturn)
      as [->|(Hfit & Hfree & _ & Hstart)]; [done|].
    exact (P_start _ _ _ _ Hinv HP Hfit Hc Hfree Hstart).
Qed.

Lemma night_days_keep a n st st' :
  night_inv st → P st →
  for_each (night_day leave_records fromisoformat yr mo days
              night_eligible night_predominant) (seq a n) st = Some st' →
  P st'.
Proof.
  revert a st. induction n as [|n IH]; intros a st Hinv HP H.
  - by injection H as <-.
  - change (seq a (S n)) with (a :: seq (S a) n) in H.
    rewrite for_each_cons in H. bind_inv H st1 Hday.
    destruct (night_day_inv _ _ _ _ _ _ _ _ _ _ Hinv Hday) as (Hinv1 & _).
    apply (IH (S a) st1); [done| |done].
    unfold night_day in Hday. bind_inv Hday cd Hcd.
    destruct (weekday cd =? 6)%Z eqn:Hwd; [by injection Hday as <-|].
    apply Z.eqb_neq in Hwd. bind_inv Hday candidates Hcands.
    eapply night_candidates_keeps; [| | | | |exact Hday]; try done.
    + by apply reset_tonight_inv.
    + by apply P_reset.
    + eauto using candidates_of_eligible.
Qed.

Lemma night_phase_keeps st :
  P (initial_state staff days night_eligible) →
  night_phase staff leave_records fromisoformat yr mo days
    night_eligible night_predominant = Some st →
  P st.
Proof.
  intros HP H. eapply night_days_keep; [|exact HP|exact H]. apply initial_inv.
Qed.
End NightInduction.

(** ** Written cells and recorded starts *)

Lemma covered_start d c st st' :
  covered st → start_sequence d c st = Some st' → covered st'.
Proof.
  intros Hcov Hstart.
  destruct (start_sequence_spec _ _ _ _ Hstart)
    as (n & _ & _ & _ & Hhist & Hcells).
  intros c' i v. rewrite Hcells, Hhist.
  destruct (decide (c' = c ∧ d ≤ i < d + 4)) as [[-> Hi]|_].
  - intros _. exists (start_event d c). rewrite in_app_iff. simpl.
    split; [by right; left|]. split; [done|lia].
  - intros H. destruct (Hcov _ _ _ H) as (e & He & Hs & Hr).
    exists e. rewrite in_app_iff. eauto.
Qed.

Lemma nights_of_ext s s' c days :
  (∀ i, i < days → cell_at s' c i = cell_at s c i) →
  nights_of s' c days = nights_of s c days.
Proof.
  intros Hsame. unfold nights_of. f_equal.
  apply List.filter_ext_in. intros i Hi. apply in_seq in Hi.
  rewrite Hsame by lia. done.
Qed.

Lemma count_ext_in {A} (f g : A → bool) l :
  (∀ x, In x l → f x = g x) →
  length (List.filter f l) = length (List.filter g l).
Proof. intros H. f_equal. by apply List.filter_ext_in. Qed.

Lemma nights_of_start d c st st' days c' :
  d + 3 < days →
  (∀ i, i < 4 → cell_at (schedule st) c (d + i) = Some None) →
  start_sequence d c st = Some st' →
  nights_of (schedule st') c' days
  = nights_of (schedule st) c' days + (if decide (c = c') then 2 else 0).
Proof.
  intros Hfit Hfree Hstart.
  destruct (start_sequence_spec _ _ _ _ Hstart) as (n & _ & _ & _ & _ & Hcells).
  case_decide as Hc.
  - subst c'. unfold nights_of.
    replace days with (d + (4 + (days - d - 4))) by lia.
    rewrite !seq_app, !List.filter_app, !length_app. simpl seq at 2 5.
    rewrite (count_ext_in
               (λ i, bool_decide (cell_at (schedule st') c i = Some (Some "N")))
               (λ i, bool_decide (cell_at (schedule st) c i = Some (Some "N")))
               (seq 0 d)).
    2:{ intros i Hi. apply in_seq in Hi. rewrite Hcells.
        rewrite decide_False by lia. done. }
    rewrite (count_ext_in
               (λ i, bool_decide (cell_at (schedule st') c i = Some (Some "N")))
               (λ i, bool_decide (cell_at (schedule st) c i = Some (Some "N")))
               (seq (0 + d + 4) (days - d - 4))).
    2:{ intros i Hi. apply in_seq in Hi. rewrite Hcells.
        rewrite decide_False by lia. done. }
    assert (∀ i, i < 4 →
              bool_decide (cell_at (schedule st') c (d + i) = Some (Some "N"))
              = bool_decide (i < 2)
              ∧ bool_decide (cell_at (schedule st) c (d + i) = Some (Some "N"))
                = false) as Hmid.
    { intros i Hi. rewrite Hcells, decide_True by (split; [done|lia]).
      rewrite (Hfree i Hi). replace (d + i - d) with i by lia.
      split; [|done]. do 4 (destruct i as [|i]; [done|]). lia. }
    pose proof (Hmid 0 ltac:(lia)) as [H0 H0'].
    pose proof (Hmid 1 ltac:(lia)) as [H1 H1'].
    pose proof (Hmid 2 ltac:(lia)) as [H2 H2'].
    pose proof (Hmid 3 ltac:(lia)) as [H3 H3'].
    rewrite Nat.add_0_r in H0, H0'.
    replace (0 + d) with d by lia.
    replace (S d) with (d + 1) by lia.
    replace (S (d + 1)) with (d + 2) by lia.
    replace (S (d + 2)) with (d + 3) by lia.
    cbn [List.filter].
    rewrite H0, H1, H2, H3, H0', H1', H2', H3'. simpl. lia.
  - rewrite Nat.add_0_r. apply nights_of_ext. intros i _.
    rewrite Hcells. rewrite decide_False by (intros [? _]; congruence). done.
Qed.

Lemma preferred_shift_codes staff counts c entry d :
  In (preferred_shift staff counts c entry d)
     ["OH"; "DO"; "PM"; "OH+EMD"; "OH+BIMA"].
Proof.
  unfold preferred_shift.
  repeat match goal with
         | |- context [if ?b then _ else _] => destruct b
         end; simpl; tauto.
Qed.

Lemma count_Forall2 {A B} (R : A → B → Prop) (f : A → bool) (g : B → bool) l k :
  Forall2 R l k → (∀ x y, R x y → f x = g y) →
  length (List.filter f l) = length (List.filter g k).
Proof.
  intros H Hfg. induction H as [|x y l k Hxy _ IH]; [done|].
  simpl. rewrite (Hfg x y Hxy). destruct (g y); simpl; lia.
Qed.

Section PhaseFacts.
Variable staff : dict Staff.
Variable leave_records : list LeaveEntry.
Variable fromisoformat : string → option date.
Variables (yr mo : Z) (days : nat).
Variables (night_eligible night_predominant : list string).

Lemma night_phase_covered st :
  night_phase staff leave_records fromisoformat yr mo days
    night_eligible night_predominant = Some st →
  covered st.
Proof.
  apply (night_phase_keeps staff leave_records fromisoformat yr mo days
           night_eligible night_predominant covered).
  - intros st0 H. exact H.
  - intros d c st0 st1 _ H _ _ _ Hstart. by eapply covered_start.
  - intros c i v H. apply initial_cell in H. discriminate.
Qed.

Lemma night_phase_counted st :
  night_phase staff leave_records fromisoformat yr mo days
    night_eligible night_predominant = Some st →
  ∀ c, nights_of (schedule st) c days = 2 * starts_of c (history st).
Proof.
  apply (night_phase_keeps staff leave_records fromisoformat yr mo days
           night_eligible night_predominant
           (λ st, ∀ c, nights_of (schedule st) c days
                       = 2 * starts_of c (history st))).
  - intros st0 H. exact H.
  - intros d c st0 st1 _ H Hfit _ Hfree Hstart c'.
    rewrite (nights_of_start _ _ _ _ _ c' Hfit Hfree Hstart), H.
    destruct (start_sequence_spec _ _ _ _ Hstart) as (n & _ & _ & _ & -> & _).
    rewrite starts_of_app, starts_of_start. case_decide; lia.
  - intros c. unfold nights_of.
    rewrite (count_ext_in _ (λ _, false)); [by rewrite List.filter_false|].
    intros i _. apply bool_decide_eq_false. intros H.
    apply initial_cell in H. discriminate.
Qed.
End PhaseFacts.

Section RosterFacts.
Variable staff_db : list Staff.
Variable leave_records : list LeaveEntry.
Variable fromisoformat : string → option date.

Local Abbreviation staff := (staff_of staff_db).
Local Abbreviation is_on_leave := (is_on_leave leave_records fromisoformat).
Local Abbreviation night_run := (night_run staff leave_records fromisoformat).
Local Abbreviation generate := (generate staff leave_records fromisoformat).

(** What the final state of the night phase is worth. *)
Lemma night_run_facts mo yr st :
  night_run mo yr = Some st →
  ∃ days, get_days_in_month yr mo = Some days
          ∧ night_inv leave_records fromisoformat yr mo (Z.to_nat days)
              (night_eligible_codes staff) st
          ∧ covered st
          ∧ ∀ c, nights_of (schedule st) c (Z.to_nat days)
                 = 2 * starts_of c (history st).
Proof.
  intros Hrun.
  destruct (night_run_inv _ _ _ _ _ _ Hrun) as (days & Hdays & Hinv & _).
  exists days. split; [done|]. split; [done|].
  unfold night_run in Hrun. rewrite Hdays in Hrun.
  cbn [mbind option_bind] in Hrun. cbv zeta in Hrun.
  split; [by eapply night_phase_covered | by eapply night_phase_counted].
Qed.

(** A written cell of the schedule is a day of a recorded start of its
    owner and holds that day's duty of the pattern. *)
Lemma written_cell_start mo yr st s d v :
  night_run mo yr = Some st →
  cell_at (schedule st) s d = Some (Some v) →
  ∃ d0 i, In (start_event d0 s) (history st) ∧ i < 4 ∧ d = d0 + i
          ∧ v = pattern_shift i.
Proof.
  intros Hrun Hcell.
  destruct (night_run_facts _ _ _ Hrun) as (days & _ & Hinv & Hcov & _).
  destruct (Hcov _ _ _ Hcell) as ([d0 s0 k] & He & Hs & Hr).
  simpl in Hs, Hr. subst s0.
  destruct (inv_events _ _ _ _ _ _ _ Hinv _ He) as (Hk & _ & _ & Hpat & _).
  simpl in Hk, Hpat. subst k.
  exists d0, (d - d0). split; [done|]. split; [lia|]. split; [lia|].
  specialize (Hpat (d - d0) ltac:(lia)).
  replace (d0 + (d - d0)) with d in Hpat by lia. congruence.
Qed.

(** The cell of the roster, from the cell of the schedule. *)
Lemma roster_cell_of_schedule mo yr r st d entry s v :
  generate mo yr = Some r → night_run mo yr = Some st →
  roster r !! d = Some entry →
  cell_at (schedule st) s d = Some (Some v) →
  Dict.get s (assignments entry) = Some v.
Proof.
  intros Hgen Hrun Hrow Hcell.
  destruct (written_cell_start _ _ _ _ _ _ Hrun Hcell)
    as (d0 & i & Hin & Hi & -> & ->).
  destruct (generate_inv _ _ _ _ _ _ Hgen) as (days & _ & Hdays & _).
  destruct (start_in_roster _ _ _ _ _ _ _ _ _ _ Hgen Hrun Hdays Hin)
    as (_ & _ & _ & Hrows).
  destruct (Hrows i Hi) as [_ Ha]. unfold assignment in Ha.
  by rewrite Hrow in Ha.
Qed.

(** The cell of the schedule, from a night code of the roster. *)
Lemma schedule_cell_of_roster mo yr r st d entry s v :
  generate mo yr = Some r → night_run mo yr = Some st →
  roster r !! d = Some entry →
  Dict.get s (assignments entry) = Some v → v = "N" ∨ v = "SD" →
  cell_at (schedule st) s d = Some (Some v).
Proof.
  intros Hgen Hrun Hrow Hget Hv.
  assert (In s (Dict.keys staff)) as Hs.
  { destruct (generate_inv _ _ _ _ _ _ Hgen) as (days & st' & _ & _ & Hfill & _).
    apply fill_phase_spec in Hfill as [_ Hrows].
    destruct (Hrows d entry Hrow) as [_ Hday].
    apply fill_day_spec in Hday as (cd & _ & _ & _ & _ & _ & _ & Hkeys & _);
      [|apply staff_of_nodup].
    rewrite <- Hkeys. apply get_is_Some_keys. eauto. }
  destruct (roster_cell _ (staff_of_nodup _) _ _ _ _ _ _ _ _ _ Hgen Hrun Hrow Hs)
    as (cd & v' & _ & _ & _ & Hfill & Hget').
  assert (v' = v) as -> by congruence.
  apply fill_cell_cases in Hfill as (b & cur & _ & Hval & Hcur).
  destruct b; [destruct Hv; congruence|].
  rewrite (Hcur eq_refl). destruct cur as [x|]; [by subst|].
  pose proof (preferred_shift_codes staff (night_counts st) s entry d) as Hp.
  rewrite <- Hval in Hp. simpl in Hp.
  destruct Hv as [-> | ->]; intuition discriminate.
Qed.
End RosterFacts.

(** ** Counting duties *)

Lemma get_count_shift counts shift x :
  Dict.get x (count_shift counts shift)
  = if String.eqb x shift then Some (default 0 (Dict.get x counts) + 1)
    else Dict.get x counts.
Proof.
  unfold count_shift. destruct (String.eqb x shift) eqn:E.
  - apply String.eqb_eq in E. subst. apply get_set_eq.
  - apply String.eqb_neq in E. apply get_set_ne. congruence.
Qed.

Lemma get_count_shifts shifts counts x :
  Dict.get x (fold_left count_shift shifts counts)
  = let k := length (List.filter (String.eqb x) shifts) in
    if k =? 0 then Dict.get x counts
    else Some (default 0 (Dict.get x counts) + k).
Proof.
  revert counts. induction shifts as [|s shifts IH]; intros counts; [done|].
  cbn [fold_left List.filter]. rewrite IH, get_count_shift. cbv zeta.
  destruct (String.eqb x s); cbn [length];
    destruct (length (List.filter (String.eqb x) shifts)) as [|k];
    simpl; try done; f_equal; lia.
Qed.

Lemma shift_counts_of_flat r :
  shift_counts_of r
  = fold_left count_shift
      (flat_map (λ entry, Dict.values (assignments entry)) r) [].
Proof.
  unfold shift_counts_of. generalize (@nil (string * nat)).
  induction r as [|entry r IH]; intros counts; [done|].
  simpl. by rewrite IH, fold_left_app.
Qed.

(** ** The duty codes of a roster *)

Lemma length_flat_cells (r : list DayEntry) n :
  (∀ entry, In entry r → length (assignments entry) = n) →
  length (flat_map (λ entry, Dict.values (assignments entry)) r)
  = length r * n.
Proof.
  induction r as [|entry r IH]; intros Hrows; [done|].
  cbn [flat_map length]. rewrite length_app, IH by (intros; apply Hrows; simpl; auto).
  unfold Dict.values. rewrite length_map, (Hrows entry) by (simpl; auto). lia.
Qed.

(** Cells that all hold duty codes are counted once under the codes. *)
Lemma count_duty_codes (cells : list string) :
  (∀ v, In v cells → In v duty_codes) →
  list_sum (map (λ x, length (List.filter (String.eqb x) cells)) duty_codes)
  = length cells.
Proof.
  induction cells as [|c cells IH]; intros Hcodes; [done|].
  specialize (IH (λ v Hv, Hcodes v (or_intror Hv))).
  pose proof (Hcodes c (or_introl eq_refl)) as Hc.
  unfold duty_codes, list_sum in *. cbn [map fold_right] in *.
  cbn [List.filter length].
  repeat (destruct Hc as [<-|Hc];
          [repeat match goal with
                  | |- context [String.eqb ?a ?b] =>
                      let v := eval vm_compute in (String.eqb a b) in
                      change (String.eqb a b) with v
                  end;
           cbn [length]; lia|]).
  destruct Hc.
Qed.

Lemma get_shift_counts r x :
  default 0 (Dict.get x (shift_counts_of r)) = duty_count r x.
Proof.
  rewrite shift_counts_of_flat, get_count_shifts. cbv zeta.
  fold (duty_count r x). destruct (duty_count r x) eqn:E; done.
Qed.

Section RosterCodes.
Variable staff_db : list Staff.
Variable leave_records : list LeaveEntry.
Variable fromisoformat : string → option date.

Local Abbreviation staff := (staff_of staff_db).
Local Abbreviation night_run := (night_run staff leave_records fromisoformat).
Local Abbreviation generate := (generate staff leave_records fromisoformat).

Lemma roster_row_keys mo yr r entry :
  generate mo yr = Some r → In entry (roster r) →
  Dict.keys (assignments entry) = Dict.keys staff.
Proof.
  intros Hgen Hin.
  destruct (generate_inv _ _ _ _ _ _ Hgen) as (days & st & _ & _ & Hfill & _).
  apply fill_phase_spec in Hfill as [_ Hrows].
  apply list_elem_of_In, list_elem_of_lookup in Hin as [d Hd].
  destruct (Hrows d entry Hd) as [_ Hday].
  by apply fill_day_spec in Hday as (cd & _ & _ & _ & _ & _ & _ & Hkeys & _);
    [|apply staff_of_nodup].
Qed.

(** Every duty of a generated roster is a duty code. *)
Lemma roster_cell_code mo yr r entry s v :
  generate mo yr = Some r → In entry (roster r) →
  Dict.get s (assignments entry) = Some v → In v duty_codes.
Proof.
  intros Hgen Hin Hget.
  destruct (generate_inv _ _ _ _ _ _ Hgen) as (days & st & _ & Hrun & _).
  pose proof (roster_row_keys _ _ _ _ Hgen Hin) as Hkeys.
  apply list_elem_of_In, list_elem_of_lookup in Hin as [d Hrow].
  assert (In s (Dict.keys staff)) as Hs.
  { rewrite <- Hkeys. apply get_is_Some_keys. eauto. }
  destruct (roster_cell _ (staff_of_nodup _) _ _ _ _ _ _ _ _ _
              Hgen Hrun Hrow Hs)
    as (cd' & v' & _ & _ & _ & Hfill & Hget').
  assert (v' = v) as -> by congruence.
  apply fill_cell_cases in Hfill as (b & cur & _ & -> & Hcur).
  destruct b; [simpl; tauto|]. specialize (Hcur eq_refl).
  destruct cur as [x|].
  - destruct (written_cell_start _ _ _ _ _ _ _ _ _ Hrun Hcur)
      as (d0 & i & _ & Hi & _ & ->).
    do 4 (destruct i as [|i]; [simpl; tauto|]). lia.
  - pose proof (preferred_shift_codes staff (night_counts st) s entry d).
    simpl in *. tauto.
Qed.

Lemma roster_value_code mo yr r v :
  generate mo yr = Some r →
  In v (flat_map (λ entry, Dict.values (assignments entry)) (roster r)) →
  In v duty_codes.
Proof.
  intros Hgen Hv. apply in_flat_map in Hv as (entry & He & Hx).
  unfold Dict.values in Hx. apply in_map_iff in Hx as ([s v'] & Hv' & Hin).
  simpl in Hv'. subst v'.
  apply In_get_nodup in Hin; [by eapply roster_cell_code|].
  rewrite (roster_row_keys _ _ _ _ Hgen He). apply staff_of_nodup.
Qed.

Lemma distribution_key_code mo yr r v :
  generate mo yr = Some r →
  In v (Dict.keys (shift_distribution r)) → In v duty_codes.
Proof.
  intros Hgen Hv.
  destruct (generate_inv _ _ _ _ _ _ Hgen)
    as (days & st & _ & _ & _ & _ & _ & Hdist & _).
  rewrite Hdist, shift_counts_of_flat in Hv.
  apply get_is_Some_keys in Hv as [n Hn].
  rewrite get_count_shifts in Hn. cbv zeta in Hn.
  destruct (length (List.filter (String.eqb v) _)) eqn:E; [discriminate|].
  destruct (List.filter (String.eqb v) _) as [|x l] eqn:Hl; [discriminate|].
  assert (In x (x :: l)) as Hx by (simpl; auto).
  rewrite <- Hl in Hx. apply filter_In in Hx as [Hx Hvx].
  apply String.eqb_eq in Hvx. subst x. by eapply roster_value_code.
Qed.

(** C1. A generated roster is a full grid: one row per day of the month,
    in every row exactly one duty for every staff identifier of the
    configuration, and that duty is one of the duty codes. The shift
    distribution has no key but duty codes, and its counts, summed over
    the duty codes, add up to the days of the month times the number of
    staff; so does the sum of all its values. *)
Theorem roster_is_complete mo yr r :
  generate mo yr = Some r →
  (1 <= mo <= 12)%Z
  ∧ get_days_in_month yr mo = Some (days_in_month yr mo)
  ∧ total_days r = days_in_month yr mo
  ∧ Z.of_nat (length (roster r)) = days_in_month yr mo
  ∧ NoDup (Dict.keys staff)
  ∧ (∀ entry, In entry (roster r) →
       Dict.keys (assignments entry) = Dict.keys staff)
  ∧ (∀ entry c, In entry (roster r) → In c (Dict.keys staff) →
       ∃ v, Dict.get c (assignments entry) = Some v
            ∧ In v duty_codes
            ∧ ∀ v', In (c, v') (assignments entry) → v' = v)
  ∧ total_staff r = length (Dict.keys staff)
  ∧ (∀ x, In x (Dict.keys (shift_distribution r)) → In x duty_codes)
  ∧ Z.of_nat
      (list_sum (map (λ x, default 0 (Dict.get x (shift_distribution r)))
                   duty_codes))
    = (days_in_month yr mo * Z.of_nat (total_staff r))%Z
  ∧ Z.of_nat (sum_values (shift_distribution r))
    = (days_in_month yr mo * Z.of_nat (total_staff r))%Z.
Proof.
  intros Hgen.
  destruct (generate_inv _ _ _ _ _ _ Hgen)
    as (days & st & Hdays & Hrun & Hfill & Htotal & Hstaff & Hdist & _).
  pose proof (get_days_in_month_calendar _ _ _ Hdays) as (_ & Hmo & ->).
  pose proof (days_in_month_range yr mo Hmo) as Hrange.
  apply fill_phase_spec in Hfill as [Hlen Hrows].
  assert (∀ entry, In entry (roster r) →
            Dict.keys (assignments entry) = Dict.keys staff
            ∧ ∀ c, In c (Dict.keys staff) →
                   is_Some (Dict.get c (assignments entry))) as Hrow.
  { intros entry Hin.
    apply list_elem_of_In, list_elem_of_lookup in Hin as [d Hd].
    destruct (Hrows d entry Hd) as [_ Hday].
    apply fill_day_spec in Hday as (cd & _ & _ & _ & _ & _ & _ & Hkeys & Hcells);
      [|apply staff_of_nodup].
    split; [done|]. intros c Hc. destruct (Hcells c Hc) as (v & _ & ->). eauto. }
  assert (∀ entry, In entry (roster r) →
            length (assignments entry) = length staff) as Hwidth.
  { intros entry He. destruct (Hrow entry He) as [Hkeys _].
    apply (f_equal length) in Hkeys. unfold Dict.keys in Hkeys.
    by rewrite !length_map in Hkeys. }
  split; [done|]. split; [done|]. split; [done|]. split; [lia|].
  split; [apply staff_of_nodup|]. split; [intros e He; by apply Hrow|].
  split; [|split; [|split; [|split]]].
  - intros entry c He Hc. destruct (Hrow entry He) as [Hkeys Hall].
    destruct (Hall c Hc) as [v Hv]. exists v. split; [done|].
    split; [by eapply roster_cell_code|].
    intros v' Hin. apply In_get_nodup in Hin; [congruence|].
    rewrite Hkeys. apply staff_of_nodup.
  - rewrite Hstaff. unfold Dict.keys. by rewrite length_map.
  - intros x. by apply (distribution_key_code mo yr).
  - rewrite Hdist.
    rewrite (map_ext _ (duty_count (roster r)))
      by (intros; apply get_shift_counts).
    unfold duty_count.
    rewrite count_duty_codes
      by (intros v; by apply (roster_value_code mo yr)).
    rewrite (length_flat_cells _ (length staff) Hwidth), Hstaff. lia.
  - rewrite Hdist, (sum_values_shift_counts _ (length staff) Hwidth).
    rewrite Hstaff. lia.
Qed.
End RosterCodes.

(** January 2026 has 31 rows of 33 duties, 1023 in all. *)
Lemma roster_is_complete_witness :
  ∃ r, engine_generate 1 2026 = Some r
       ∧ Z.of_nat (length (roster r)) = 31%Z
       ∧ (∃ entry, roster r !! 3 = Some entry
                   ∧ Dict.get "GOD" (assignments entry) = Some "N")
       ∧ Z.of_nat
           (list_sum (map (λ x, default 0 (Dict.get x (shift_distribution r)))
                        duty_codes))
         = (31 * 33)%Z.
Proof.
  eexists. split; [vm_compute; reflexivity|].
  pose proof (roster_is_complete STAFF_DB LEAVE_2026 fromisoformat_ymd 1 2026 _
                ltac:(vm_compute; reflexivity))
    as (_ & _ & _ & Hrows & _ & _ & _ & _ & _ & Hsum & _).
  split; [exact Hrows|]. split; [|exact Hsum].
  eexists. split; vm_compute; reflexivity.
Defined.

Section RosterProperties.
Variable staff_db : list Staff.
Variable leave_records : list LeaveEntry.
Variable fromisoformat : string → option date.

Local Abbreviation staff := (staff_of staff_db).
Local Abbreviation is_on_leave := (is_on_leave leave_records fromisoformat).
Local Abbreviation night_run := (night_run staff leave_records fromisoformat).
Local Abbreviation generate := (generate staff leave_records fromisoformat).

(** X1. Every night of a generated roster is one of the two nights of a
    full block [N, N, SD, DO] of the same person inside the month, and
    every [SD] is the third day of such a block: the duty is that of day
    [i] of a block whose four rows are all in the roster. The person is
    a night candidate. *)
Theorem nights_lie_in_full_sequences mo yr r d s v :
  generate mo yr = Some r →
  assignment (roster r) d s = Some v → v = "N" ∨ v = "SD" →
  In s (night_eligible_codes staff)
  ∧ ∃ d0 i, d = d0 + i ∧ i < 3 ∧ v = pattern_shift i
            ∧ assignment (roster r) d0 s = Some "N"
            ∧ assignment (roster r) (d0 + 1) s = Some "N"
            ∧ assignment (roster r) (d0 + 2) s = Some "SD"
            ∧ assignment (roster r) (d0 + 3) s = Some "DO".
Proof.
  intros Hgen Ha Hv.
  destruct (generate_inv _ _ _ _ _ _ Hgen) as (days & st & Hdays & Hrun & _).
  unfold assignment in Ha. destruct (roster r !! d) as [entry|] eqn:Hrow;
    [|discriminate]. simpl in Ha.
  pose proof (schedule_cell_of_roster _ _ _ _ _ _ _ _ _ _ _ Hgen Hrun Hrow Ha Hv)
    as Hcell.
  destruct (written_cell_start _ _ _ _ _ _ _ _ _ Hrun Hcell)
    as (d0 & i & Hin & Hi & -> & Hpat).
  destruct (night_run_inv _ _ _ _ _ _ Hrun) as (days' & _ & Hinv & _).
  destruct (inv_events _ _ _ _ _ _ _ Hinv _ Hin) as (_ & _ & Hel & _).
  split; [done|]. exists d0, i. split; [done|].
  destruct (start_in_roster _ _ _ _ _ _ _ _ _ _ Hgen Hrun Hdays Hin)
    as (_ & _ & _ & Hrows).
  pose proof (proj2 (Hrows 0 ltac:(lia))) as H0.
  pose proof (proj2 (Hrows 1 ltac:(lia))) as H1.
  pose proof (proj2 (Hrows 2 ltac:(lia))) as H2.
  pose proof (proj2 (Hrows 3 ltac:(lia))) as H3.
  rewrite Nat.add_0_r in H0. split; [|done].
  assert (i ≠ 3); [|lia]. intros ->. simpl in Hpat.
  destruct Hv; congruence.
Qed.

(** X2. The night distribution of a person is the number of rows of the
    roster in which the person has the duty [N]. *)
Theorem night_distribution_counts_roster_nights mo yr r s n :
  generate mo yr = Some r →
  Dict.get s (night_shift_distribution r) = Some n →
  n = nights_in_roster (roster r) s.
Proof.
  intros Hgen Hn.
  destruct (generate_inv _ _ _ _ _ _ Hgen)
    as (days & st & Hdays & Hrun & Hfill & _ & _ & _ & Hdist).
  destruct (night_run_facts _ _ _ _ _ _ Hrun)
    as (days' & Hdays' & Hinv & Hcov & Hcount).
  assert (days' = days) as -> by congruence.
  rewrite Hdist in Hn.
  rewrite (inv_counts _ _ _ _ _ _ _ Hinv s n Hn), <- Hcount.
  unfold nights_of, nights_in_roster.
  unfold fill_phase in Hfill. apply mapM_Some_1 in Hfill.
  assert (Forall2 (λ d entry, roster r !! d = Some entry)
            (seq 0 (Z.to_nat days)) (roster r)) as Hrows.
  { apply Forall2_same_length_lookup. split.
    - apply Forall2_length in Hfill. done.
    - intros i d entry Hi Hrow. apply lookup_seq in Hi as [-> _]. done. }
  apply (count_Forall2 _ _ _ _ _ Hrows). intros d entry Hrow.
  destruct (is_str (Dict.get s (assignments entry)) "N") eqn:E.
  - apply bool_decide_eq_true.
    destruct (Dict.get s (assignments entry)) as [v|] eqn:Hget; [|done].
    simpl in E. apply String.eqb_eq in E. subst v.
    eapply schedule_cell_of_roster; eauto.
  - apply bool_decide_eq_false. intros Hcell.
    rewrite (roster_cell_of_schedule _ _ _ _ _ _ _ _ _ _ _ Hgen Hrun Hrow Hcell)
      in E.
    discriminate.
Qed.

(** X6. Every duty of a generated roster is one of the eight codes [A],
    [N], [SD], [DO], [OH], [PM], [OH+EMD], [OH+BIMA], so the shift
    distribution has no other key. *)
Theorem duties_are_known_codes mo yr r :
  generate mo yr = Some r →
  (∀ d s v, assignment (roster r) d s = Some v → In v duty_codes)
  ∧ (∀ v, In v (Dict.keys (shift_distribution r)) → In v duty_codes).
Proof.
  intros Hgen.
  destruct (generate_inv _ _ _ _ _ _ Hgen)
    as (days & st & Hdays & Hrun & Hfill & _ & _ & Hdist & _).
  apply fill_phase_spec in Hfill as [_ Hrows].
  assert (∀ d entry s v, roster r !! d = Some entry →
            Dict.get s (assignments entry) = Some v → In v duty_codes) as Hcell.
  { intros d entry s v Hrow Hget.
    destruct (Hrows d entry Hrow) as [_ Hday].
    apply fill_day_spec in Hday as (cd & _ & _ & _ & _ & _ & _ & Hkeys & _);
      [|apply staff_of_nodup].
    assert (In s (Dict.keys staff)) as Hs.
    { rewrite <- Hkeys. apply get_is_Some_keys. eauto. }
    destruct (roster_cell _ (staff_of_nodup _) _ _ _ _ _ _ _ _ _
                Hgen Hrun Hrow Hs)
      as (cd' & v' & _ & _ & _ & Hfill & Hget').
    assert (v' = v) as -> by congruence.
    apply fill_cell_cases in Hfill as (b & cur & _ & -> & Hcur).
    destruct b; [simpl; tauto|]. specialize (Hcur eq_refl).
    destruct cur as [x|].
    - destruct (written_cell_start _ _ _ _ _ _ _ _ _ Hrun Hcur)
        as (d0 & i & _ & Hi & _ & ->).
      do 4 (destruct i as [|i]; [simpl; tauto|]). lia.
    - pose proof (preferred_shift_codes staff (night_counts st) s entry d).
      simpl in *. tauto. }
  split.
  - intros d s v Ha. unfold assignment in Ha.
    destruct (roster r !! d) as [entry|] eqn:Hrow; [|discriminate].
    by eapply Hcell.
  - intros v Hv. rewrite Hdist, shift_counts_of_flat in Hv.
    apply get_is_Some_keys in Hv as [n Hn].
    rewrite get_count_shifts in Hn. cbv zeta in Hn.
    destruct (length (List.filter (String.eqb v) _)) eqn:E; [discriminate|].
    destruct (List.filter (String.eqb v) _) as [|x l] eqn:Hl; [discriminate|].
    assert (In x (x :: l)) as Hx by (simpl; auto).
    rewrite <- Hl in Hx. apply filter_In in Hx as [Hx Hvx].
    apply String.eqb_eq in Hvx. subst x.
    apply in_flat_map in Hx as (entry & He & Hx).
    apply list_elem_of_In, list_elem_of_lookup in He as [d Hrow].
    unfold Dict.values in Hx. apply in_map_iff in Hx as ([s v'] & Hv' & Hin).
    simpl in Hv'. subst v'.
    destruct (Hrows d entry Hrow) as [_ Hday].
    apply fill_day_spec in Hday as (cd & _ & _ & _ & _ & _ & _ & Hkeys & _);
      [|apply staff_of_nodup].
    apply In_get_nodup in Hin; [by eapply Hcell|].
    rewrite Hkeys. apply staff_of_nodup.
Qed.

(** X7. Who is no night candidate is never given a cell by the night
    phase: the duty is [A] on a leave day and on every other day the duty
    of the preference profile. *)
Theorem non_candidates_keep_day_duties mo yr r d entry c cd :
  generate mo yr = Some r →
  roster r !! d = Some entry →
  In c (Dict.keys staff) → ¬ In c (night_eligible_codes staff) →
  mk_date yr mo (Z.of_nat d + 1) = Some cd →
  ∃ on_leave : bool,
    is_on_leave c cd = Some on_leave
    ∧ Dict.get c (assignments entry)
      = Some (if on_leave then "A"
              else preferred_shift staff (night_shift_distribution r) c entry d).
Proof.
  intros Hgen Hrow Hc Hno Hcd.
  destruct (generate_inv _ _ _ _ _ _ Hgen)
    as (days & st & Hdays & Hrun & _ & _ & _ & _ & Hdist).
  destruct (roster_cell _ (staff_of_nodup _) _ _ _ _ _ _ _ _ _ Hgen Hrun Hrow Hc)
    as (cd' & v & Hcd' & _ & _ & Hfill & Hget).
  assert (cd' = cd) as -> by congruence.
  apply fill_cell_cases in Hfill as (b & cur & Hb & -> & Hcur).
  exists b. split; [done|]. rewrite Hget, Hdist. destruct b; [done|].
  specialize (Hcur eq_refl). destruct cur as [x|]; [|done].
  destruct (written_cell_start _ _ _ _ _ _ _ _ _ Hrun Hcur)
    as (d0 & i & Hin & _).
  destruct (night_run_inv _ _ _ _ _ _ Hrun) as (days' & _ & Hinv & _).
  destruct (inv_events _ _ _ _ _ _ _ Hinv _ Hin) as (_ & _ & Hel & _).
  done.
Qed.

(** X8. A [strict_oh] member is never put on nights, whatever the
    night-eligible flag says: off leave the duty is [OH] from Monday to
    Friday, and on Saturday and Sunday [OH] on the weekend day of the
    profile and [DO] on the other. *)
Theorem strict_oh_keeps_office_hours mo yr r d entry c s pref cd :
  generate mo yr = Some r →
  roster r !! d = Some entry →
  Dict.get c staff = Some s → shift_preference s = Some pref →
  ptype pref = Some "strict_oh" →
  mk_date yr mo (Z.of_nat d + 1) = Some cd →
  is_on_leave c cd = Some false →
  Dict.get c (assignments entry)
  = Some (if (weekday cd =? 6)%Z
          then (if is_str (weekend_day pref) "Sunday" then "OH" else "DO")
          else if (weekday cd =? 5)%Z
          then (if is_str (weekend_day pref) "Saturday" then "OH" else "DO")
          else "OH").
Proof.
  intros Hgen Hrow Hs Hpref Htype Hcd Hleave.
  assert (In c (Dict.keys staff)) as Hc by (apply get_is_Some_keys; eauto).
  assert (get_staff_preference staff c = pref) as Hp.
  { unfold get_staff_preference. by rewrite Hs, Hpref. }
  assert (¬ In c (night_eligible_codes staff)) as Hno.
  { rewrite (night_eligible_codes_spec staff c s (staff_of_nodup _) Hs).
    rewrite Hp, Htype. simpl. intros [_ ?]. discriminate. }
  destruct (generate_inv _ _ _ _ _ _ Hgen) as (days & st & _ & Hrun & _).
  destruct (roster_cell _ (staff_of_nodup _) _ _ _ _ _ _ _ _ _ Hgen Hrun Hrow Hc)
    as (cd' & v & Hcd' & Hsun & Hsat & Hfill & Hget).
  assert (cd' = cd) as -> by congruence.
  apply fill_cell_cases in Hfill as (b & cur & Hb & -> & Hcur).
  assert (b = false) as -> by congruence.
  specialize (Hcur eq_refl). rewrite Hget. f_equal.
  destruct cur as [x|].
  - destruct (written_cell_start _ _ _ _ _ _ _ _ _ Hrun Hcur)
      as (d0 & i & Hin & _).
    destruct (night_run_inv _ _ _ _ _ _ Hrun) as (days' & _ & Hinv & _).
    destruct (inv_events _ _ _ _ _ _ _ Hinv _ Hin) as (_ & _ & Hel & _).
    done.
  - unfold preferred_shift. rewrite Hp, Htype, Hsun, Hsat. done.
Qed.
End RosterProperties.

(** X9. The shift distribution counts cells: the value under a duty code
    is the number of cells of the rows that hold the code, and a code no
    cell holds has no key. *)
Theorem shift_distribution_counts_cells r x :
  Dict.get x (shift_counts_of r)
  = if duty_count r x =? 0 then None else Some (duty_count r x).
Proof.
  rewrite shift_counts_of_flat, get_count_shifts. cbv zeta.
  fold (duty_count r x). by destruct (duty_count r x =? 0).
Qed.

(** ** The staff of a night *)

Lemma NoDup_keys_filter {V} (f : string * V → bool) (l : dict V) :
  NoDup (Dict.keys l) → NoDup (Dict.keys (List.filter f l)).
Proof.
  unfold Dict.keys. induction l as [|[k v] l IH]; simpl; [done|].
  rewrite NoDup_cons. intros [Hk Hnd]. destruct (f (k, v)); simpl; [|by auto].
  apply NoDup_cons. split; [|by auto].
  intros Hin. apply Hk. apply list_elem_of_In in Hin. apply list_elem_of_In.
  apply in_map_iff in Hin as (x & Hx & Hin). apply filter_In in Hin as [Hin _].
  apply in_map_iff. eauto.
Qed.

Lemma NoDup_List_filter {A} (f : A → bool) (l : list A) :
  NoDup l → NoDup (List.filter f l).
Proof.
  induction l as [|x l IH]; simpl; [done|].
  rewrite NoDup_cons. intros [Hx Hnd]. destruct (f x); [|by auto].
  apply NoDup_cons. split; [|by auto].
  intros Hin. apply Hx. apply list_elem_of_In in Hin. apply list_elem_of_In.
  by apply filter_In in Hin as [Hin _].
Qed.

(** The staff of a list who have a commit on day [d] are no more than the
    commits of day [d]. *)
Lemma starters_le_commits d h (l : list string) :
  NoDup l → (∀ s, In s l → In (start_event d s) h) →
  length l ≤ commits_on d h.
Proof.
  intros Hnd Hin. unfold commits_on.
  rewrite <- (length_map (start_event d) l).
  apply submseteq_length, NoDup_submseteq.
  - assert (Inj eq eq (start_event d)) by (intros s s' [=]; done).
    by apply (NoDup_fmap_2 (start_event d)).
  - intros e He. apply list_elem_of_In in He. apply list_elem_of_In.
    apply in_map_iff in He as (s & <- & Hs).
    apply filter_In. split; [by apply Hin|]. simpl. apply Nat.eqb_refl.
Qed.

Section NightStaffing.
Variable staff_db : list Staff.
Variable leave_records : list LeaveEntry.
Variable fromisoformat : string → option date.

Local Abbreviation staff := (staff_of staff_db).
Local Abbreviation night_run := (night_run staff leave_records fromisoformat).
Local Abbreviation generate := (generate staff leave_records fromisoformat).

(** X4. No row has more than four people on night duty: the two who start
    a sequence that day and the two who started one the day before. A
    Sunday row and the first row of the month have at most two. *)
Theorem at_most_four_on_night mo yr r d entry :
  generate mo yr = Some r →
  roster r !! d = Some entry →
  length (on_night entry) ≤ 4
  ∧ (is_sunday entry = true ∨ d = 0 → length (on_night entry) ≤ 2).
Proof.
  intros Hgen Hrow.
  destruct (generate_inv _ _ _ _ _ _ Hgen) as (days & st & Hdays & Hrun & Hfill & _).
  destruct (night_run_inv _ _ _ _ _ _ Hrun) as (days' & _ & Hinv & _ & Hcap).
  apply fill_phase_spec in Hfill as [_ Hrows].
  destruct (Hrows d entry Hrow) as [_ Hday].
  apply fill_day_spec in Hday as (cd & Hcd & _ & _ & Hsun & _ & _ & Hkeys & _);
    [|apply staff_of_nodup].
  set (today := λ s, existsb (λ e, (ev_day e =? d) && String.eqb (ev_staff e) s)
                       (history st)).
  assert (NoDup (on_night entry)) as Hnd.
  { apply (NoDup_keys_filter (V := string)). rewrite Hkeys. apply staff_of_nodup. }
  assert (∀ s, In s (on_night entry) →
            In (start_event d s) (history st)
            ∨ (today s = false ∧ ∃ d', d = S d'
                                       ∧ In (start_event d' s) (history st)))
    as Hwho.
  { intros s Hs. unfold on_night in Hs.
    apply in_map_iff in Hs as ([s' v] & E & Hin). simpl in E. subst s'.
    apply filter_In in Hin as [Hin Hv]. simpl in Hv. apply String.eqb_eq in Hv.
    subst v. apply In_get_nodup in Hin; [|rewrite Hkeys; apply staff_of_nodup].
    pose proof (schedule_cell_of_roster _ _ _ _ _ _ _ _ _ _ _
                  Hgen Hrun Hrow Hin (or_introl eq_refl)) as Hcell.
    destruct (written_cell_start _ _ _ _ _ _ _ _ _ Hrun Hcell)
      as (d0 & i & Hst & Hi & -> & Hpat).
    destruct i as [|[|i]].
    - left. by rewrite Nat.add_0_r.
    - destruct (today s) eqn:Ht.
      + left. apply existsb_exists in Ht as ([d1 s1 k] & He & Hd).
        simpl in Hd. apply andb_true_iff in Hd as [Hd1 Hs1].
        apply Nat.eqb_eq in Hd1. apply String.eqb_eq in Hs1. subst d1 s1.
        destruct (inv_events _ _ _ _ _ _ _ Hinv _ He) as (Hk & _).
        simpl in Hk. subst k. done.
      + right. split; [done|]. exists d0. split; [lia|done].
    - exfalso. destruct i as [|[|i]]; simpl in Hpat; [discriminate..|lia]. }
  assert (length (List.filter today (on_night entry)) ≤ commits_on d (history st))
    as Hnow.
  { apply starters_le_commits; [by apply NoDup_List_filter|].
    intros s Hs. apply filter_In in Hs as [Hs Ht].
    destruct (Hwho s Hs) as [?|[Hf _]]; [done|congruence]. }
  assert (∀ d', d = S d' →
            length (List.filter (λ s, negb (today s)) (on_night entry))
            ≤ commits_on d' (history st)) as Hbefore.
  { intros d' ->. apply starters_le_commits; [by apply NoDup_List_filter|].
    intros s Hs. apply filter_In in Hs as [Hs Ht]. apply negb_true_iff in Ht.
    destruct (Hwho s Hs) as [Hin|(_ & d1 & [= <-] & Hin)]; [|done].
    assert (today s = true); [|congruence].
    apply existsb_exists. exists (start_event (S d') s). split; [done|].
    simpl. by rewrite Nat.eqb_refl, String.eqb_refl. }
  assert (d = 0 →
            length (List.filter (λ s, negb (today s)) (on_night entry)) = 0)
    as Hfirst.
  { intros ->. destruct (List.filter _ _) as [|s l] eqn:E; [done|].
    assert (In s (s :: l)) as Hs by (simpl; auto). rewrite <- E in Hs.
    apply filter_In in Hs as [Hs Ht]. apply negb_true_iff in Ht.
    destruct (Hwho s Hs) as [Hin|(_ & d1 & [=] & _)].
    assert (today s = true); [|congruence].
    apply existsb_exists. exists (start_event 0 s). split; [done|].
    simpl. by rewrite String.eqb_refl. }
  assert (length (List.filter (λ s, negb (today s)) (on_night entry)) ≤ 2)
    as Hold.
  { destruct d as [|d']; [rewrite Hfirst by done; lia|].
    specialize (Hbefore d' eq_refl). pose proof (Hcap d'). lia. }
  pose proof (List.filter_length today (on_night entry)) as Hsplit.
  pose proof (Hcap d) as Hcapd.
  split; [lia|]. intros [Hsunday | ->]; [|specialize (Hfirst eq_refl); lia].
  assert (commits_on d (history st) = 0) as Hzero; [|lia].
  apply commits_on_none. intros e He Hd.
  destruct (inv_events _ _ _ _ _ _ _ Hinv _ He)
    as (_ & _ & _ & _ & (cd' & Hcd' & Hwd) & _).
  rewrite Hd, Hcd in Hcd'. injection Hcd' as <-.
  rewrite Hsun in Hsunday. by apply Z.eqb_eq in Hsunday.
Qed.
End NightStaffing.

(** ** The night phase takes whoever it can *)

Lemma all_free_taken s c d offsets :
  all_free s c d offsets = Some false →
  ∃ i v, In i offsets ∧ cell_at s c (d + i) = Some (Some v).
Proof.
  induction offsets as [|o os IH]; simpl; [discriminate|].
  intros H. bind_inv H cur Hcur. destruct cur as [v|].
  - exists o, v. auto.
  - destruct (IH H) as (i & v & Hi & Hc). exists i, v. auto.
Qed.

Lemma sorted_by_count_In_2 counts l l' c :
  sorted_by_count counts l = Some l' → In c l → In c l'.
Proof.
  unfold sorted_by_count. intros H Hin. bind_inv H keyed Hk.
  injection H as <-. apply mapM_Some_1 in Hk.
  apply list_elem_of_In, list_elem_of_lookup in Hin as [i Hi].
  destruct (Forall2_lookup_l _ _ _ _ _ Hk Hi) as ([n c'] & Hc' & Hget).
  bind_inv Hget m Hm. injection Hget as <- <-.
  apply in_map_iff. exists (m, c). split; [done|].
  apply In_stable_sort. apply list_elem_of_In, list_elem_of_lookup. eauto.
Qed.

Section Greedy.
Variable staff : dict Staff.
Variable leave_records : list LeaveEntry.
Variable fromisoformat : string → option date.
Variables (yr mo : Z) (days : nat).
Variables (night_eligible night_predominant : list string).

Local Abbreviation is_on_leave := (is_on_leave leave_records fromisoformat).
Local Abbreviation night_turn :=
  (night_turn leave_records fromisoformat yr mo days).
Local Abbreviation night_candidates :=
  (night_candidates leave_records fromisoformat yr mo days).
Local Abbreviation night_day :=
  (night_day leave_records fromisoformat yr mo days
     night_eligible night_predominant).
Local Abbreviation night_inv :=
  (night_inv leave_records fromisoformat yr mo days night_eligible).
Local Abbreviation off_leave := (off_leave leave_records fromisoformat yr mo).
Local Abbreviation staffed :=
  (staffed leave_records fromisoformat yr mo night_eligible).

Lemma candidates_of_all st candidates c :
  candidates_of night_eligible night_predominant st = Some candidates →
  In c night_eligible → In c candidates.
Proof.
  unfold candidates_of. intros H Hc. bind_inv H prio Hprio.
  bind_inv H others Hothers. injection H as <-. apply in_app_iff.
  destruct (str_in c night_predominant) eqn:Hp.
  - left. eapply sorted_by_count_In_2; [done|].
    apply filter_In. split; [by apply str_in_In | by apply str_in_In].
  - right. eapply sorted_by_count_In_2; [done|].
    apply filter_In. split; [done | by rewrite Hp].
Qed.

Lemma leave_check_clear d c flags :
  off_leave c d →
  leave_check leave_records fromisoformat yr mo d c = Some flags →
  existsb id flags = false.
Proof.
  intros Hoff H. unfold leave_check in H. apply mapM_Some_1 in H.
  destruct (existsb id flags) eqn:E; [|done].
  apply existsb_exists in E as (b & Hb & Hid). unfold id in Hid. subst b.
  apply list_elem_of_In, list_elem_of_lookup in Hb as [k Hk].
  destruct (Forall2_lookup_r _ _ _ _ _ H Hk) as (i & Hi & Hcall).
  apply lookup_seq in Hi as [-> Hi]. simpl in Hcall.
  destruct (Hoff k Hi) as (dt & Hdt & Hfalse).
  rewrite Hdt in Hcall. simpl in Hcall. congruence.
Qed.

(** A free cell under the events so far has free cells after it, and no
    night or sleeping day before it. *)
Lemma free_cell_context st d c :
  night_inv st → covered st → (∀ e, In e (history st) → ev_day e ≤ d) →
  cell_at (schedule st) c d = Some None →
  (∀ i v, i < 4 → cell_at (schedule st) c (d + i) ≠ Some (Some v))
  ∧ (∀ d', d = S d' → cell_at (schedule st) c d' ≠ Some (Some "N")
                      ∧ cell_at (schedule st) c d' ≠ Some (Some "SD")).
Proof.
  intros Hinv Hcov Hpast Hfree.
  assert (∀ e k, In e (history st) → ev_staff e = c → k < 4 →
            ev_day e + k ≠ d) as Hout.
  { intros e k He Hs Hk Hd.
    destruct (inv_events _ _ _ _ _ _ _ Hinv _ He) as (_ & _ & _ & Hpat & _).
    specialize (Hpat k Hk). rewrite Hs, Hd, Hfree in Hpat. discriminate. }
  split.
  - intros i v Hi Hcell.
    destruct (Hcov _ _ _ Hcell) as (e & He & Hs & Hr).
    specialize (Hpast e He).
    apply (Hout e (d - ev_day e) He Hs); lia.
  - intros d' ->. split; intros Hcell.
    + apply (inv_follow _ _ _ _ _ _ _ Hinv c d' Hcell).
      by replace (d' + 1) with (S d') by lia.
    + destruct (Hcov _ _ _ Hcell) as (e & He & Hs & Hr).
      destruct (inv_events _ _ _ _ _ _ _ Hinv _ He) as (_ & _ & _ & Hpat & _).
      rewrite Hs in Hpat.
      assert (d' - ev_day e = 2) as Hk.
      { pose proof (Hpat (d' - ev_day e) ltac:(lia)) as Hp.
        replace (ev_day e + (d' - ev_day e)) with d' in Hp by lia.
        rewrite Hcell in Hp. injection Hp as Hp.
        destruct (d' - ev_day e) as [|[|[|[|k]]]]; simpl in Hp;
          try discriminate; done. }
      apply (Hout e 3 He Hs); lia.
Qed.

(** The turn of a candidate with a free cell and no leave ahead starts a
    sequence. *)
Lemma night_turn_progress d cd c st st' :
  night_inv st → covered st → (∀ e, In e (history st) → ev_day e ≤ d) →
  mk_date yr mo (Z.of_nat d + 1) = Some cd → d + 3 < days →
  off_leave c d → cell_at (schedule st) c d = Some None →
  night_turn d cd st c = Some st' →
  start_sequence d c st = Some st'.
Proof.
  intros Hinv Hcov Hpast Hcd Hfit Hoff Hfree.
  destruct (free_cell_context _ _ _ Hinv Hcov Hpast Hfree) as [Hahead Hback].
  unfold night_turn. intros H.
  destruct (Hoff 0 ltac:(lia)) as (dt & Hdt & Hleave).
  replace (Z.of_nat (d + 0 + 1)) with (Z.of_nat d + 1)%Z in Hdt by lia.
  assert (dt = cd) as -> by congruence.
  rewrite Hleave in H. cbn [mbind option_bind] in H.
  rewrite Hfree in H. cbn [mbind option_bind] in H. unfold is_set in H.
  bind_inv H back Hlook.
  assert (back = Proceed true) as ->.
  { unfold look_back in Hlook. destruct (0 <? d) eqn:Hd; [|congruence].
    apply Nat.ltb_lt in Hd. bind_inv Hlook prev Hprev.
    destruct d as [|d']; [lia|]. replace (S d' - 1) with d' in Hprev by lia.
    destruct (Hback d' eq_refl) as [HN HSD].
    destruct prev as [p|]; [|by injection Hlook as <-].
    assert (p ≠ "N") as HpN by (intros ->; done).
    assert (p ≠ "SD") as HpSD by (intros ->; done).
    apply String.eqb_neq in HpN, HpSD. simpl in Hlook.
    rewrite HpN in Hlook. simpl in Hlook. rewrite HpSD in Hlook.
    simpl in Hlook. congruence. }
  assert ((d + 3 <? days) = true) as Hfit' by (by apply Nat.ltb_lt).
  rewrite Hfit' in H. cbn [andb] in H.
  bind_inv H free Hall. destruct free.
  - bind_inv H flags Hflags.
    rewrite (leave_check_clear _ _ _ Hoff Hflags) in H. done.
  - exfalso. apply all_free_taken in Hall as (i & v & Hi & Hcell).
    apply in_seq in Hi. apply (Hahead i v); [lia|done].
Qed.

Lemma cell_kept_by_start d c st st' c' j :
  start_sequence d c st = Some st' →
  cell_at (schedule st) c' j ≠ Some None →
  cell_at (schedule st') c' j ≠ Some None.
Proof.
  intros Hstart Hcell.
  destruct (start_sequence_spec _ _ _ _ Hstart) as (_ & _ & _ & _ & _ & Hcells).
  rewrite Hcells. by case_decide.
Qed.

Lemma night_candidates_greedy d cd candidates st st' :
  night_inv st → covered st → (∀ e, In e (history st) → ev_day e ≤ d) →
  mk_date yr mo (Z.of_nat d + 1) = Some cd → weekday cd ≠ 6%Z →
  d + 3 < days → (∀ c, In c candidates → In c night_eligible) →
  night_candidates d cd candidates st = Some st' →
  2 ≤ assigned_tonight st'
  ∨ ∀ c, In c candidates → off_leave c d →
         cell_at (schedule st') c d ≠ Some None.
Proof.
  intros Hinv Hcov Hpast Hcd Hwd Hfit. revert st Hinv Hcov Hpast.
  induction candidates as [|c rest IH]; intros st Hinv Hcov Hpast Hel H.
  - right. intros c [].
  - rewrite night_candidates_cons in H.
    destruct (2 <=? assigned_tonight st) eqn:Hcap.
    { injection H as <-. left. by apply Nat.leb_le. }
    bind_inv H st1 Hturn.
    assert (In c night_eligible) as Hc by (apply Hel; simpl; auto).
    destruct (night_turn_inv _ _ _ _ _ _ _ _ _ _ _ Hinv Hcd Hwd Hc Hturn)
      as [Hinv1 Hstep].
    pose proof (night_turn_cases _ _ _ _ _ _ _ _ _ _
                  (inv_follow _ _ _ _ _ _ _ Hinv) Hturn) as Hcases.
    assert (covered st1) as Hcov1.
    { destruct Hcases as [->|(_ & _ & _ & Hstart)]; [done|].
      by eapply covered_start. }
    assert (∀ e, In e (history st1) → ev_day e ≤ d) as Hpast1.
    { destruct Hstep as [->|[Hh _]]; [done|].
      intros e. rewrite Hh, in_app_iff. intros [He|[<-|[]]]; [by auto|done]. }
    assert (off_leave c d → cell_at (schedule st1) c d ≠ Some None) as Hmine.
    { intros Hoff Hfree1.
      assert (cell_at (schedule st) c d = Some None) as Hfree.
      { destruct Hcases as [->|(_ & _ & _ & Hstart)]; [done|].
        destruct (start_sequence_spec _ _ _ _ Hstart)
          as (_ & _ & _ & _ & _ & Hcells).
        rewrite Hcells in Hfree1. rewrite decide_True in Hfree1; [done|].
        split; [done|lia]. }
      pose proof (night_turn_progress _ _ _ _ _ Hinv Hcov Hpast Hcd Hfit
                    Hoff Hfree Hturn) as Hstart.
      destruct (start_sequence_spec _ _ _ _ Hstart)
        as (_ & _ & _ & _ & _ & Hcells).
      rewrite Hcells in Hfree1. rewrite decide_True in Hfree1; [done|].
      split; [done|lia]. }
    destruct (IH st1 Hinv1 Hcov1 Hpast1 (λ c' Hc', Hel c' (or_intror Hc')) H)
      as [Hfull|Hrest]; [by left|].
    right. intros c' [<-|Hin] Hoff; [|by auto].
    eapply (night_candidates_keeps leave_records fromisoformat yr mo days
              night_eligible
              (λ st, cell_at (schedule st) c d ≠ Some None));
      [ | exact Hinv1 | by apply Hmine | exact Hcd | exact Hwd
        | intros c' Hc'; apply Hel; right; exact Hc' | exact H ].
    intros d0 c0 st0 st2 _ Hkeep _ _ _ Hstart.
    by eapply cell_kept_by_start.
Qed.

Lemma starts_on_app d h h' :
  starts_on d (h ++ h') = starts_on d h + starts_on d h'.
Proof. unfold starts_on. by rewrite List.filter_app, length_app. Qed.

Lemma starts_on_today d new :
  (∀ e, In e new → ∃ c, e = start_event d c) → starts_on d new = length new.
Proof.
  unfold starts_on. induction new as [|e new IH]; intros Hnew; [done|].
  destruct (Hnew e) as [c ->]; [simpl; auto|].
  cbn [List.filter start_event ev_commit ev_day commit_eqb andb].
  rewrite Nat.eqb_refl. cbn [length]. f_equal. apply IH.
  intros e' ?. apply Hnew. simpl. auto.
Qed.

Lemma starts_on_other d h : (∀ e, In e h → ev_day e ≠ d) → starts_on d h = 0.
Proof.
  intros Hno. pose proof (starts_on_le_commits d h).
  rewrite (commits_on_none d h Hno) in *. lia.
Qed.

(** A day as a one-day phase. *)
Lemma night_day_keeps (P : NightState → Prop) st d st' :
  (∀ d c st st',
     night_inv st → P st → d + 3 < days → In c night_eligible →
     (∀ i, i < 4 → cell_at (schedule st) c (d + i) = Some None) →
     start_sequence d c st = Some st' → P st') →
  (∀ st, P st → P (reset_tonight st)) →
  night_inv st → P st → night_day st d = Some st' → P st'.
Proof.
  intros Hstart Hreset Hinv HP Hday.
  apply (night_days_keep leave_records fromisoformat yr mo days
           night_eligible night_predominant P Hreset Hstart d 1 st st' Hinv HP).
  simpl. rewrite Hday. done.
Qed.

Lemma night_day_covered st d st' :
  night_inv st → covered st → night_day st d = Some st' → covered st'.
Proof.
  intros Hinv Hcov. apply (night_day_keeps covered); try done.
  intros d0 c st0 st1 _ H _ _ _ Hstart. by eapply covered_start.
Qed.

Lemma night_day_keeps_cell st d st' c j :
  night_inv st → cell_at (schedule st) c j ≠ Some None →
  night_day st d = Some st' → cell_at (schedule st') c j ≠ Some None.
Proof.
  intros Hinv Hcell.
  apply (night_day_keeps (λ st, cell_at (schedule st) c j ≠ Some None));
    try done.
  intros d0 c0 st0 st1 _ H _ _ _ Hstart. by eapply cell_kept_by_start.
Qed.

(** The day of the choice: two sequences start, or every candidate
    without leave ahead is in a sequence. *)
Lemma night_day_greedy st d st' cd :
  night_inv st → covered st → (∀ e, In e (history st) → ev_day e < d) →
  mk_date yr mo (Z.of_nat d + 1) = Some cd → weekday cd ≠ 6%Z →
  d + 3 < days → night_day st d = Some st' → staffed d st'.
Proof.
  intros Hinv Hcov Hpast Hcd Hwd Hfit. unfold night_day. rewrite Hcd.
  cbn [mbind option_bind]. apply Z.eqb_neq in Hwd. rewrite Hwd.
  apply Z.eqb_neq in Hwd. intros H. bind_inv H candidates Hcands.
  pose proof (reset_tonight_inv _ _ _ _ _ _ _ Hinv) as Hinv0.
  destruct (night_candidates_inv _ _ _ _ _ _ _ _ _ _ _ Hinv0 Hcd Hwd
              (λ c, candidates_of_eligible _ _ _ _ c Hcands) H)
    as (_ & new & Hh & Hnew & Ha & Hle).
  simpl in Ha, Hle, Hh.
  destruct (night_candidates_greedy d cd candidates (reset_tonight st) st')
    as [Hfull|Hall]; try done.
  - intros e He. specialize (Hpast e He). lia.
  - eauto using candidates_of_eligible.
  - left. rewrite Hh, starts_on_app, (starts_on_today d new Hnew).
    rewrite starts_on_other; [lia|].
    intros e He. specialize (Hpast e He). lia.
  - right. intros c Hc. apply Hall. by eapply candidates_of_all.
Qed.

Lemma night_days_greedy a n st st' :
  night_inv st → covered st → (∀ e, In e (history st) → ev_day e < a) →
  (∀ d cd, d < a → mk_date yr mo (Z.of_nat d + 1) = Some cd →
           weekday cd ≠ 6%Z → d + 3 < days → staffed d st) →
  for_each night_day (seq a n) st = Some st' →
  ∀ d cd, d < a + n → mk_date yr mo (Z.of_nat d + 1) = Some cd →
          weekday cd ≠ 6%Z → d + 3 < days → staffed d st'.
Proof.
  revert a st. induction n as [|n IH]; intros a st Hinv Hcov Hpast Hdone H.
  - injection H as <-. intros d cd Hd. apply Hdone. lia.
  - change (seq a (S n)) with (a :: seq (S a) n) in H.
    rewrite for_each_cons in H. bind_inv H st1 Hday.
    destruct (night_day_inv _ _ _ _ _ _ _ _ _ _ Hinv Hday)
      as (Hinv1 & new & Hh & _ & Hnew).
    pose proof (night_day_covered _ _ _ Hinv Hcov Hday) as Hcov1.
    replace (a + S n) with (S a + n) by lia.
    apply (IH (S a) st1); try done.
    + intros e. rewrite Hh, in_app_iff. intros [He|He].
      * specialize (Hpast e He). lia.
      * destruct (Hnew e He) as [c ->]. simpl. lia.
    + intros d cd Hd Hcd Hwd Hfit.
      destruct (decide (d = a)) as [->|Hne];
        [exact (night_day_greedy st a st1 cd Hinv Hcov Hpast Hcd Hwd Hfit Hday)|].
      destruct (Hdone d cd ltac:(lia) Hcd Hwd Hfit) as [Hfull|Hall].
      * left. rewrite Hh, starts_on_app, Hfull.
        rewrite (starts_on_other d new); [done|].
        intros e He. destruct (Hnew e He) as [c ->]. simpl. congruence.
      * right. intros c Hc Hoff.
        eapply night_day_keeps_cell; [exact Hinv| |exact Hday]. by apply Hall.
Qed.

Lemma night_phase_greedy st d cd :
  night_phase staff leave_records fromisoformat yr mo days
    night_eligible night_predominant = Some st →
  d + 3 < days → mk_date yr mo (Z.of_nat d + 1) = Some cd → weekday cd ≠ 6%Z →
  staffed d st.
Proof.
  unfold night_phase. intros H Hfit Hcd Hwd.
  eapply (night_days_greedy 0 days); [| | | |exact H| |exact Hcd|exact Hwd|exact Hfit].
  - apply initial_inv.
  - intros c i v Hc. apply initial_cell in Hc. discriminate.
  - intros e [].
  - intros d0 cd0 Hd0. lia.
  - lia.
Qed.

Lemma night_phase_rows st c d :
  night_phase staff leave_records fromisoformat yr mo days
    night_eligible night_predominant = Some st →
  In c (Dict.keys staff) → d < days →
  is_Some (cell_at (schedule st) c d).
Proof.
  intros H Hc Hd. revert H.
  apply (night_phase_keeps staff leave_records fromisoformat yr mo days
           night_eligible night_predominant
           (λ st, is_Some (cell_at (schedule st) c d))).
  - intros st0 H. exact H.
  - intros d0 c0 st0 st1 _ H _ _ _ Hstart.
    destruct (start_sequence_spec _ _ _ _ Hstart)
      as (_ & _ & _ & _ & _ & Hcells).
    rewrite Hcells. case_decide; [by eexists|done].
  - by apply initial_ready.
Qed.
End Greedy.

(** ** The counter of the cap *)

Lemma for_each_app {A S} (body : S → A → option S) l1 l2 s :
  for_each body (l1 ++ l2) s = s1 ← for_each body l1 s; for_each body l2 s1.
Proof.
  revert s. induction l1 as [|x l1 IH]; intros s; [done|].
  simpl. destruct (body s x) as [s1|]; [|done]. simpl. apply IH.
Qed.

Section Counter.
Variable staff : dict Staff.
Variable leave_records : list LeaveEntry.
Variable fromisoformat : string → option date.
Variables (yr mo : Z) (days : nat).
Variables (night_eligible night_predominant : list string).

Local Abbreviation is_on_leave := (is_on_leave leave_records fromisoformat).
Local Abbreviation night_turn :=
  (night_turn leave_records fromisoformat yr mo days).
Local Abbreviation night_day :=
  (night_day leave_records fromisoformat yr mo days
     night_eligible night_predominant).
Local Abbreviation night_inv :=
  (night_inv leave_records fromisoformat yr mo days night_eligible).

(** A turn of a candidate whose cell of the day is written already, by
    a sequence of an earlier day, leaves the state as it is, the counter
    included. *)
Lemma night_turn_written d cd st c v :
  cell_at (schedule st) c d = Some (Some v) →
  is_Some (is_on_leave c cd) →
  night_turn d cd st c = Some st.
Proof.
  intros Hcell [b Hb]. unfold night_turn. rewrite Hb.
  cbn [mbind option_bind]. destruct b; [done|]. by rewrite Hcell.
Qed.

(** The later days only add events of their own. *)
Lemma night_days_later a n st st' :
  night_inv st →
  for_each night_day (seq a n) st = Some st' →
  ∃ new, history st' = (history st ++ new)%list
         ∧ ∀ e, In e new → a ≤ ev_day e.
Proof.
  revert a st. induction n as [|n IH]; intros a st Hinv H.
  - injection H as <-. exists []. by rewrite app_nil_r.
  - change (seq a (S n)) with (a :: seq (S a) n) in H.
    rewrite for_each_cons in H. bind_inv H st1 Hday.
    destruct (night_day_inv _ _ _ _ _ _ _ _ _ _ Hinv Hday)
      as (Hinv1 & new & Hh & _ & Hnew).
    destruct (IH (S a) st1 Hinv1 H) as (new' & Hh' & Hnew').
    exists (new ++ new')%list. split; [by rewrite Hh', Hh, app_assoc|].
    intros e. rewrite in_app_iff. intros [He|He].
    + destruct (Hnew e He) as [c ->]. done.
    + specialize (Hnew' e He). lia.
Qed.

(** At the end of a day that is no Sunday the counter is the number of
    sequences started on that day. *)
Lemma night_day_counter st d st' cd :
  night_inv st → (∀ e, In e (history st) → ev_day e < d) →
  mk_date yr mo (Z.of_nat d + 1) = Some cd → weekday cd ≠ 6%Z →
  night_day st d = Some st' →
  assigned_tonight st' = starts_on d (history st').
Proof.
  intros Hinv Hpast Hcd Hwd. unfold night_day. rewrite Hcd.
  cbn [mbind option_bind]. apply Z.eqb_neq in Hwd. rewrite Hwd.
  apply Z.eqb_neq in Hwd. intros H. bind_inv H candidates Hcands.
  destruct (night_candidates_inv _ _ _ _ _ _ _ _ _ _ _
              (reset_tonight_inv _ _ _ _ _ _ _ Hinv) Hcd Hwd
              (λ c, candidates_of_eligible _ _ _ _ c Hcands) H)
    as (_ & new & Hh & Hnew & Ha & _).
  simpl in Ha, Hh.
  rewrite Ha, Hh, starts_on_app, (starts_on_today d new Hnew).
  rewrite starts_on_other; [done|].
  intros e He. specialize (Hpast e He). lia.
Qed.

Lemma night_phase_counter st d cd :
  night_phase staff leave_records fromisoformat yr mo days
    night_eligible night_predominant = Some st →
  d < days → mk_date yr mo (Z.of_nat d + 1) = Some cd → weekday cd ≠ 6%Z →
  ∃ st_d, for_each night_day (seq 0 (S d))
            (initial_state staff days night_eligible) = Some st_d
          ∧ assigned_tonight st_d = starts_on d (history st).
Proof.
  unfold night_phase. intros H Hd Hcd Hwd.
  assert (seq 0 days = (seq 0 (S d) ++ seq (S d) (days - S d))%list) as Hsplit.
  { change (S d) with (0 + S d) at 2.
    rewrite <- (seq_app (S d) (days - S d) 0). f_equal. lia. }
  rewrite Hsplit, for_each_app in H. bind_inv H st_d Hupto.
  exists st_d. split; [done|].
  rewrite seq_S, for_each_app in Hupto. bind_inv Hupto st0 Hbefore.
  cbn [Nat.add] in Hupto. rewrite for_each_cons in Hupto.
  bind_inv Hupto st1 Hday. injection Hupto as ->.
  destruct (night_days_inv _ _ _ _ _ _ _ _ _ _ _
              (initial_inv staff leave_records fromisoformat yr mo days
                 night_eligible)
              (λ e (He : In e []), match He with end)
              (λ d0, Nat.le_0_l 2) Hbefore)
    as (Hinv0 & Hpast0 & _).
  destruct (night_day_inv _ _ _ _ _ _ _ _ _ _ Hinv0 Hday) as (Hinv1 & _).
  rewrite (night_day_counter _ _ _ _ Hinv0 Hpast0 Hcd Hwd Hday).
  destruct (night_days_later _ _ _ _ Hinv1 H) as (new & -> & Hnew).
  rewrite starts_on_app, (starts_on_other d new); [cbn [Nat.add]; lia|].
  intros e He. specialize (Hnew e He). lia.
Qed.
End Counter.

Section Cap.
Variable staff_db : list Staff.
Variable leave_records : list LeaveEntry.
Variable fromisoformat : string → option date.

Local Abbreviation staff := (staff_of staff_db).
Local Abbreviation is_on_leave := (is_on_leave leave_records fromisoformat).
Local Abbreviation night_run := (night_run staff leave_records fromisoformat).
Local Abbreviation night_run_upto :=
  (night_run_upto staff leave_records fromisoformat).
Local Abbreviation night_turn :=
  (night_turn leave_records fromisoformat).

(** C7. On every day at most two sequences are started, and the cap
    counts nothing else. At the end of every day of the night phase that
    is no Sunday, the counter [assigned_tonight] of the cap is the number
    of sequences started on that day. A candidate whose cell of the day
    is written already, as on the three days that continue a sequence,
    passes its turn without any change to the state or the counter; no
    commit of a run comes from the continuation branch, and on the three
    days that continue a sequence of [s] nothing is committed for [s].
    So a continuation takes no slot: on a day with three days of the
    month after it two sequences start, or every night candidate without
    leave on the four days is in a sequence on that day. *)
Theorem two_starts_per_day mo yr st :
  night_run mo yr = Some st →
  (∀ d, starts_on d (history st) ≤ 2)
  ∧ (∀ d, commits_on d (history st) ≤ 2)
  ∧ (∀ e, In e (history st) → ev_commit e = StartSequence)
  ∧ (∀ d s e, In (start_event d s) (history st) → In e (history st) →
              ev_staff e = s → ¬ (d < ev_day e ≤ d + 3))
  ∧ night_run_upto mo yr (Z.to_nat (days_in_month yr mo)) = Some st
  ∧ (∀ d cd, d < Z.to_nat (days_in_month yr mo) →
       mk_date yr mo (Z.of_nat d + 1) = Some cd → weekday cd ≠ 6%Z →
       ∃ st_d, night_run_upto mo yr (S d) = Some st_d
               ∧ assigned_tonight st_d = starts_on d (history st))
  ∧ (∀ days d cd st0 c v,
       cell_at (schedule st0) c d = Some (Some v) →
       is_Some (is_on_leave c cd) →
       night_turn yr mo days d cd st0 c = Some st0)
  ∧ (∀ d cd c, d + 3 < Z.to_nat (days_in_month yr mo) →
       mk_date yr mo (Z.of_nat d + 1) = Some cd → weekday cd ≠ 6%Z →
       In c (night_eligible_codes staff) →
       (∀ i, i < 4 →
          ∃ dt, mk_date yr mo (Z.of_nat (d + i) + 1) = Some dt
                ∧ is_on_leave c dt = Some false) →
       starts_on d (history st) = 2
       ∨ ∃ d0, In (start_event d0 c) (history st) ∧ d0 ≤ d < d0 + 4).
Proof.
  intros Hrun.
  destruct (night_run_inv _ _ _ _ _ _ Hrun) as (days & Hdays & Hinv & _ & Hcap).
  pose proof (get_days_in_month_calendar _ _ _ Hdays) as (_ & _ & ->).
  pose proof Hrun as Hphase. unfold night_run in Hphase.
  rewrite Hdays in Hphase. cbn [mbind option_bind] in Hphase.
  cbv zeta in Hphase.
  split; [|split; [done|split; [|split; [|split; [|split; [|split]]]]]].
  - intros d. pose proof (starts_on_le_commits d (history st)).
    specialize (Hcap d). lia.
  - intros e He.
    by destruct (inv_events _ _ _ _ _ _ _ Hinv _ He) as (? & _).
  - intros d s e. by apply (starts_apart staff_db leave_records fromisoformat mo yr).
  - unfold night_run_upto. rewrite Hdays. exact Hphase.
  - intros d cd Hd Hcd Hwd. unfold night_run_upto. rewrite Hdays.
    cbn [mbind option_bind]. cbv zeta.
    exact (night_phase_counter _ _ _ _ _ _ _ _ _ _ _ Hphase Hd Hcd Hwd).
  - intros days d cd st0 c v. apply night_turn_written.
  - intros d cd c Hfit Hcd Hwd Hc Hoff.
    destruct (night_phase_greedy _ _ _ _ _ _ _ _ _ _ _ Hphase Hfit Hcd Hwd)
      as [Hfull|Hall]; [by left|].
    right.
    destruct (night_phase_rows _ _ _ _ _ _ _ _ _ c d Hphase) as [cur Hcur];
      [by apply In_night_eligible_codes | lia |].
    destruct cur as [v|].
    + destruct (written_cell_start _ _ _ _ _ _ _ _ _ Hrun Hcur)
        as (d0 & i & Hin & Hi & -> & _).
      exists d0. split; [done|lia].
    + exfalso. apply (Hall c Hc); [|done].
      intros i Hi. destruct (Hoff i Hi) as (dt & Hdt & Hfalse).
      exists dt. split; [|done].
      by replace (Z.of_nat (d + i + 1)) with (Z.of_nat (d + i) + 1)%Z by lia.
Qed.
End Cap.

(** On Thursday 8 January 2026 six candidates are on the second, third
    or fourth day of a sequence; OMAR and NYAKUNGA start, and the counter
    ends the day at 2. *)
Lemma two_starts_per_day_witness :
  ∃ st st_d,
    engine_night_run 1 2026 = Some st
    ∧ engine_night_run_upto 1 2026 8 = Some st_d
    ∧ In (start_event 4 "MIK") (history st)
    ∧ In (start_event 5 "JISKAKA") (history st)
    ∧ In (start_event 6 "GOD") (history st)
    ∧ In (start_event 7 "OMAR") (history st)
    ∧ In (start_event 7 "NYAKUNGA") (history st)
    ∧ starts_on 7 (history st) = 2
    ∧ assigned_tonight st_d = starts_on 7 (history st).
Proof.
  pose proof (two_starts_per_day STAFF_DB LEAVE_2026 fromisoformat_ymd 1 2026 _
                ltac:(vm_compute; reflexivity))
    as (_ & _ & _ & _ & _ & Hcounter & _).
  destruct (Hcounter 7 (Date 2026 1 8) ltac:(vm_compute; lia)
              ltac:(vm_compute; reflexivity) ltac:(vm_compute; discriminate))
    as (st_d & Hupto & Hcount).
  eexists. exists st_d. split; [vm_compute; reflexivity|].
  split; [exact Hupto|].
  do 5 (split; [vm_compute; auto 40|]).
  split; [vm_compute; reflexivity | exact Hcount].
Defined.

Section NightCoverage.
Variable staff_db : list Staff.
Variable leave_records : list LeaveEntry.
Variable fromisoformat : string → option date.

Local Abbreviation staff := (staff_of staff_db).
Local Abbreviation is_on_leave := (is_on_leave leave_records fromisoformat).
Local Abbreviation night_run := (night_run staff leave_records fromisoformat).

(** X3. The night phase takes whoever it can: on a day that is no Sunday
    and has three days of the month after it, two sequences start, or
    else every night candidate without leave on that day and the three
    days after it is in a sequence on that day. *)
Theorem nights_are_staffed_when_possible mo yr st days d cd c :
  night_run mo yr = Some st → get_days_in_month yr mo = Some days →
  d + 3 < Z.to_nat days →
  mk_date yr mo (Z.of_nat d + 1) = Some cd → weekday cd ≠ 6%Z →
  In c (night_eligible_codes staff) →
  (∀ i, i < 4 →
     ∃ dt, mk_date yr mo (Z.of_nat (d + i) + 1) = Some dt
           ∧ is_on_leave c dt = Some false) →
  starts_on d (history st) = 2
  ∨ ∃ d0, In (start_event d0 c) (history st) ∧ d0 ≤ d < d0 + 4.
Proof.
  intros Hrun Hdays Hfit Hcd Hwd Hc Hoff.
  pose proof Hrun as Hphase. unfold night_run in Hphase.
  rewrite Hdays in Hphase. cbn [mbind option_bind] in Hphase.
  cbv zeta in Hphase.
  destruct (night_phase_greedy _ _ _ _ _ _ _ _ _ _ _ Hphase Hfit Hcd Hwd)
    as [Hfull|Hall]; [by left|].
  right.
  destruct (night_phase_rows _ _ _ _ _ _ _ _ _ c d Hphase) as [cur Hcur];
    [by apply In_night_eligible_codes | lia |].
  destruct cur as [v|].
  - destruct (written_cell_start _ _ _ _ _ _ _ _ _ Hrun Hcur)
      as (d0 & i & Hin & Hi & -> & _).
    exists d0. split; [done|lia].
  - exfalso. apply (Hall c Hc); [|done].
    intros i Hi. destruct (Hoff i Hi) as (dt & Hdt & Hfalse).
    exists dt. split; [|done].
    by replace (Z.of_nat (d + i + 1)) with (Z.of_nat (d + i) + 1)%Z by lia.
Qed.
End NightCoverage.

(** ** Months [generate] can be called on *)

Lemma month_ok_spec yr mo :
  month_ok yr mo = true
  ↔ (1 <= mo <= 12)%Z ∧ (1 <= yr <= 9999)%Z ∧ (yr, mo) ≠ (9999, 12)%Z.
Proof.
  unfold month_ok.
  rewrite !andb_true_iff, negb_true_iff, andb_false_iff, !Z.leb_le,
    !Z.eqb_neq.
  split.
  - intros ((((? & ?) & ?) & ?) & Hlast). split; [lia|]. split; [lia|].
    intros [= -> ->]. destruct Hlast; done.
  - intros (? & ? & Hlast). repeat split; try lia.
    destruct (decide (yr = 9999%Z)) as [->|]; [|by left].
    right. intros ->. done.
Qed.

Lemma get_days_in_month_ok yr mo days :
  get_days_in_month yr mo = Some days → month_ok yr mo = true.
Proof.
  unfold get_days_in_month. intros H.
  bind_inv H next_month Hnext. bind_inv H day1 Hday1.
  apply mk_date_Some in Hday1 as (_ & Hy & Hm & _).
  apply month_ok_spec. split; [done|]. split; [done|].
  intros [= -> ->]. simpl in Hnext.
  apply mk_date_Some in Hnext as (_ & ? & _). lia.
Qed.

(** X11. [get_days_in_month] gives the days of the calendar month and
    raises exactly outside the months 1 to 12 of the years 1 to 9999 and
    on December 9999, whose next month [date] cannot build. *)
Theorem get_days_in_month_raises_exactly yr mo :
  get_days_in_month yr mo
  = if month_ok yr mo then Some (days_in_month yr mo) else None.
Proof.
  destruct (month_ok yr mo) eqn:E.
  - apply month_ok_spec in E as (? & ? & ?).
    by apply get_days_in_month_defined.
  - destruct (get_days_in_month yr mo) as [days|] eqn:H; [|done].
    apply get_days_in_month_ok in H. congruence.
Qed.

(** X12. With a leave table whose dates parse, [generate] returns a roster
    on exactly the months [get_days_in_month] answers on, and raises on
    every other month and year. *)
Theorem generate_raises_exactly staff_db leave_records fromisoformat mo yr :
  leave_table_parses leave_records fromisoformat →
  is_Some (generate (staff_of staff_db) leave_records fromisoformat mo yr)
  ↔ month_ok yr mo = true.
Proof.
  intros Hparse. split.
  - intros [r Hgen].
    destruct (generate_inv _ _ _ _ _ _ Hgen) as (days & _ & Hdays & _).
    by apply get_days_in_month_ok in Hdays.
  - intros Hok. apply month_ok_spec in Hok as (? & ? & ?).
    by apply generate_defined.
Qed.

(** ** The staff dictionary *)

Lemma fold_set_get_other {V} (l : list (string * V)) d k :
  ¬ In k (map fst l) →
  Dict.get k (fold_left (λ d kv, Dict.set (fst kv) (snd kv) d) l d)
  = Dict.get k d.
Proof.
  revert d. induction l as [|[k0 v0] l IH]; intros d Hk; [done|].
  simpl in *. rewrite IH by tauto. apply get_set_ne. tauto.
Qed.

Lemma dict_of_last {V} (l1 l2 : list (string * V)) k v :
  ¬ In k (map fst l2) → Dict.get k (dict_of (l1 ++ (k, v) :: l2)) = Some v.
Proof.
  intros Hk. unfold dict_of. rewrite fold_left_app. simpl.
  rewrite fold_set_get_other by done. apply get_set_eq.
Qed.

(** X13. [self.staff] has one entry for every code of the table: the last
    entry of the table with that code, at the place of the first. *)
Theorem staff_of_last_wins db1 s db2 :
  (∀ s', In s' db2 → code s' ≠ code s) →
  Dict.get (code s) (staff_of (db1 ++ s :: db2)) = Some s
  ∧ NoDup (Dict.keys (staff_of (db1 ++ s :: db2)))
  ∧ ∀ c, In c (Dict.keys (staff_of (db1 ++ s :: db2)))
         ↔ In c (map code (db1 ++ s :: db2)).
Proof.
  intros Hlast. split; [|split].
  - unfold staff_of. rewrite map_app. simpl. apply dict_of_last.
    rewrite map_map. simpl. intros Hin.
    apply in_map_iff in Hin as (s' & Hc & Hin). by apply (Hlast s').
  - apply staff_of_nodup.
  - intros c. unfold staff_of. rewrite dict_of_In_keys, map_map. done.
Qed.

(** ** The order of the leave table *)

(** X14. The order of the entries of the leave table does not matter to
    the leave resolver, as long as the dates of the person's entries
    parse. *)
Theorem is_on_leave_ignores_order leave_records leave_records'
  fromisoformat staff_code d :
  leave_records ≡ₚ leave_records' →
  (∀ entry, In entry leave_records → leave_code entry = staff_code →
     is_Some (fromisoformat (leave_start entry))
     ∧ is_Some (fromisoformat (leave_end entry))) →
  is_on_leave leave_records fromisoformat staff_code d
  = is_on_leave leave_records' fromisoformat staff_code d.
Proof.
  intros Hperm Hparse. unfold is_on_leave.
  assert (∀ l l', l ≡ₚ l' →
            leave_scan fromisoformat l staff_code d = Some true →
            leave_scan fromisoformat l' staff_code d ≠ Some false) as Hmove.
  { intros l l' Hp Ht Hf. apply leave_scan_true in Ht as (a & b & Hper & Hcov).
    apply (leave_scan_false _ _ _ _ a b Hf); [|done].
    destruct Hper as (e & Hin & ?). exists e. split; [|done].
    by apply (Permutation_in _ Hp). }
  destruct (leave_scan_defined fromisoformat leave_records staff_code d Hparse)
    as [b Hb].
  destruct (leave_scan_defined fromisoformat leave_records' staff_code d)
    as [b' Hb'].
  { intros e He. apply Hparse. by apply (Permutation_in _ (Permutation_sym Hperm)). }
  rewrite Hb, Hb'. f_equal.
  destruct b, b'; try done.
  - exfalso. by apply (Hmove _ _ Hperm Hb).
  - exfalso. by apply (Hmove _ _ (Permutation_sym Hperm) Hb').
Qed.

(** ** Dates as text *)

Lemma digit_value_digit n : digit_value (digit n) = Some (n mod 10)%Z.
Proof.
  unfold digit. pose proof (Z.mod_pos_bound n 10 ltac:(lia)) as Hk.
  generalize dependent (n mod 10)%Z. intros k Hk.
  assert (k = 0 ∨ k = 1 ∨ k = 2 ∨ k = 3 ∨ k = 4 ∨ k = 5 ∨ k = 6 ∨ k = 7
          ∨ k = 8 ∨ k = 9)%Z as Hcases by lia.
  repeat (destruct Hcases as [->|Hcases]; [reflexivity|]).
  subst. reflexivity.
Qed.

Lemma four_digits y :
  (0 <= y <= 9999)%Z →
  ((y / 1000) mod 10 * 1000 + (y / 100) mod 10 * 100 + (y / 10) mod 10 * 10
   + y mod 10 = y)%Z.
Proof. intros H. Z.div_mod_to_equations. lia. Qed.

Lemma two_digits m :
  (0 <= m <= 99)%Z → ((m / 10) mod 10 * 10 + m mod 10 = m)%Z.
Proof. intros H. Z.div_mod_to_equations. lia. Qed.

(** The ISO text of a date [date] can build reads back as that date. *)
Lemma fromisoformat_isoformat y m d dt :
  mk_date y m d = Some dt → fromisoformat_ymd (isoformat dt) = Some dt.
Proof.
  intros H. pose proof H as Hmk.
  apply mk_date_Some in H as (-> & Hy & Hm & Hd).
  pose proof (days_in_month_range y m Hm).
  unfold isoformat, fromisoformat_ymd. cbn [year month day].
  rewrite !digit_value_digit. cbn [mbind option_bind].
  rewrite four_digits, !two_digits by lia. done.
Qed.

Lemma weekday_range d : (0 <= weekday d < 7)%Z.
Proof. unfold weekday. apply Z.mod_pos_bound. lia. Qed.

Section Rows.
Variable staff_db : list Staff.
Variable leave_records : list LeaveEntry.
Variable fromisoformat : string → option date.

Local Abbreviation staff := (staff_of staff_db).
Local Abbreviation generate := (generate staff leave_records fromisoformat).

(** X10. Row [d] of a generated roster is the row of day [d + 1] of the
    month: its date text reads back as that date, its day number is
    [d + 1], its day name is that of the date, and it is a Sunday, a
    Saturday or a weekend row exactly when the day name says so. *)
Theorem roster_rows_are_dated mo yr r d entry :
  generate mo yr = Some r →
  roster r !! d = Some entry →
  ∃ cd, mk_date yr mo (Z.of_nat d + 1) = Some cd
        ∧ fromisoformat_ymd (entry_date entry) = Some cd
        ∧ day_number entry = d + 1
        ∧ day_name entry = day_name_of cd
        ∧ (is_sunday entry = true ↔ day_name entry = "Sunday")
        ∧ (is_saturday entry = true ↔ day_name entry = "Saturday")
        ∧ is_weekend entry = is_saturday entry || is_sunday entry.
Proof.
  intros Hgen Hrow.
  destruct (generate_inv _ _ _ _ _ _ Hgen) as (days & st & _ & _ & Hfill & _).
  apply fill_phase_spec in Hfill as [_ Hrows].
  destruct (Hrows d entry Hrow) as [_ Hday].
  unfold fill_day in Hday. bind_inv Hday cd Hcd. bind_inv Hday a Ha.
  injection Hday as <-. exists cd. cbn.
  split; [done|]. split; [by eapply fromisoformat_isoformat|].
  split; [done|]. split; [done|].
  pose proof (weekday_range cd) as Hw. unfold day_name_of.
  assert (weekday cd = 0 ∨ weekday cd = 1 ∨ weekday cd = 2 ∨ weekday cd = 3
          ∨ weekday cd = 4 ∨ weekday cd = 5 ∨ weekday cd = 6)%Z
    as Hcases by lia.
  repeat (destruct Hcases as [->|Hcases]; [by repeat split|]).
  rewrite Hcases. by repeat split.
Qed.
End Rows.

(** ** What the rule checker reports *)

Lemma shift_at_duty r j s x : shift_at r j s = Some x → duty_at r j s = x.
Proof.
  unfold shift_at, duty_at. intros H. bind_inv H row Hrow.
  bind_inv H a Ha. injection H as <-. rewrite Hrow. cbn [mbind option_bind].
  by rewrite Ha.
Qed.

Lemma shift_at_None r j s :
  j < length r → shift_at r j s = None ↔ lacks_assignments r j = true.
Proof.
  intros Hj. unfold shift_at, lacks_assignments.
  destruct (lookup_lt_is_Some_2 r j Hj) as [row ->]. cbn [mbind option_bind].
  destruct (row_assignments row) as [a|]; cbn [mbind option_bind].
  - split; [discriminate|]. rewrite bool_decide_eq_true_2; [discriminate|by eexists].
  - split; [|done]. intros _. rewrite bool_decide_eq_false_2; [done|]. by intros [? [=]].
Qed.

Lemma check_cell_report r i day found cs :
  check_cell r i day found cs
  = adds ← cell_report r i day cs; Some (found ++ adds)%list.
Proof.
  assert (Some found = adds ← Some ([] : list Violation);
                       Some (found ++ adds)%list) as Hnil
    by (cbn [mbind option_bind]; by rewrite app_nil_r).
  unfold check_cell, cell_report.
  destruct (String.eqb (snd cs) "N"); [|done].
  unfold cell_raises, breaks_pattern.
  destruct (i + 3 <? length r) eqn:Hlen; [|done].
  apply Nat.ltb_lt in Hlen. cbn [andb].
  destruct (shift_at r (i + 1) cs.1) as [n1|] eqn:E1.
  2:{ apply shift_at_None in E1; [|lia]. by rewrite E1. }
  destruct (shift_at r (i + 2) cs.1) as [n2|] eqn:E2.
  2:{ apply shift_at_None in E2; [|lia]. rewrite E2.
      by rewrite !orb_true_r. }
  destruct (shift_at r (i + 3) cs.1) as [n3|] eqn:E3.
  2:{ apply shift_at_None in E3; [|lia]. rewrite E3.
      by rewrite !orb_true_r. }
  assert (∀ j x, j < length r → shift_at r j cs.1 = Some x →
            lacks_assignments r j = false) as Hhas.
  { intros j x Hj Hx. destruct (lacks_assignments r j) eqn:E; [|done].
    apply (shift_at_None r j cs.1 Hj) in E. congruence. }
  rewrite (Hhas (i + 1) _ ltac:(lia) E1), (Hhas (i + 2) _ ltac:(lia) E2),
    (Hhas (i + 3) _ ltac:(lia) E3).
  unfold actual_after.
  rewrite (shift_at_duty _ _ _ _ E1), (shift_at_duty _ _ _ _ E2),
    (shift_at_duty _ _ _ _ E3).
  cbn [mbind option_bind orb].
  destruct (negb (_ && _ && _)); cbn [andb]; [|done].
  destruct (negb (is_str n1 "A")); cbn [andb]; [|done].
  destruct (row_date day) as [d|].
  - rewrite bool_decide_eq_true_2 by (by eexists). done.
  - rewrite bool_decide_eq_false_2 by (by intros [? [=]]). done.
Qed.

Lemma for_each_collect {A B} (body : list B → A → option (list B))
  (g : A → option (list B)) l found :
  (∀ found x, body found x = adds ← g x; Some (found ++ adds)%list) →
  for_each body l found
  = adds ← mapM g l; Some (found ++ concat adds)%list.
Proof.
  intros Hbody. revert found.
  induction l as [|x l IH]; intros found; simpl; [by rewrite app_nil_r|].
  rewrite Hbody. destruct (g x) as [a|]; [|done]. cbn [mbind option_bind].
  rewrite IH. destruct (mapM g l) as [adds|]; [|done]. simpl.
  by rewrite <- app_assoc.
Qed.

Lemma validate_roster_report r rules :
  validate_roster r rules
  = found ← (if str_in "night_pattern" rules then night_report r else Some []);
    Some {| valid := length found =? 0; violations := found;
            checks_performed := rules |}.
Proof.
  unfold validate_roster. destruct (str_in "night_pattern" rules); [|done].
  rewrite (for_each_collect _ (row_report r)); [done|].
  intros found [i day]. cbn [fst snd]. unfold row_report. cbn [fst snd].
  rewrite (for_each_collect _ (cell_report r i day)).
  - by destruct (mapM _ _).
  - intros. apply check_cell_report.
Qed.

Lemma mapM_None_iff {A B} (f : A → option B) l :
  mapM f l = None ↔ ∃ x, In x l ∧ f x = None.
Proof.
  induction l as [|x l IH]; simpl.
  - split; [discriminate | intros (? & [] & _)].
  - destruct (f x) as [y|] eqn:E; cbn [mbind option_bind].
    + destruct (mapM f l) as [k|]; cbn [mbind option_bind mret option_ret].
      * split; [discriminate|]. intros (z & [<-|Hz] & Hn); [congruence|].
        assert (Some k = None) as [=]. apply IH. eauto.
      * split; [|done]. intros _.
        destruct (proj1 IH eq_refl) as (z & Hz & Hn). eauto.
    + split; [|done]. intros _. exists x. auto.
Qed.

Lemma mapM_concat_In {A B} (g : A → option (list B)) l adds x :
  mapM g l = Some adds →
  In x (concat adds) ↔ ∃ a ys, In a l ∧ g a = Some ys ∧ In x ys.
Proof.
  revert adds. induction l as [|a l IH]; intros adds H; simpl in H.
  - injection H as <-. split; [intros [] | intros (? & ? & [] & _)].
  - bind_inv H ys Hys. bind_inv H rest Hrest. injection H as <-.
    simpl. rewrite in_app_iff, (IH _ Hrest). split.
    + intros [Hx|(b & zs & Hb & Hzs & Hx)].
      * exists a, ys. auto.
      * exists b, zs. auto.
    + intros (b & zs & [<-|Hb] & Hzs & Hx).
      * left. congruence.
      * right. eauto.
Qed.

Lemma lacks_assignments_spec r j :
  lacks_assignments r j = true
  ↔ ∃ row, r !! j = Some row ∧ row_assignments row = None.
Proof.
  unfold lacks_assignments. destruct (r !! j) as [row|].
  - destruct (row_assignments row) as [a|] eqn:E.
    + rewrite bool_decide_eq_true_2 by (by eexists). simpl.
      split; [discriminate|]. intros (? & [= <-] & ?). congruence.
    + rewrite bool_decide_eq_false_2 by (by intros [? [=]]). simpl.
      split; [eauto|done].
  - split; [discriminate | by intros (? & [=] & _)].
Qed.

Lemma is_str_spec (o : option string) x : is_str o x = true ↔ o = Some x.
Proof.
  unfold is_str. destruct o as [y|]; [|done].
  rewrite String.eqb_eq. split; congruence.
Qed.

Lemma breaks_pattern_spec r i s :
  breaks_pattern r i s = true
  ↔ i + 3 < length r
    ∧ ¬ (duty_at r (i + 1) s = Some "N" ∧ duty_at r (i + 2) s = Some "SD"
         ∧ duty_at r (i + 3) s = Some "DO")
    ∧ duty_at r (i + 1) s ≠ Some "A".
Proof.
  unfold breaks_pattern.
  rewrite !andb_true_iff, !negb_true_iff, Nat.ltb_lt.
  rewrite <- !not_true_iff_false, !andb_true_iff, !is_str_spec. tauto.
Qed.

Lemma cell_raises_spec r i day s :
  cell_raises r i day s = true
  ↔ i + 3 < length r
    ∧ ((∃ j row, i < j ≤ i + 3 ∧ r !! j = Some row
                 ∧ row_assignments row = None)
       ∨ (breaks_pattern r i s = true ∧ row_date day = None)).
Proof.
  unfold cell_raises.
  rewrite andb_true_iff, !orb_true_iff, andb_true_iff, Nat.ltb_lt,
    !lacks_assignments_spec, negb_true_iff.
  assert (bool_decide (is_Some (row_date day)) = false ↔ row_date day = None)
    as ->.
  { destruct (row_date day).
    - rewrite bool_decide_eq_true_2 by (by eexists). done.
    - rewrite bool_decide_eq_false_2 by (by intros [? [=]]). done. }
  split.
  - intros [Hlen [[[H | H] | H] | H]]; (split; [done|]); [..|by right];
      destruct H as (row & ? & ?); left; eexists _, row; (split; [|done]); lia.
  - intros [Hlen [(j & row & Hj & Hrow & Ha)|?]]; (split; [done|]); [|by right].
    left. assert (j = i + 1 ∨ j = i + 2 ∨ j = i + 3) as [-> | [-> | ->]] by lia;
      eauto.
Qed.

Lemma In_enumerate_inv {A} (l : list A) a i x :
  In (i, x) (combine (seq a (length l)) l) → ∃ k, i = a + k ∧ l !! k = Some x.
Proof.
  revert a. induction l as [|y l IH]; intros a; simpl; [done|].
  intros [[= <- <-]|Hin].
  - exists 0. split; [lia|done].
  - destruct (IH (S a) Hin) as (k & -> & Hk). exists (S k). split; [lia|done].
Qed.

Lemma night_report_None r :
  night_report r = None
  ↔ ∃ i row s, r !! i = Some row ∧ In (s, "N") (assignments_of row)
               ∧ cell_raises r i row s = true.
Proof.
  unfold night_report.
  destruct (mapM (row_report r) _) as [adds|] eqn:E;
    cbn [mbind option_bind].
  - split; [discriminate|]. intros (i & row & s & Hrow & Hcell & Hraise).
    exfalso.
    assert (mapM (row_report r) (combine (seq 0 (length r)) r) = None)
      as Hnone; [|congruence].
    apply mapM_None_iff. exists (i, row).
    split; [apply (In_enumerate r 0 i row Hrow)|].
    unfold row_report. cbn [fst snd].
    assert (mapM (cell_report r i row) (assignments_of row) = None) as ->;
      [|done].
    apply mapM_None_iff. exists (s, "N"). split; [done|].
    unfold cell_report. cbn [fst snd]. by rewrite Hraise.
  - split; [intros _|done]. apply mapM_None_iff in E as ([i row] & Hin & Hnone).
    apply In_enumerate_inv in Hin as (k & -> & Hk). simpl in Hnone.
    unfold row_report in Hnone. cbn [fst snd] in Hnone.
    destruct (mapM (cell_report r k row) (assignments_of row)) eqn:E2;
      [discriminate|].
    apply mapM_None_iff in E2 as ([s v] & Hcell & Hraise).
    unfold cell_report in Hraise. cbn [fst snd] in Hraise.
    destruct (String.eqb v "N") eqn:EN; [|discriminate].
    apply String.eqb_eq in EN. subst v.
    destruct (cell_raises r k row s) eqn:ER.
    + by exists k, row, s.
    + by destruct (breaks_pattern r k s).
Qed.

Lemma In_night_report r found viol :
  night_report r = Some found →
  In viol found
  ↔ ∃ i row s d,
      r !! i = Some row ∧ In (s, "N") (assignments_of row)
      ∧ breaks_pattern r i s = true ∧ row_date row = Some d
      ∧ viol = night_violation s d (actual_after r i s).
Proof.
  intros Hrep.
  assert (∀ i row s, r !! i = Some row → In (s, "N") (assignments_of row) →
            cell_raises r i row s = false) as Hok.
  { intros i row s Hrow Hcell. destruct (cell_raises r i row s) eqn:E; [|done].
    assert (night_report r = None) as Hnone; [|congruence].
    apply night_report_None. by exists i, row, s. }
  unfold night_report in Hrep. bind_inv Hrep adds Hadds. injection Hrep as <-.
  rewrite (mapM_concat_In _ _ _ _ Hadds). split.
  - intros ([i row] & ys & Hin & Hys & Hviol).
    apply In_enumerate_inv in Hin as (k & -> & Hk). simpl in Hys.
    unfold row_report in Hys. cbn [fst snd] in Hys.
    bind_inv Hys adds2 Hadds2. injection Hys as <-.
    apply (mapM_concat_In _ _ _ _ Hadds2) in Hviol
      as ([s v] & zs & Hcell & Hzs & Hviol).
    unfold cell_report in Hzs. cbn [fst snd] in Hzs.
    destruct (String.eqb v "N") eqn:EN;
      [|injection Hzs as <-; destruct Hviol].
    apply String.eqb_eq in EN. subst v.
    destruct (cell_raises r k row s) eqn:ER; [discriminate|].
    destruct (breaks_pattern r k s) eqn:EB;
      [|injection Hzs as <-; destruct Hviol].
    injection Hzs as <-. destruct Hviol as [<-|[]].
    unfold cell_raises in ER. rewrite EB in ER.
    destruct (row_date row) as [d|] eqn:Ed.
    + exists k, row, s, d. done.
    + exfalso. apply breaks_pattern_spec in EB as [Hlen _].
      apply Nat.ltb_lt in Hlen. rewrite Hlen in ER.
      rewrite bool_decide_eq_false_2 in ER by (by intros [? [=]]).
      cbn [negb andb] in ER. by rewrite orb_true_r in ER.
  - intros (i & row & s & d & Hrow & Hcell & Hb & Hd & ->).
    pose proof (In_enumerate r 0 i row Hrow) as Hin. cbn [Nat.add] in Hin.
    destruct (row_report r (i, row)) as [ys|] eqn:Hys.
    2:{ exfalso. assert (mapM (row_report r) (combine (seq 0 (length r)) r)
                         = None) as Hnone; [|congruence].
        apply mapM_None_iff. eauto. }
    exists (i, row), ys. split; [done|]. split; [done|].
    unfold row_report in Hys. cbn [fst snd] in Hys.
    bind_inv Hys adds2 Hadds2. injection Hys as <-.
    apply (mapM_concat_In _ _ _ _ Hadds2).
    exists (s, "N"). eexists. split; [done|].
    unfold cell_report. cbn [fst snd].
    rewrite (Hok i row s Hrow Hcell), Hb, Hd.
    split; [reflexivity|]. by left.
Qed.


Lemma night_report_keys r :
  (∀ row, In row r → is_Some (row_date row) ∧ is_Some (row_assignments row)) →
  is_Some (night_report r).
Proof.
  intros Hkeys. destruct (night_report r) eqn:E; [by eexists|]. exfalso.
  apply night_report_None in E as (i & row & s & Hrow & Hcell & Hraise).
  apply cell_raises_spec in Hraise
    as [Hlen [(j & row' & Hj & Hrow' & Ha) | [_ Hd]]].
  - apply list_elem_of_lookup_2, list_elem_of_In in Hrow'.
    destruct (Hkeys _ Hrow') as [_ [a Hsome]]. congruence.
  - apply list_elem_of_lookup_2, list_elem_of_In in Hrow.
    destruct (Hkeys _ Hrow) as [[d Hsome] _]. congruence.
Qed.

Lemma json_rows_keys r row :
  In row (json_rows r) →
  is_Some (row_date row) ∧ is_Some (row_assignments row).
Proof.
  unfold json_rows. intros (e & <- & _)%in_map_iff. by split; eexists.
Qed.

Lemma duty_at_json r j s : duty_at (json_rows r) j s = assignment r j s.
Proof.
  unfold duty_at, assignment, json_rows. rewrite list_lookup_fmap.
  by destruct (r !! j).
Qed.

Lemma second_night_is_flagged r rules i s e1 v :
  In "night_pattern" rules →
  r !! (i + 1) = Some e1 → In (s, "N") (assignments_of e1) →
  shift_at r (i + 2) s = Some (Some "SD") →
  shift_at r (i + 3) s = Some (Some "DO") →
  i + 4 < length r →
  validate_roster r rules = Some v →
  valid v = false
  ∧ ∃ d next3,
      row_date e1 = Some d
      ∧ In (night_violation s d ("SD,DO," +:+ show_shift next3))
           (violations v).
Proof.
  intros Hrule Hrow Hcell H2 H3 Hlen. rewrite validate_roster_report.
  apply str_in_In in Hrule. rewrite Hrule. intros H.
  bind_inv H found Hfound. injection H as <-. simpl.
  apply shift_at_duty in H2, H3.
  assert (breaks_pattern r (i + 1) s = true) as Hb.
  { apply breaks_pattern_spec. split; [lia|].
    replace (i + 1 + 1) with (i + 2) by lia. rewrite H2.
    split; [intros [[=] _] | discriminate]. }
  destruct (row_date e1) as [d|] eqn:Hd.
  - assert (In (night_violation s d (actual_after r (i + 1) s)) found) as Hin.
    { apply (In_night_report _ _ _ Hfound). by exists (i + 1), e1, s, d. }
    split; [by destruct found|].
    exists d, (duty_at r (i + 4) s). split; [done|].
    unfold actual_after in Hin.
    replace (i + 1 + 1) with (i + 2) in Hin by lia.
    replace (i + 1 + 2) with (i + 3) in Hin by lia.
    replace (i + 1 + 3) with (i + 4) in Hin by lia.
    by rewrite H2, H3 in Hin.
  - exfalso. assert (night_report r = None) as Hnone; [|congruence].
    apply night_report_None. exists (i + 1), e1, s.
    split; [done|]. split; [done|]. apply cell_raises_spec.
    split; [lia|]. by right.
Qed.

Section Checked.
Variable staff_db : list Staff.
Variable leave_records : list LeaveEntry.
Variable fromisoformat : string → option date.

Local Abbreviation staff := (staff_of staff_db).
Local Abbreviation generate := (generate staff leave_records fromisoformat).

(** X16. The checker rejects what the generator builds: a generated roster
    that gives someone a night with at least four rows after it is not
    valid under the rule [night_pattern]. *)
Theorem generated_nights_fail_validation mo yr r d s rules :
  generate mo yr = Some r →
  assignment (roster r) d s = Some "N" →
  d + 4 < length (roster r) →
  In "night_pattern" rules →
  ∃ v, validate_roster (json_rows (roster r)) rules = Some v
       ∧ valid v = false.
Proof.
  intros Hgen Ha Hlen Hrule.
  destruct (generate_inv _ _ _ _ _ _ Hgen) as (days & st & Hdays & Hrun & _).
  unfold assignment in Ha. destruct (roster r !! d) as [entry|] eqn:Hrow;
    [|discriminate]. simpl in Ha.
  pose proof (schedule_cell_of_roster _ _ _ _ _ _ _ _ _ _ _
                Hgen Hrun Hrow Ha (or_introl eq_refl)) as Hcell.
  destruct (written_cell_start _ _ _ _ _ _ _ _ _ Hrun Hcell)
    as (d0 & i & Hin & Hi & -> & Hpat).
  destruct (start_in_roster _ _ _ _ _ _ _ _ _ _ Hgen Hrun Hdays Hin)
    as (_ & _ & _ & Hrows).
  pose proof (proj2 (Hrows 1 ltac:(lia))) as H1.
  pose proof (proj2 (Hrows 2 ltac:(lia))) as H2.
  pose proof (proj2 (Hrows 3 ltac:(lia))) as H3.
  simpl in H1, H2, H3.
  rewrite validate_roster_report. apply str_in_In in Hrule. rewrite Hrule.
  destruct (night_report_keys (json_rows (roster r)) (json_rows_keys _))
    as [found Hfound].
  rewrite Hfound. cbn [mbind option_bind]. eexists. split; [done|].
  cbn [valid].
  assert (∃ viol, In viol found) as [viol Hviol].
  { unfold assignment in H1.
    destruct (roster r !! (d0 + 1)) as [e1|] eqn:Hrow1; [|discriminate].
    simpl in H1. eexists. apply (In_night_report _ _ _ Hfound).
    exists (d0 + 1), (json_row e1), s, (entry_date e1).
    split; [unfold json_rows; by rewrite list_lookup_fmap, Hrow1|].
    split; [by apply get_Some_In|]. split; [|done].
    apply breaks_pattern_spec. unfold json_rows. rewrite length_map.
    split; [lia|]. fold (json_rows (roster r)). rewrite !duty_at_json.
    replace (d0 + 1 + 1) with (d0 + 2) by lia. rewrite H2.
    split; [intros [[=] _] | discriminate]. }
  destruct found; [destruct Hviol | done].
Qed.
End Checked.

(** ** The API *)

(** X19. Without a configured key, or with an empty one, every request
    passes the key check, also one without the header; with a key set, a
    request passes exactly when its header is that key, and any other is
    refused with status 401. *)
Theorem verify_api_key_spec API_KEY x_api_key :
  (verify_api_key API_KEY x_api_key = inr true
   ↔ API_KEY = None ∨ API_KEY = Some "" ∨ x_api_key = API_KEY)
  ∧ (verify_api_key API_KEY x_api_key = inr true
     ∨ verify_api_key API_KEY x_api_key
       = inl {| status_code := 401; detail := "Invalid API key" |}).
Proof.
  unfold verify_api_key.
  assert (opt_eqb x_api_key API_KEY = true ↔ x_api_key = API_KEY) as Heq.
  { destruct x_api_key as [x|], API_KEY as [k|]; simpl; try done.
    rewrite String.eqb_eq. split; congruence. }
  destruct API_KEY as [[|a k]|]; simpl.
  - split; [|by left]. split; auto.
  - destruct (opt_eqb x_api_key (Some (String a k))) eqn:E; simpl.
    + split; [|by left]. split; [|done]. intros _. right. right. by apply Heq.
    + split; [|by right]. split; [discriminate|].
      intros [?|[?|Hk]]; [done..|]. apply Heq in Hk. congruence.
  - split; [|by left]. split; auto.
Qed.

(** X20. The year filter of [/leave] cannot be used: with any year other
    than 0 the comparison of the number with a date text raises on the
    first entry of the table, so only an empty table is answered; without
    a year, or with the year 0, the whole table is returned with its
    length. *)
Theorem get_leave_schedule_year_raises table year :
  get_leave_schedule table year
  = match year with
    | Some y =>
        if (y =? 0)%Z
        then Some {| ls_total := length table; ls_leaves := table |}
        else match table with
             | [] => Some {| ls_total := 0; ls_leaves := [] |}
             | _ :: _ => None
             end
    | None => Some {| ls_total := length table; ls_leaves := table |}
    end.
Proof.
  unfold get_leave_schedule. destruct year as [y|]; [|done].
  destruct (y =? 0)%Z; [done|]. by destruct table.
Qed.

(** ** Sorting *)

Lemma insert_by_key_perm {A} (x : nat * A) l : insert_by_key x l ≡ₚ x :: l.
Proof.
  induction l as [|y l IH]; simpl; [done|].
  destruct (fst x <=? fst y); [done|]. rewrite IH. apply Permutation_swap.
Qed.

Lemma stable_sort_perm {A} (l : list (nat * A)) : stable_sort l ≡ₚ l.
Proof.
  unfold stable_sort. induction l as [|x l IH]; simpl; [done|].
  by rewrite insert_by_key_perm, IH.
Qed.

Lemma ascending_cons {A} (key : A → nat) x l :
  ascending key (x :: l)
  ↔ (∀ y, In y l → key x ≤ key y) ∧ ascending key l.
Proof.
  split.
  - intros H. split.
    + intros y Hy. apply list_elem_of_In, list_elem_of_lookup in Hy as [j Hj].
      apply (H 0 (S j)); [lia|done|done].
    + intros i j a b Hij Ha Hb. apply (H (S i) (S j)); [lia|done|done].
  - intros [Hx Hl] i j a b Hij Ha Hb.
    destruct j as [|j]; [lia|]. simpl in Hb.
    destruct i as [|i]; simpl in Ha.
    + injection Ha as <-. apply Hx.
      apply list_elem_of_In, list_elem_of_lookup. eauto.
    + apply (Hl i j); [lia|done|done].
Qed.

Lemma insert_by_key_ascending {A} (x : nat * A) l :
  ascending fst l → ascending fst (insert_by_key x l).
Proof.
  induction l as [|y l IH]; intros Hl; simpl.
  - apply ascending_cons. split; [intros ? []|]. intros i j a b _ Ha. done.
  - apply ascending_cons in Hl as [Hy Hl].
    destruct (fst x <=? fst y) eqn:E.
    + apply Nat.leb_le in E. apply ascending_cons. split.
      * intros z [<-|Hz]; [done|]. specialize (Hy z Hz). lia.
      * by apply ascending_cons.
    + apply Nat.leb_gt in E. apply ascending_cons. split; [|by apply IH].
      intros z Hz. apply In_insert_by_key in Hz as [->|Hz]; [lia|by apply Hy].
Qed.

Lemma stable_sort_ascending {A} (l : list (nat * A)) :
  ascending fst (stable_sort l).
Proof.
  unfold stable_sort. induction l as [|x l IH]; simpl.
  - intros i j a b _ Ha. done.
  - by apply insert_by_key_ascending.
Qed.

Lemma sorted_by_count_spec counts l l' :
  sorted_by_count counts l = Some l' →
  l' ≡ₚ l
  ∧ ∀ i j a b na nb,
      i < j → l' !! i = Some a → l' !! j = Some b →
      Dict.get a counts = Some na → Dict.get b counts = Some nb → na ≤ nb.
Proof.
  unfold sorted_by_count. intros H. bind_inv H keyed Hk. injection H as <-.
  apply mapM_Some_1 in Hk.
  assert (∀ nc, In nc keyed → Dict.get (snd nc) counts = Some (fst nc)) as Hkey.
  { intros nc Hin.
    apply list_elem_of_In, list_elem_of_lookup in Hin as [i Hi].
    destruct (Forall2_lookup_r _ _ _ _ _ Hk Hi) as (c & _ & Hget).
    bind_inv Hget m Hm. injection Hget as <-. done. }
  assert (map snd keyed = l) as Hsnd.
  { clear Hkey. induction Hk as [|c nc l keyed Hc _ IH]; [done|].
    bind_inv Hc m Hm. injection Hc as <-. simpl. by rewrite IH. }
  split.
  - rewrite <- Hsnd. apply Permutation_map, stable_sort_perm.
  - intros i j a b na nb Hij Ha Hb Hna Hnb.
    rewrite list_lookup_fmap in Ha, Hb.
    destruct (stable_sort keyed !! i) as [[ka a']|] eqn:Hi; [|done].
    destruct (stable_sort keyed !! j) as [[kb b']|] eqn:Hj; [|done].
    simpl in Ha, Hb. injection Ha as ->. injection Hb as ->.
    pose proof (stable_sort_ascending keyed i j _ _ Hij Hi Hj) as Hle.
    simpl in Hle.
    assert (In (ka, a) keyed) as Hina.
    { apply In_stable_sort, list_elem_of_In, list_elem_of_lookup. eauto. }
    assert (In (kb, b) keyed) as Hinb.
    { apply In_stable_sort, list_elem_of_In, list_elem_of_lookup. eauto. }
    apply Hkey in Hina, Hinb. simpl in Hina, Hinb. congruence.
Qed.

Lemma filter_split_perm {A} (f : A → bool) (l : list A) :
  (List.filter f l ++ List.filter (λ x, negb (f x)) l)%list ≡ₚ l.
Proof.
  induction l as [|x l IH]; simpl; [done|].
  destruct (f x); simpl.
  - by rewrite IH.
  - rewrite <- Permutation_middle. by rewrite IH.
Qed.

Lemma perm_In {A} (l k : list A) x : l ≡ₚ k → In x l ↔ In x k.
Proof.
  intros H. split; [by apply Permutation_in|].
  by apply Permutation_in, Permutation_sym.
Qed.

Lemma NoDup_night_eligible_codes staff :
  NoDup (Dict.keys staff) → NoDup (night_eligible_codes staff).
Proof. apply NoDup_keys_filter. Qed.

Section Candidates.
Variable staff_db : list Staff.

Local Abbreviation staff := (staff_of staff_db).
Local Abbreviation eligible := (night_eligible_codes staff).
Local Abbreviation predominant := (night_predominant_codes staff eligible).
Local Abbreviation prefers_nights := (prefers_nights staff).

Lemma In_predominant c :
  In c predominant ↔ In c eligible ∧ prefers_nights c = true.
Proof.
  unfold night_predominant_codes. rewrite filter_In, andb_true_iff, str_in_In.
  split; [tauto|]. intros [Hc Hp]. split; [|done].
  by apply In_night_eligible_codes.
Qed.

(** X5. The candidates of a day are the night candidates, each once: first
    those of the night and emergency profiles, then the others, and each
    of the two groups in ascending order of the nights counted so far. *)
Theorem candidates_are_tried_by_need st candidates :
  candidates_of eligible predominant st = Some candidates →
  candidates ≡ₚ eligible
  ∧ ∃ prio others,
      candidates = (prio ++ others)%list
      ∧ (∀ c, In c prio ↔ In c eligible ∧ prefers_nights c = true)
      ∧ (∀ c, In c others ↔ In c eligible ∧ prefers_nights c = false)
      ∧ ∀ group, group = prio ∨ group = others →
          ∀ i j a b na nb,
            i < j → group !! i = Some a → group !! j = Some b →
            Dict.get a (night_counts st) = Some na →
            Dict.get b (night_counts st) = Some nb → na ≤ nb.
Proof.
  unfold candidates_of. intros H. bind_inv H prio Hprio.
  bind_inv H others Hothers. injection H as <-.
  apply sorted_by_count_spec in Hprio as [Hp1 Hp2].
  apply sorted_by_count_spec in Hothers as [Ho1 Ho2].
  assert (List.filter (λ c, str_in c eligible) predominant
          ≡ₚ List.filter (λ c, str_in c predominant) eligible) as Hsame.
  { apply NoDup_Permutation.
    - apply NoDup_List_filter. unfold night_predominant_codes.
      apply NoDup_List_filter, staff_of_nodup.
    - apply NoDup_List_filter, NoDup_night_eligible_codes, staff_of_nodup.
    - intros c. rewrite !list_elem_of_In, !filter_In, !str_in_In. tauto. }
  split.
  - rewrite Hp1, Ho1, Hsame. apply filter_split_perm.
  - exists prio, others. split; [done|]. split; [|split].
    + intros c. rewrite (perm_In _ _ c Hp1).
      rewrite filter_In, str_in_In, In_predominant. tauto.
    + intros c. rewrite (perm_In _ _ c Ho1).
      rewrite filter_In, negb_true_iff. split.
      * intros [Hc Hn]. split; [done|].
        destruct (prefers_nights c) eqn:E; [|done].
        assert (str_in c predominant = true); [|congruence].
        by apply str_in_In, In_predominant.
      * intros [Hc Hn]. split; [done|].
        destruct (str_in c predominant) eqn:E; [|done].
        apply str_in_In, In_predominant in E as [_ E]. congruence.
    + intros group [-> | ->]; eauto.
Qed.
End Candidates.

(** ** Requests *)

(** X17. Every request that passes the bounds of [RosterRequest] gets a
    roster from the engine of the module: [generate] does not raise on it,
    the roster is that of the requested month with its 33 staff, and the
    total of the assignments is 33 times the days of the month. *)
Theorem valid_requests_get_a_roster q :
  request_ok q = true →
  ∃ r, engine_generate (req_month q) (req_year q) = Some r
       ∧ res_month r = req_month q ∧ res_year r = req_year q
       ∧ total_days r = days_in_month (req_year q) (req_month q)
       ∧ Z.of_nat (length (roster r)) = total_days r
       ∧ total_staff r = 33
       ∧ Z.of_nat (total_assignments r) = (33 * total_days r)%Z.
Proof.
  unfold request_ok. rewrite !andb_true_iff, !Z.leb_le.
  intros (((Hm1 & Hm2) & Hy1) & Hy2).
  destruct (engine_generate_defined (req_month q) (req_year q)) as [r Hgen];
    [lia..|].
  exists r. split; [done|]. unfold engine_generate in Hgen.
  destruct (generate_inv _ _ _ _ _ _ Hgen)
    as (days & st & Hdays & _ & Hfill & Htotal & Hstaff & Hdist & _).
  pose proof (get_days_in_month_calendar _ _ _ Hdays) as (_ & Hmo & ->).
  pose proof (days_in_month_range (req_year q) (req_month q) Hmo) as Hrange.
  apply fill_phase_spec in Hfill as [Hlen Hrows].
  assert (res_month r = req_month q ∧ res_year r = req_year q) as [? ?].
  { unfold generate in Hgen. bind_inv Hgen days' Hd. cbv zeta in Hgen.
    bind_inv Hgen st' Hst. bind_inv Hgen rows Hr. bind_inv Hgen day1 H1.
    by injection Hgen as <-. }
  assert (length (staff_of STAFF_DB) = 33) as H33 by reflexivity.
  split; [done|]. split; [done|]. split; [done|].
  split; [rewrite Htotal; lia|]. split; [by rewrite Hstaff|].
  unfold total_assignments. fold (sum_values (shift_distribution r)).
  rewrite Hdist, (sum_values_shift_counts _ 33), Htotal; [lia|].
  intros entry He.
  apply list_elem_of_In, list_elem_of_lookup in He as [d Hd].
  destruct (Hrows d entry Hd) as [_ Hday].
  apply fill_day_spec in Hday as (cd & _ & _ & _ & _ & _ & _ & Hkeys & _);
    [|apply staff_of_nodup].
  apply (f_equal length) in Hkeys. unfold Dict.keys in Hkeys.
  rewrite !length_map in Hkeys. congruence.
Qed.

(** ** The rows of the export *)

Section ExportRows.
Variable staff_db : list Staff.
Variable leave_records : list LeaveEntry.
Variable fromisoformat : string → option date.

Local Abbreviation staff := (staff_of staff_db).
Local Abbreviation generate := (generate staff leave_records fromisoformat).

(** X18. When no staff code is [DATE] or [DAY], every row the Excel export
    builds from a generated roster has exactly the selected columns, in
    their order: the date, the day name and one duty for every staff code,
    the one of the roster. *)
Theorem export_rows_have_the_columns mo yr r d entry :
  generate mo yr = Some r →
  ¬ In "DATE" (Dict.keys staff) → ¬ In "DAY" (Dict.keys staff) →
  roster r !! d = Some entry →
  length (export_rows (roster r)) = length (roster r)
  ∧ ∃ row, export_rows (roster r) !! d = Some row
           ∧ Dict.keys row = export_cols staff
           ∧ Dict.get "DATE" row = Some (entry_date entry)
           ∧ Dict.get "DAY" row = Some (day_name entry)
           ∧ ∀ c, In c (Dict.keys staff) →
                  Dict.get c row = Dict.get c (assignments entry).
Proof.
  intros Hgen Hdate Hday Hrow.
  destruct (generate_inv _ _ _ _ _ _ Hgen) as (days & st & _ & _ & Hfill & _).
  apply fill_phase_spec in Hfill as [_ Hrows].
  destruct (Hrows d entry Hrow) as [_ Hfd].
  apply fill_day_spec in Hfd as (cd & _ & _ & _ & _ & _ & _ & Hkeys & _);
    [|apply staff_of_nodup].
  unfold export_rows. split; [by rewrite length_map|].
  rewrite list_lookup_fmap, Hrow. simpl. eexists. split; [done|].
  assert (dict_update [("DATE", entry_date entry); ("DAY", day_name entry)]
            (assignments entry)
          = ([("DATE", entry_date entry); ("DAY", day_name entry)]
             ++ assignments entry)%list) as ->.
  { apply fold_set_fresh.
    - fold (Dict.keys (assignments entry)). rewrite Hkeys. apply staff_of_nodup.
    - fold (Dict.keys (assignments entry)). rewrite Hkeys.
      intros k Hk [<-|[<-|[]]]; done. }
  split; [|split; [|split]].
  - unfold export_cols. simpl. f_equal. f_equal. exact Hkeys.
  - done.
  - done.
  - intros c Hc. cbn [Dict.get app].
    destruct (String.eqb "DATE" c) eqn:E1;
      [apply String.eqb_eq in E1; by subst|].
    destruct (String.eqb "DAY" c) eqn:E2;
      [apply String.eqb_eq in E2; by subst|]. done.
Qed.
End ExportRows.

(** ** Days outside the sequences *)

Lemma weekday_next y m d :
  weekday (Date y m (d + 1)) = ((weekday (Date y m d) + 1) mod 7)%Z.
Proof.
  unfold weekday, toordinal. cbn [year month day].
  rewrite Zplus_mod_idemp_l. f_equal. lia.
Qed.

Lemma div7_next d :
  (d + 1) / 7 = if (d + 1) mod 7 =? 0 then d / 7 + 1 else d / 7.
Proof.
  pose proof (Nat.div_mod_eq d 7) as Hd.
  pose proof (Nat.mod_upper_bound d 7 ltac:(lia)) as Hr.
  pose proof (Nat.div_mod_eq (d + 1) 7) as Hd1.
  pose proof (Nat.mod_upper_bound (d + 1) 7 ltac:(lia)) as Hr1.
  destruct ((d + 1) mod 7 =? 0) eqn:E;
    [apply Nat.eqb_eq in E | apply Nat.eqb_neq in E];
    generalize dependent (d / 7); generalize dependent ((d + 1) / 7);
    generalize dependent (d mod 7); generalize dependent ((d + 1) mod 7);
    intros; lia.
Qed.

Lemma even_next k : ((k + 1) mod 2 =? 0) = negb (k mod 2 =? 0).
Proof.
  pose proof (Nat.div_mod_eq k 2) as Hk.
  pose proof (Nat.mod_upper_bound k 2 ltac:(lia)) as Hr.
  pose proof (Nat.div_mod_eq (k + 1) 2) as Hk1.
  pose proof (Nat.mod_upper_bound (k + 1) 2 ltac:(lia)) as Hr1.
  destruct (k mod 2 =? 0) eqn:E; cbn [negb];
    [apply Nat.eqb_eq in E; apply Nat.eqb_neq
    |apply Nat.eqb_neq in E; apply Nat.eqb_eq];
    generalize dependent (k / 2); generalize dependent ((k + 1) / 2);
    generalize dependent (k mod 2); generalize dependent ((k + 1) mod 2);
    intros; lia.
Qed.

Lemma week_of_next d :
  (((d + 1) / 7) mod 2 =? 0)
  = (if (d + 1) mod 7 =? 0 then negb ((d / 7) mod 2 =? 0)
     else (d / 7) mod 2 =? 0).
Proof.
  rewrite div7_next. destruct ((d + 1) mod 7 =? 0); [apply even_next | done].
Qed.

Section FreeDays.
Variable staff_db : list Staff.
Variable leave_records : list LeaveEntry.
Variable fromisoformat : string → option date.

Local Abbreviation staff := (staff_of staff_db).
Local Abbreviation is_on_leave := (is_on_leave leave_records fromisoformat).
Local Abbreviation night_run := (night_run staff leave_records fromisoformat).
Local Abbreviation generate := (generate staff leave_records fromisoformat).

(** The duty of a cell the night phase left free, on a day without
    leave. *)
Lemma free_cell_duty mo yr r st d entry c cd :
  generate mo yr = Some r → night_run mo yr = Some st →
  roster r !! d = Some entry → In c (Dict.keys staff) →
  mk_date yr mo (Z.of_nat d + 1) = Some cd →
  is_on_leave c cd = Some false →
  cell_at (schedule st) c d = Some None →
  is_sunday entry = (weekday cd =? 6)%Z
  ∧ is_saturday entry = (weekday cd =? 5)%Z
  ∧ is_weekend entry = (5 <=? weekday cd)%Z
  ∧ Dict.get c (assignments entry)
    = Some (preferred_shift staff (night_shift_distribution r) c entry d).
Proof.
  intros Hgen Hrun Hrow Hc Hcd Hleave Hfree.
  destruct (generate_inv _ _ _ _ _ _ Hgen)
    as (days & st' & _ & Hrun' & Hfill & _ & _ & _ & Hdist).
  assert (st' = st) as -> by congruence.
  apply fill_phase_spec in Hfill as [_ Hrows].
  destruct (Hrows d entry Hrow) as [_ Hday].
  apply fill_day_spec in Hday
    as (cd' & Hcd' & _ & _ & Hsun & Hsat & Hwe & _ & Hcells);
    [|apply staff_of_nodup].
  assert (cd' = cd) as -> by congruence.
  destruct (Hcells c Hc) as (v & Hv & Hget).
  apply fill_cell_cases in Hv as (b & cur & Hb & -> & Hcur).
  assert (b = false) as -> by congruence.
  specialize (Hcur eq_refl). assert (cur = None) as -> by congruence.
  rewrite Hdist. done.
Qed.

(** X21. Outside leave and outside the night sequences the roster
    follows the preference profile: a cell of a day that is no leave day
    of the person and lies in none of the person's sequences holds the
    duty the profile gives for that day. *)
Theorem free_days_follow_the_preference mo yr r st d entry c cd :
  generate mo yr = Some r → night_run mo yr = Some st →
  roster r !! d = Some entry → In c (Dict.keys staff) →
  mk_date yr mo (Z.of_nat d + 1) = Some cd →
  is_on_leave c cd = Some false →
  (∀ d0, In (start_event d0 c) (history st) → ¬ (d0 ≤ d < d0 + 4)) →
  Dict.get c (assignments entry)
  = Some (preferred_shift staff (night_shift_distribution r) c entry d).
Proof.
  intros Hgen Hrun Hrow Hc Hcd Hleave Hout.
  destruct (roster_cell _ (staff_of_nodup _) _ _ _ _ _ _ _ _ _ Hgen Hrun Hrow Hc)
    as (cd' & v & Hcd' & _ & _ & Hfill & Hget).
  assert (cd' = cd) as -> by congruence.
  apply fill_cell_cases in Hfill as (b & cur & Hb & _ & Hcur).
  assert (b = false) as -> by congruence. specialize (Hcur eq_refl).
  destruct cur as [x|].
  - exfalso.
    destruct (written_cell_start _ _ _ _ _ _ _ _ _ Hrun Hcur)
      as (d0 & i & Hin & Hi & -> & _).
    apply (Hout d0 Hin). lia.
  - by eapply free_cell_duty.
Qed.

(** X22. The weekend shuffle alternates by blocks of seven days of the
    month, not by weekends: a member of the profile
    [oh_weekdays_pm_weekends] with the shuffle flag, free of leave and of
    sequences on a Saturday and the Sunday after it, has [PM] on one of
    the two days and [DO] on the other, except when the Sunday opens a
    new block of seven days (the month begins on a Sunday): then both
    days are [PM], or both are [DO]. *)
Theorem shuffled_weekends_alternate mo yr r st d sat sun c s pref cd cd' :
  generate mo yr = Some r → night_run mo yr = Some st →
  roster r !! d = Some sat → roster r !! (d + 1) = Some sun →
  is_saturday sat = true →
  Dict.get c staff = Some s → shift_preference s = Some pref →
  ptype pref = Some "oh_weekdays_pm_weekends" → shuffle pref = true →
  mk_date yr mo (Z.of_nat d + 1) = Some cd →
  mk_date yr mo (Z.of_nat (d + 1) + 1) = Some cd' →
  is_on_leave c cd = Some false → is_on_leave c cd' = Some false →
  cell_at (schedule st) c d = Some None →
  cell_at (schedule st) c (d + 1) = Some None →
  is_sunday sun = true
  ∧ (Dict.get c (assignments sat), Dict.get c (assignments sun))
    = if (d + 1) mod 7 =? 0
      then (if (d / 7) mod 2 =? 0 then (Some "PM", Some "PM")
            else (Some "DO", Some "DO"))
      else (if (d / 7) mod 2 =? 0 then (Some "PM", Some "DO")
            else (Some "DO", Some "PM")).
Proof.
  intros Hgen Hrun Hsat Hsun Hissat Hs Hpref Htype Hshuffle Hcd Hcd'
    Hl Hl' Hfree Hfree'.
  assert (In c (Dict.keys staff)) as Hc by (apply get_is_Some_keys; eauto).
  assert (get_staff_preference staff c = pref) as Hp.
  { unfold get_staff_preference. by rewrite Hs, Hpref. }
  destruct (free_cell_duty _ _ _ _ _ _ _ _ Hgen Hrun Hsat Hc Hcd Hl Hfree)
    as (Hsun1 & Hsat1 & Hwe1 & ->).
  destruct (free_cell_duty _ _ _ _ _ _ _ _ Hgen Hrun Hsun Hc Hcd' Hl' Hfree')
    as (Hsun2 & Hsat2 & Hwe2 & ->).
  apply mk_date_Some in Hcd as (-> & _). apply mk_date_Some in Hcd' as (-> & _).
  rewrite Hsat1 in Hissat. apply Z.eqb_eq in Hissat.
  replace (Z.of_nat (d + 1) + 1)%Z with (Z.of_nat d + 1 + 1)%Z in * by lia.
  rewrite weekday_next, Hissat in Hsun2, Hsat2, Hwe2.
  rewrite Hissat in Hsun1, Hwe1. simpl in Hsun1, Hwe1, Hsun2, Hsat2, Hwe2.
  split; [done|].
  unfold preferred_shift.
  rewrite Hp, Htype, Hshuffle, Hwe1, Hwe2, Hsun1, Hsun2, Hsat1, Hsat2, Hissat.
  cbn [default String.eqb Ascii.eqb Bool.eqb].
  rewrite week_of_next.
  destruct ((d + 1) mod 7 =? 0), ((d / 7) mod 2 =? 0); done.
Qed.
End FreeDays.

(** ** The night and emergency profiles come first *)

Section Priority.
Variable staff : dict Staff.
Variable leave_records : list LeaveEntry.
Variable fromisoformat : string → option date.
Variables (yr mo : Z) (days : nat).
Variables (night_eligible night_predominant : list string).

Local Abbreviation is_on_leave := (is_on_leave leave_records fromisoformat).
Local Abbreviation night_turn :=
  (night_turn leave_records fromisoformat yr mo days).
Local Abbreviation night_candidates :=
  (night_candidates leave_records fromisoformat yr mo days).
Local Abbreviation night_day :=
  (night_day leave_records fromisoformat yr mo days
     night_eligible night_predominant).
Local Abbreviation night_inv :=
  (night_inv leave_records fromisoformat yr mo days night_eligible).
Local Abbreviation off_leave := (off_leave leave_records fromisoformat yr mo).
Local Abbreviation ranked :=
  (ranked leave_records fromisoformat yr mo night_eligible night_predominant).

(** Once the cap is reached the loop is left. *)
Lemma night_candidates_capped d cd l st :
  2 ≤ assigned_tonight st → night_candidates d cd l st = Some st.
Proof.
  intros Hcap. destruct l as [|c l]; [done|].
  rewrite night_candidates_cons.
  apply Nat.leb_le in Hcap. by rewrite Hcap.
Qed.

Lemma night_candidates_app d cd l1 l2 st :
  night_candidates d cd (l1 ++ l2) st
  = st1 ← night_candidates d cd l1 st; night_candidates d cd l2 st1.
Proof.
  revert st. induction l1 as [|c l1 IH]; intros st; [done|].
  rewrite <- app_comm_cons, !night_candidates_cons.
  destruct (2 <=? assigned_tonight st) eqn:Hcap.
  - cbn [mbind option_bind]. symmetry. apply night_candidates_capped.
    by apply Nat.leb_le.
  - destruct (night_turn d cd st c) as [st1|]; [|done].
    cbn [mbind option_bind]. apply IH.
Qed.

(** The loop commits for the candidates of its list only. *)
Lemma night_candidates_commits d cd l st st' c :
  night_inv st → mk_date yr mo (Z.of_nat d + 1) = Some cd →
  weekday cd ≠ 6%Z → (∀ c, In c l → In c night_eligible) →
  night_candidates d cd l st = Some st' →
  In (start_event d c) (history st') →
  In (start_event d c) (history st) ∨ In c l.
Proof.
  intros Hinv Hcd Hwd. revert st Hinv.
  induction l as [|x l IH]; intros st Hinv Hel H Hin.
  - injection H as <-. by left.
  - rewrite night_candidates_cons in H.
    destruct (2 <=? assigned_tonight st); [injection H as <-; by left|].
    bind_inv H st1 Hturn.
    destruct (night_turn_inv _ _ _ _ _ _ _ _ _ _ _ Hinv Hcd Hwd
                (Hel x (or_introl eq_refl)) Hturn) as [Hinv1 Hstep].
    destruct (IH st1 Hinv1 (λ c' Hc', Hel c' (or_intror Hc')) H Hin)
      as [Hin1|Hl]; [|right; by right].
    destruct Hstep as [->|[Hh _]]; [by left|].
    rewrite Hh, in_app_iff in Hin1. destruct Hin1 as [?|[[= ->]|[]]].
    + by left.
    + right. by left.
Qed.

(** Who commits in the loop has seen every candidate before them take
    their turn. *)
Lemma night_candidates_priority d cd l1 c l2 st st' :
  night_inv st → covered st → (∀ e, In e (history st) → ev_day e ≤ d) →
  mk_date yr mo (Z.of_nat d + 1) = Some cd → weekday cd ≠ 6%Z →
  d + 3 < days → (∀ x, In x (l1 ++ c :: l2) → In x night_eligible) →
  night_candidates d cd (l1 ++ c :: l2) st = Some st' →
  ¬ In (start_event d c) (history st) → ¬ In c l1 →
  In (start_event d c) (history st') →
  ∀ p, In p l1 → off_leave p d → cell_at (schedule st') p d ≠ Some None.
Proof.
  intros Hinv Hcov Hpast Hcd Hwd Hfit Hel H Hnew Hc Hin p Hp Hoff.
  rewrite night_candidates_app in H. bind_inv H st1 H1.
  assert (∀ x, In x l1 → In x night_eligible) as Hel1.
  { intros x Hx. apply Hel, in_app_iff. by left. }
  assert (∀ x, In x (c :: l2) → In x night_eligible) as Hel2.
  { intros x Hx. apply Hel, in_app_iff. by right. }
  destruct (night_candidates_inv _ _ _ _ _ _ _ _ _ _ _ Hinv Hcd Hwd Hel1 H1)
    as (Hinv1 & _).
  assert (¬ In (start_event d c) (history st1)) as Hnew1.
  { intros Hin1.
    destruct (night_candidates_commits _ _ _ _ _ _ Hinv Hcd Hwd Hel1 H1 Hin1);
      done. }
  destruct (night_candidates_greedy _ _ _ _ _ _ _ _ _ _ _ Hinv Hcov Hpast Hcd
              Hwd Hfit Hel1 H1) as [Hfull|Hall].
  - rewrite night_candidates_capped in H by done. injection H as <-. done.
  - eapply (night_candidates_keeps leave_records fromisoformat yr mo days
              night_eligible
              (λ st, cell_at (schedule st) p d ≠ Some None));
      [ | exact Hinv1 | by apply Hall | exact Hcd | exact Hwd
        | exact Hel2 | exact H ].
    intros d0 c0 st0 st2 _ Hkeep _ _ _ Hstart.
    by eapply cell_kept_by_start.
Qed.

Lemma night_day_ranked st d st' :
  night_inv st → covered st → (∀ e, In e (history st) → ev_day e < d) →
  night_day st d = Some st' → ranked d st'.
Proof.
  intros Hinv Hcov Hpast Hday c p Hin Hc Hp Hpe Hoff.
  destruct (night_day_inv _ _ _ _ _ _ _ _ _ _ Hinv Hday) as (Hinv' & _).
  destruct (inv_events _ _ _ _ _ _ _ Hinv' _ Hin) as (_ & Hfit & _).
  simpl in Hfit.
  assert (¬ In (start_event d c) (history st)) as Hnew.
  { intros Hold. specialize (Hpast _ Hold). simpl in Hpast. lia. }
  unfold night_day in Hday. bind_inv Hday cd Hcd.
  destruct (weekday cd =? 6)%Z eqn:Hwd; [by injection Hday as <-|].
  apply Z.eqb_neq in Hwd. bind_inv Hday candidates Hcands.
  pose proof (λ x, candidates_of_eligible _ _ _ _ x Hcands) as Hel.
  assert (In c candidates) as Hcc.
  { destruct (night_candidates_commits _ _ _ _ _ _
                (reset_tonight_inv _ _ _ _ _ _ _ Hinv) Hcd Hwd Hel Hday Hin);
      done. }
  unfold candidates_of in Hcands. bind_inv Hcands prio Hprio.
  bind_inv Hcands others Hothers. injection Hcands as <-.
  assert (In p prio) as Hpp.
  { eapply sorted_by_count_In_2; [done|]. apply filter_In.
    split; [done | by apply str_in_In]. }
  assert (¬ In c prio) as Hcp.
  { intros Hx. eapply sorted_by_count_In in Hx; [|done].
    by apply filter_In in Hx as [Hx _]. }
  apply in_app_iff in Hcc as [?|Hco]; [done|].
  apply list_elem_of_In, list_elem_of_split_l in Hco
    as (o1 & o2 & -> & Hfirst).
  rewrite app_assoc in Hday, Hel.
  eapply (night_candidates_priority d cd (prio ++ o1) c o2 (reset_tonight st));
    [by apply reset_tonight_inv | exact Hcov | | exact Hcd | exact Hwd
    | exact Hfit | exact Hel | exact Hday | exact Hnew | | exact Hin
    | | exact Hoff].
  - intros e He. specialize (Hpast e He). simpl in He. lia.
  - rewrite in_app_iff. intros [?|Ho]; [done|].
    by apply list_elem_of_In in Ho.
  - apply in_app_iff. by left.
Qed.

Lemma night_days_ranked a n st st' :
  night_inv st → covered st → (∀ e, In e (history st) → ev_day e < a) →
  (∀ d, d < a → ranked d st) →
  for_each night_day (seq a n) st = Some st' →
  ∀ d, d < a + n → ranked d st'.
Proof.
  revert a st. induction n as [|n IH]; intros a st Hinv Hcov Hpast Hdone H.
  - injection H as <-. intros d Hd. apply Hdone. lia.
  - change (seq a (S n)) with (a :: seq (S a) n) in H.
    rewrite for_each_cons in H. bind_inv H st1 Hday.
    destruct (night_day_inv _ _ _ _ _ _ _ _ _ _ Hinv Hday)
      as (Hinv1 & new & Hh & _ & Hnew).
    pose proof (night_day_covered _ _ _ _ _ _ _ _ _ _ Hinv Hcov Hday) as Hcov1.
    replace (a + S n) with (S a + n) by lia.
    apply (IH (S a) st1); try done.
    + intros e. rewrite Hh, in_app_iff. intros [He|He].
      * specialize (Hpast e He). lia.
      * destruct (Hnew e He) as [c ->]. simpl. lia.
    + intros d Hd.
      destruct (decide (d = a)) as [->|Hne];
        [exact (night_day_ranked st a st1 Hinv Hcov Hpast Hday)|].
      intros c p Hin Hc Hp Hpe Hoff.
      eapply night_day_keeps_cell; [exact Hinv| |exact Hday].
      apply (Hdone d ltac:(lia) c p); try done.
      rewrite Hh, in_app_iff in Hin. destruct Hin as [?|Hin]; [done|].
      destruct (Hnew _ Hin) as [c' [= ? ?]]. lia.
Qed.

Lemma night_phase_ranked st d :
  night_phase staff leave_records fromisoformat yr mo days
    night_eligible night_predominant = Some st →
  ranked d st.
Proof.
  unfold night_phase. intros H.
  destruct (decide (d < days)) as [Hd|Hd].
  - eapply (night_days_ranked 0 days); [| | | |exact H|lia].
    + apply initial_inv.
    + intros c i v Hc. apply initial_cell in Hc. discriminate.
    + intros e [].
    + intros d0 Hd0. lia.
  - intros c p Hin.
    destruct (night_phase_inv _ _ _ _ _ _ _ _ _ H) as (_ & Hbound & _).
    specialize (Hbound _ Hin). simpl in Hbound. lia.
Qed.
End Priority.

Section NightPriority.
Variable staff_db : list Staff.
Variable leave_records : list LeaveEntry.
Variable fromisoformat : string → option date.

Local Abbreviation staff := (staff_of staff_db).
Local Abbreviation is_on_leave := (is_on_leave leave_records fromisoformat).
Local Abbreviation night_run := (night_run staff leave_records fromisoformat).

(** X23. The night and emergency profiles are served first: on a day on
    which someone of another profile starts a sequence, every night
    candidate of those two profiles without leave on that day and the
    three days after it is in a sequence. *)
Theorem other_profiles_start_last mo yr st d c p :
  night_run mo yr = Some st →
  In (start_event d c) (history st) →
  prefers_nights staff c = false →
  In p (night_eligible_codes staff) → prefers_nights staff p = true →
  (∀ i, i < 4 →
     ∃ dt, mk_date yr mo (Z.of_nat (d + i) + 1) = Some dt
           ∧ is_on_leave p dt = Some false) →
  ∃ d0, In (start_event d0 p) (history st) ∧ d0 ≤ d < d0 + 4.
Proof.
  intros Hrun Hin Hc Hp Hpp Hoff.
  destruct (night_run_inv _ _ _ _ _ _ Hrun) as (days & Hdays & Hinv & _).
  pose proof Hrun as Hphase. unfold night_run in Hphase.
  rewrite Hdays in Hphase. cbn [mbind option_bind] in Hphase.
  cbv zeta in Hphase.
  destruct (inv_events _ _ _ _ _ _ _ Hinv _ Hin) as (_ & Hfit & _).
  simpl in Hfit.
  pose proof (night_phase_ranked _ _ _ _ _ _ _ _ _ d Hphase c p Hin) as Hcell.
  destruct (night_phase_rows _ _ _ _ _ _ _ _ _ p d Hphase) as [cur Hcur];
    [by apply In_night_eligible_codes | lia |].
  destruct cur as [v|].
  - destruct (written_cell_start _ _ _ _ _ _ _ _ _ Hrun Hcur)
      as (d0 & i & Hin0 & Hi & -> & _).
    exists d0. split; [done|lia].
  - exfalso. apply Hcell; try done.
    + intros Hx. apply In_predominant in Hx as [_ Hx]. congruence.
    + by apply In_predominant.
    + intros i Hi. destruct (Hoff i Hi) as (dt & Hdt & Hfalse).
      exists dt. split; [|done].
      by replace (Z.of_nat (d + i + 1)) with (Z.of_nat (d + i) + 1)%Z by lia.
Qed.
End NightPriority.

(** ** The further properties on the tables of the source *)

(** GOD's night of Sunday 4 January 2026 is the second night of the
    sequence started the day before. *)
Lemma nights_lie_in_full_sequences_witness :
  ∃ r, engine_generate 1 2026 = Some r
       ∧ assignment (roster r) 3 "GOD" = Some "N"
       ∧ In "GOD" (night_eligible_codes (staff_of STAFF_DB))
       ∧ ∃ d0 i, 3 = d0 + i ∧ i < 3 ∧ "N" = pattern_shift i
                 ∧ assignment (roster r) d0 "GOD" = Some "N"
                 ∧ assignment (roster r) (d0 + 1) "GOD" = Some "N"
                 ∧ assignment (roster r) (d0 + 2) "GOD" = Some "SD"
                 ∧ assignment (roster r) (d0 + 3) "GOD" = Some "DO".
Proof.
  eexists. split; [vm_compute; reflexivity|].
  split; [vm_compute; reflexivity|].
  eapply (nights_lie_in_full_sequences STAFF_DB LEAVE_2026 fromisoformat_ymd
            1 2026 _ 3 "GOD" "N").
  - vm_compute; reflexivity.
  - vm_compute; reflexivity.
  - by left.
Defined.

(** GOD is reported with 14 nights in January 2026 and has 14 rows with
    [N]. *)
Lemma night_distribution_counts_roster_nights_witness :
  ∃ r, engine_generate 1 2026 = Some r
       ∧ Dict.get "GOD" (night_shift_distribution r) = Some 14
       ∧ 14 = nights_in_roster (roster r) "GOD".
Proof.
  eexists. split; [vm_compute; reflexivity|].
  split; [vm_compute; reflexivity|].
  eapply (night_distribution_counts_roster_nights STAFF_DB LEAVE_2026
            fromisoformat_ymd 1 2026 _ "GOD" 14).
  - vm_compute; reflexivity.
  - vm_compute; reflexivity.
Defined.

(** On Thursday 10 December 2026 one sequence starts; MIK, without leave
    that week, is in the sequence started the day before. *)
Lemma nights_are_staffed_when_possible_witness :
  ∃ st, engine_night_run 12 2026 = Some st
        ∧ starts_on 9 (history st) = 1
        ∧ ∃ d0, In (start_event d0 "MIK") (history st) ∧ d0 ≤ 9 < d0 + 4.
Proof.
  eexists. split; [vm_compute; reflexivity|].
  split; [vm_compute; reflexivity|].
  match goal with
  | |- ∃ d0, In _ (history ?st) ∧ _ =>
      destruct (nights_are_staffed_when_possible STAFF_DB LEAVE_2026
                  fromisoformat_ymd 12 2026 st 31%Z 9 (Date 2026 12 10) "MIK")
        as [Hfull|Hin]
  end.
  - vm_compute; reflexivity.
  - vm_compute; reflexivity.
  - vm_compute; lia.
  - vm_compute; reflexivity.
  - vm_compute; discriminate.
  - vm_compute; auto 20.
  - intros i Hi.
    do 4 (destruct i as [|i];
          [eexists; split; vm_compute; reflexivity|]).
    lia.
  - vm_compute in Hfull. discriminate.
  - exact Hin.
Defined.

(** Four people are on night duty on 2 January 2026. *)
Lemma at_most_four_on_night_witness :
  ∃ r entry, engine_generate 1 2026 = Some r ∧ roster r !! 1 = Some entry
             ∧ on_night entry = ["MIK"; "SANG"; "JISKAKA"; "YSUPH"]
             ∧ length (on_night entry) ≤ 4.
Proof.
  eexists. eexists. split; [vm_compute; reflexivity|].
  split; [vm_compute; reflexivity|]. split; [vm_compute; reflexivity|].
  refine (proj1 (at_most_four_on_night STAFF_DB LEAVE_2026 fromisoformat_ymd
                   1 2026 _ 1 _ _ _)).
  - vm_compute; reflexivity.
  - vm_compute; reflexivity.
Defined.

(** The candidates of the first day, when nobody has a night yet: the
    five of the night and emergency profiles, then the four others. *)
Lemma candidates_are_tried_by_need_witness :
  ∃ candidates,
    candidates_of (night_eligible_codes (staff_of STAFF_DB))
      (night_predominant_codes (staff_of STAFF_DB)
         (night_eligible_codes (staff_of STAFF_DB)))
      (initial_state (staff_of STAFF_DB) 31
         (night_eligible_codes (staff_of STAFF_DB)))
    = Some candidates
    ∧ candidates = ["MIK"; "SANG"; "JISKAKA"; "YSUPH"; "GOD"; "DATUS";
                    "OMAR"; "NYAKUNGA"; "NEEM"]
    ∧ candidates ≡ₚ night_eligible_codes (staff_of STAFF_DB).
Proof.
  eexists. split; [vm_compute; reflexivity|]. split; [reflexivity|].
  refine (proj1 (candidates_are_tried_by_need STAFF_DB
                   (initial_state (staff_of STAFF_DB) 31
                      (night_eligible_codes (staff_of STAFF_DB))) _ _)).
  vm_compute; reflexivity.
Defined.

(** The shift distribution of January 2026 has seven of the eight
    codes. *)
Lemma duties_are_known_codes_witness :
  ∃ r, engine_generate 1 2026 = Some r
       ∧ Dict.keys (shift_distribution r)
         = ["OH"; "N"; "OH+EMD"; "OH+BIMA"; "PM"; "DO"; "SD"]
       ∧ ∀ v, In v (Dict.keys (shift_distribution r)) → In v duty_codes.
Proof.
  eexists. split; [vm_compute; reflexivity|]. split; [vm_compute; reflexivity|].
  refine (proj2 (duties_are_known_codes STAFF_DB LEAVE_2026 fromisoformat_ymd
                   1 2026 _ _)).
  vm_compute; reflexivity.
Defined.

(** FRANK, of the emergency profile but not night-eligible, on Thursday 1
    January 2026. *)
Lemma non_candidates_keep_day_duties_witness :
  ∃ r entry,
    engine_generate 1 2026 = Some r ∧ roster r !! 0 = Some entry
    ∧ Dict.get "FRANK" (assignments entry) = Some "OH+EMD"
    ∧ ∃ on_leave : bool,
        is_on_leave LEAVE_2026 fromisoformat_ymd "FRANK" (Date 2026 1 1)
        = Some on_leave
        ∧ Dict.get "FRANK" (assignments entry)
          = Some (if on_leave then "A"
                  else preferred_shift (staff_of STAFF_DB)
                         (night_shift_distribution r) "FRANK" entry 0).
Proof.
  eexists. eexists. split; [vm_compute; reflexivity|].
  split; [vm_compute; reflexivity|]. split; [vm_compute; reflexivity|].
  refine (non_candidates_keep_day_duties STAFF_DB LEAVE_2026 fromisoformat_ymd
            1 2026 _ 0 _ "FRANK" (Date 2026 1 1) _ _ _ _ _).
  - vm_compute; reflexivity.
  - vm_compute; reflexivity.
  - vm_compute; auto 40.
  - vm_compute. intros H.
    repeat (destruct H as [H|H]; [discriminate|]). destruct H.
  - vm_compute; reflexivity.
Defined.

(** NJAM, whose weekend day is Sunday, on Sunday 4 January 2026. *)
Lemma strict_oh_keeps_office_hours_witness :
  ∃ r entry,
    engine_generate 1 2026 = Some r ∧ roster r !! 3 = Some entry
    ∧ is_sunday entry = true
    ∧ Dict.get "NJAM" (assignments entry) = Some "OH".
Proof.
  eexists. eexists. split; [vm_compute; reflexivity|].
  split; [vm_compute; reflexivity|]. split; [vm_compute; reflexivity|].
  refine (strict_oh_keeps_office_hours STAFF_DB LEAVE_2026 fromisoformat_ymd
            1 2026 _ 3 _ "NJAM"
            (mk_staff "NJAM" false
               (mk_pref "strict_oh" (Some "Sunday") false false))
            {| ptype := Some "strict_oh"; weekend_day := Some "Sunday";
               shuffle := false; night_emd := false |}
            (Date 2026 1 4) _ _ _ _ _ _ _).
  - vm_compute; reflexivity.
  - vm_compute; reflexivity.
  - vm_compute; reflexivity.
  - vm_compute; reflexivity.
  - vm_compute; reflexivity.
  - vm_compute; reflexivity.
  - vm_compute; reflexivity.
Defined.

(** The row of Sunday 4 January 2026. *)
Lemma roster_rows_are_dated_witness :
  ∃ r entry,
    engine_generate 1 2026 = Some r ∧ roster r !! 3 = Some entry
    ∧ entry_date entry = "2026-01-04"
    ∧ ∃ cd, mk_date 2026 1 (Z.of_nat 3 + 1) = Some cd
            ∧ fromisoformat_ymd (entry_date entry) = Some cd
            ∧ day_number entry = 3 + 1
            ∧ day_name entry = day_name_of cd
            ∧ (is_sunday entry = true ↔ day_name entry = "Sunday")
            ∧ (is_saturday entry = true ↔ day_name entry = "Saturday")
            ∧ is_weekend entry = is_saturday entry || is_sunday entry.
Proof.
  eexists. eexists. split; [vm_compute; reflexivity|].
  split; [vm_compute; reflexivity|]. split; [vm_compute; reflexivity|].
  refine (roster_rows_are_dated STAFF_DB LEAVE_2026 fromisoformat_ymd
            1 2026 _ 3 _ _ _).
  - vm_compute; reflexivity.
  - vm_compute; reflexivity.
Defined.

(** The engine of the source answers on January 2026 and raises on a
    month 13. *)
Lemma generate_raises_exactly_witness :
  leave_table_parses LEAVE_2026 fromisoformat_ymd
  ∧ (is_Some (engine_generate 1 2026) ↔ month_ok 2026 1 = true)
  ∧ (is_Some (engine_generate 13 2026) ↔ month_ok 2026 13 = true)
  ∧ month_ok 2026 13 = false.
Proof.
  split; [apply leave_table_2026_parses|].
  split; [|split; [|reflexivity]].
  - apply (generate_raises_exactly STAFF_DB LEAVE_2026 fromisoformat_ymd 1 2026).
    apply leave_table_2026_parses.
  - apply (generate_raises_exactly STAFF_DB LEAVE_2026 fromisoformat_ymd 13 2026).
    apply leave_table_2026_parses.
Defined.

(** A table that lists the code [A] twice. *)
Lemma staff_of_last_wins_witness :
  Dict.get "A" (staff_of [mk_staff "A" true None; mk_staff "A" false None;
                          mk_staff "B" false None])
  = Some (mk_staff "A" false None)
  ∧ Dict.keys (staff_of [mk_staff "A" true None; mk_staff "A" false None;
                         mk_staff "B" false None]) = ["A"; "B"].
Proof.
  split; [|reflexivity].
  refine (proj1 (staff_of_last_wins [mk_staff "A" true None]
                   (mk_staff "A" false None) [mk_staff "B" false None] _)).
  intros s' [<-|[]]. discriminate.
Defined.

(** Two periods of one person, in either order. *)
Lemma is_on_leave_ignores_order_witness :
  is_on_leave [mk_leave "X" "2026-01-01" "2026-01-10";
               mk_leave "X" "2026-02-01" "2026-02-10"]
    fromisoformat_ymd "X" (Date 2026 2 5)
  = is_on_leave [mk_leave "X" "2026-02-01" "2026-02-10";
                 mk_leave "X" "2026-01-01" "2026-01-10"]
      fromisoformat_ymd "X" (Date 2026 2 5).
Proof.
  apply is_on_leave_ignores_order.
  - apply Permutation_swap.
  - intros entry [<-|[<-|[]]] _; split; vm_compute; eauto.
Defined.


(** The roster of January 2026, with MIK's night of the first day. *)
Lemma generated_nights_fail_validation_witness :
  ∃ r, engine_generate 1 2026 = Some r
       ∧ assignment (roster r) 0 "MIK" = Some "N"
       ∧ ∃ v, validate_roster (json_rows (roster r)) ["night_pattern"] = Some v
              ∧ valid v = false.
Proof.
  eexists. split; [vm_compute; reflexivity|].
  split; [vm_compute; reflexivity|].
  refine (generated_nights_fail_validation STAFF_DB LEAVE_2026
            fromisoformat_ymd 1 2026 _ 0 "MIK" ["night_pattern"] _ _ _ _).
  - vm_compute; reflexivity.
  - vm_compute; reflexivity.
  - vm_compute; lia.
  - simpl; auto.
Defined.

(** The request for February 2028, a leap year. *)
Lemma valid_requests_get_a_roster_witness :
  ∃ r, engine_generate 2 2028 = Some r
       ∧ res_month r = 2%Z ∧ res_year r = 2028%Z
       ∧ total_days r = days_in_month 2028 2
       ∧ Z.of_nat (length (roster r)) = total_days r
       ∧ total_staff r = 33
       ∧ Z.of_nat (total_assignments r) = (33 * total_days r)%Z.
Proof.
  apply (valid_requests_get_a_roster
           {| req_month := 2; req_year := 2028; include_excel := false;
              req_format := "json" |}).
  reflexivity.
Defined.

(** The first row of the export of January 2026. *)
Lemma export_rows_have_the_columns_witness :
  ∃ r entry,
    engine_generate 1 2026 = Some r ∧ roster r !! 0 = Some entry
    ∧ length (export_rows (roster r)) = length (roster r)
    ∧ ∃ row, export_rows (roster r) !! 0 = Some row
             ∧ Dict.keys row = export_cols (staff_of STAFF_DB)
             ∧ Dict.get "DATE" row = Some (entry_date entry)
             ∧ Dict.get "DAY" row = Some (day_name entry)
             ∧ ∀ c, In c (Dict.keys (staff_of STAFF_DB)) →
                    Dict.get c row = Dict.get c (assignments entry).
Proof.
  eexists. eexists. split; [vm_compute; reflexivity|].
  split; [vm_compute; reflexivity|].
  refine (export_rows_have_the_columns STAFF_DB LEAVE_2026 fromisoformat_ymd
            1 2026 _ 0 _ _ _ _ _).
  - vm_compute; reflexivity.
  - vm_compute. intros H.
    repeat (destruct H as [H|H]; [discriminate|]). destruct H.
  - vm_compute. intros H.
    repeat (destruct H as [H|H]; [discriminate|]). destruct H.
  - vm_compute; reflexivity.
Defined.

(** GOD on Sunday 11 January 2026, between the sequences started on the
    7th and on the 12th. *)
Lemma free_days_follow_the_preference_witness :
  ∃ r st entry,
    engine_generate 1 2026 = Some r ∧ engine_night_run 1 2026 = Some st
    ∧ roster r !! 10 = Some entry
    ∧ preferred_shift (staff_of STAFF_DB) (night_shift_distribution r)
        "GOD" entry 10 = "DO"
    ∧ Dict.get "GOD" (assignments entry)
      = Some (preferred_shift (staff_of STAFF_DB) (night_shift_distribution r)
                "GOD" entry 10).
Proof.
  eexists. eexists. eexists. split; [vm_compute; reflexivity|].
  split; [vm_compute; reflexivity|]. split; [vm_compute; reflexivity|].
  split; [vm_compute; reflexivity|].
  refine (free_days_follow_the_preference STAFF_DB LEAVE_2026 fromisoformat_ymd
            1 2026 _ _ 10 _ "GOD" (Date 2026 1 11) _ _ _ _ _ _ _).
  - vm_compute; reflexivity.
  - vm_compute; reflexivity.
  - vm_compute; reflexivity.
  - vm_compute; auto 40.
  - vm_compute; reflexivity.
  - vm_compute; reflexivity.
  - intros d0 Hin. vm_compute in Hin.
    repeat (destruct Hin as [Hin|Hin];
            [first [discriminate | injection Hin as <-; lia]|]).
    destruct Hin.
Defined.

(** February 2026 begins on a Sunday: AGRIPIN has [PM] on Saturday the
    7th and on Sunday the 8th. *)
Lemma shuffled_weekends_alternate_witness :
  ∃ r sat sun,
    engine_generate 2 2026 = Some r
    ∧ roster r !! 6 = Some sat ∧ roster r !! 7 = Some sun
    ∧ is_sunday sun = true
    ∧ (Dict.get "AGRIPIN" (assignments sat), Dict.get "AGRIPIN" (assignments sun))
      = (Some "PM", Some "PM").
Proof.
  eexists. eexists. eexists. split; [vm_compute; reflexivity|].
  split; [vm_compute; reflexivity|]. split; [vm_compute; reflexivity|].
  refine (shuffled_weekends_alternate STAFF_DB LEAVE_2026 fromisoformat_ymd
            2 2026 _ _ 6 _ _ "AGRIPIN"
            (mk_staff "AGRIPIN" false
               (mk_pref "oh_weekdays_pm_weekends" (Some "Saturday") true false))
            {| ptype := Some "oh_weekdays_pm_weekends";
               weekend_day := Some "Saturday";
               shuffle := true; night_emd := false |}
            (Date 2026 2 7) (Date 2026 2 8) _ _ _ _ _ _ _ _ _ _ _ _ _ _ _).
  - vm_compute; reflexivity.
  - vm_compute; reflexivity.
  - vm_compute; reflexivity.
  - vm_compute; reflexivity.
  - vm_compute; reflexivity.
  - vm_compute; reflexivity.
  - vm_compute; reflexivity.
  - vm_compute; reflexivity.
  - vm_compute; reflexivity.
  - vm_compute; reflexivity.
  - vm_compute; reflexivity.
  - vm_compute; reflexivity.
  - vm_compute; reflexivity.
  - vm_compute; reflexivity.
  - vm_compute; reflexivity.
Defined.

(** OMAR starts a sequence on Thursday 8 January 2026; MIK is then in the
    sequence started on the 5th. *)
Lemma other_profiles_start_last_witness :
  ∃ st, engine_night_run 1 2026 = Some st
        ∧ In (start_event 7 "OMAR") (history st)
        ∧ ∃ d0, In (start_event d0 "MIK") (history st) ∧ d0 ≤ 7 < d0 + 4.
Proof.
  eexists. split; [vm_compute; reflexivity|]. split; [vm_compute; auto 20|].
  refine (other_profiles_start_last STAFF_DB LEAVE_2026 fromisoformat_ymd
            1 2026 _ 7 "OMAR" "MIK" _ _ _ _ _ _).
  - vm_compute; reflexivity.
  - vm_compute; auto 20.
  - vm_compute; reflexivity.
  - vm_compute; auto 20.
  - vm_compute; reflexivity.
  - intros i Hi.
    do 4 (destruct i as [|i];
          [eexists; split; vm_compute; reflexivity|]).
    lia.
Defined.
